(** * ZKP-FL advanced dashboard: scanner, aggregator, queries and run supervisor

    A shallow embedding of [advanced_dashboard/server.py].  Python values that
    come out of [json.load] are modelled by the inductive type [json]; the
    functions of the server become Rocq functions over it, exceptions become
    the [Raise] constructor of [result], and the module-level globals
    ([benchmark_status], [current_benchmark_process], the process working
    directory) become fields of an explicit state record. *)

From Stdlib Require Import ZArith QArith Qround Qabs Bool List String Ascii Lia.
From Stdlib Require Import Permutation DecimalString Sorted Lqa.
Import ListNotations.

Set Implicit Arguments.
Set Warnings "-register-all".

(** ** Python values, exceptions, and the handful of builtins the server uses *)

Module Py.

(** A Python float is an IEEE 754 double.  A finite double is kept as its
    exact value, a rational; negative zero, the infinities and NaN have
    constructors of their own.  Every operation below rounds its exact result
    to the nearest double, so what it returns is a double again. *)
Inductive float : Type :=
| Finite (q : Q)
| NegZero
| Infinity (negative : bool)
| NaN.

(** A Python number: an int of any size, or a float. *)
Inductive number : Type :=
| Int (z : Z)
| Float (x : float).

(** What [json.load] returns: a JSON integer literal becomes an int, any other
    number literal a float. *)
Inductive json : Type :=
| JNull
| JBool (b : bool)
| JNum (n : number)
| JStr (s : string)
| JArr (l : list json)
| JObj (kvs : list (string * json)).

(** The exceptions that can travel through the modelled code.
    [KeyboardInterrupt] stands for the [BaseException]s that an
    [except Exception] clause does not catch; all the others are
    [Exception]s.  [JSONDecodeError] and [UnicodeDecodeError] are subclasses
    of [ValueError], which matters to no handler of the server: the only
    selective handler names [JSONDecodeError] and [KeyError]. *)
Inductive exn : Type :=
| JSONDecodeError
| UnicodeDecodeError
| ValueError
| RecursionError
| KeyError
| TypeError
| AttributeError
| ZeroDivisionError
| OverflowError
| OSError
| TimeoutExpired
| KeyboardInterrupt
| HTTPException (status : Z) (detail : string).

Inductive result (A : Type) : Type :=
| Ok (a : A)
| Raise (e : exn).
Arguments Ok {A} a.
Arguments Raise {A} e.

Definition bind {A B} (r : result A) (k : A -> result B) : result B :=
  match r with
  | Ok a => k a
  | Raise e => Raise e
  end.

Declare Scope py_scope.
Delimit Scope py_scope with py.
Notation "x <- e ;; k" := (bind e (fun x => k))
  (at level 61, e at next level, right associativity) : py_scope.
Open Scope py_scope.

(** [isinstance(e, Exception)]. *)
Definition is_exception (e : exn) : bool :=
  match e with
  | KeyboardInterrupt => false
  | _ => true
  end.

(** *** dict operations on the insertion-ordered key/value list *)

Fixpoint dict_get (k : string) (d : list (string * json)) : option json :=
  match d with
  | [] => None
  | (k', v) :: d' => if String.eqb k k' then Some v else dict_get k d'
  end.

Definition dict_mem (k : string) (d : list (string * json)) : bool :=
  match dict_get k d with Some _ => true | None => false end.

(** [d[k] = v]: overwrite in place when the key exists, append otherwise. *)
Fixpoint dict_set (k : string) (v : json) (d : list (string * json))
  : list (string * json) :=
  match d with
  | [] => [(k, v)]
  | (k', v') :: d' =>
      if String.eqb k k' then (k', v) :: d' else (k', v') :: dict_set k v d'
  end.

(** [x.get(k, default)]; anything but a dict has no [get] attribute. *)
Definition py_get (x : json) (k : string) (default : json) : result json :=
  match x with
  | JObj d => Ok (match dict_get k d with Some v => v | None => default end)
  | _ => Raise AttributeError
  end.

Definition isinstance_dict (x : json) : bool :=
  match x with JObj _ => true | _ => false end.

(** Truth value of a number: zero of either sign is false, NaN is true. *)
Definition number_truthy (n : number) : bool :=
  match n with
  | Int z => negb (z =? 0)%Z
  | Float (Finite q) => negb (Qeq_bool q 0)
  | Float NegZero => false
  | Float (Infinity _) => true
  | Float NaN => true
  end.

(** Truth value of a Python object ([if x], [not x], [x or y]). *)
Definition truthy (v : json) : bool :=
  match v with
  | JNull => false
  | JBool b => b
  | JNum n => number_truthy n
  | JStr s => negb (String.eqb s "")
  | JArr l => match l with [] => false | _ => true end
  | JObj d => match d with [] => false | _ => true end
  end.

Definition py_or (a b : json) : json := if truthy a then a else b.

(** An int, a float or a bool as a number: [bool] is a subclass of [int]. *)
Definition as_number (v : json) : option number :=
  match v with
  | JNum n => Some n
  | JBool true => Some (Int 1)
  | JBool false => Some (Int 0)
  | _ => None
  end.

(** The exact value of a number that has one. *)
Definition exact_value (n : number) : option Q :=
  match n with
  | Int z => Some (inject_Z z)
  | Float (Finite q) => Some q
  | Float NegZero => Some 0%Q
  | Float (Infinity _) => None
  | Float NaN => None
  end.

(** Equality of two numbers as the membership tests of the server see it.
    Ints and floats compare by exact value.  [x in l] and dict lookup take
    identical objects for equal before they ask [==], and [json.load] returns
    one and the same object for every [NaN] literal, so that NaN counts as
    equal to itself here. *)
Definition number_eq (a b : number) : bool :=
  match exact_value a, exact_value b with
  | Some p, Some q => Qeq_bool p q
  | None, None =>
      match a, b with
      | Float (Infinity s), Float (Infinity t) => Bool.eqb s t
      | Float NaN, Float NaN => true
      | _, _ => false
      end
  | _, _ => false
  end.

(** [a == b] on loaded JSON: numbers and bools by value, strings and lists
    structurally, dicts as finite maps. *)
Fixpoint py_eq (a b : json) : bool :=
  match a, b with
  | JNull, JNull => true
  | JStr s, JStr t => String.eqb s t
  | JNum p, JNum q => number_eq p q
  | JNum p, JBool c => number_eq p (Int (if c then 1 else 0))
  | JBool c, JNum q => number_eq (Int (if c then 1 else 0)) q
  | JBool c, JBool c' => Bool.eqb c c'
  | JArr l, JArr m =>
      (fix go (l m : list json) : bool :=
         match l, m with
         | [], [] => true
         | x :: l', y :: m' => py_eq x y && go l' m'
         | _, _ => false
         end) l m
  | JObj d, JObj e =>
      Nat.eqb (List.length d) (List.length e) &&
      (fix all (d : list (string * json)) : bool :=
         match d with
         | [] => true
         | (k, v) :: d' =>
             (fix find (e : list (string * json)) : bool :=
                match e with
                | [] => false
                | (k', w) :: e' => if String.eqb k k' then py_eq v w else find e'
                end) e && all d'
         end) d
  | _, _ => false
  end.

(** [x in l] for a list [l]. *)
Definition list_contains (x : json) (l : list json) : bool :=
  existsb (fun y => py_eq y x) l.

(** *** str operations *)

Definition lower_ascii (c : ascii) : ascii :=
  let n := nat_of_ascii c in
  if (65 <=? n)%nat && (n <=? 90)%nat then ascii_of_nat (n + 32) else c.

(** Text all of whose characters are ASCII. *)
Definition is_ascii (s : string) : bool :=
  forallb (fun c => (nat_of_ascii c <? 128)%nat) (list_ascii_of_string s).

(** [s.lower()] for ASCII text, where the letters A to Z are the only ones to
    change.  On other text [str.lower] applies the case mappings of Unicode,
    which are not modelled: what is proved of lowercased text is proved for
    ASCII text. *)
Fixpoint lower (s : string) : string :=
  match s with
  | EmptyString => EmptyString
  | String c s' => String (lower_ascii c) (lower s')
  end.

(** [needle in hay] for two strs. *)
Fixpoint contains (needle hay : string) : bool :=
  String.prefix needle hay ||
  match hay with
  | EmptyString => false
  | String _ hay' => contains needle hay'
  end.

(** [os.path.basename]: what follows the last slash. *)
Fixpoint basename (p : string) : string :=
  match p with
  | EmptyString => EmptyString
  | String c p' =>
      if contains "/" p' then basename p'
      else if Ascii.eqb c "/" then p' else p
  end.

(** [str(n)] for an int. *)
Definition str_of_int (n : Z) : string := NilZero.string_of_int (Z.to_int n).

(** *** arithmetic *)

(** Nearest integer, ties to even. *)
Definition round_half_even (q : Q) : Z :=
  let n := Qnum q in
  let d := Zpos (Qden q) in
  let fl := (n / d)%Z in
  let twice := (2 * (n mod d))%Z in
  if (twice <? d)%Z then fl
  else if (d <? twice)%Z then (fl + 1)%Z
  else if Z.even fl then fl else (fl + 1)%Z.

Definition pow10 (ndigits : nat) : Q := inject_Z (10 ^ Z.of_nat ndigits).

(** [2 ** k] for an integer [k] of either sign. *)
Definition two_pow (k : Z) : Q :=
  if (0 <=? k)%Z then inject_Z (2 ^ k) else 1 # Z.to_pos (2 ^ (- k)).

(** The integer part of the binary logarithm of a positive rational. *)
Definition ilog2 (a : Q) : Z :=
  let e := (Z.log2 (Qnum a) - Z.log2 (Zpos (Qden a)))%Z in
  if Qle_bool (two_pow e) a then e else (e - 1)%Z.

Definition signed_zero (negative : bool) : float :=
  if negative then NegZero else Finite 0.

(** The double nearest to a rational, ties to the even mantissa: 53 bits of
    mantissa, gradual underflow below [2 ** -1022], infinity from
    [2 ** 1024] on.  This is the rounding of every IEEE 754 operation, of
    [float(n)] for an int and of [float(s)] for a decimal literal. *)
Definition round_double (q : Q) : float :=
  if Qeq_bool q 0 then Finite 0
  else
    let negative := (Qnum q <? 0)%Z in
    let a := Qabs q in
    let ulp := two_pow (Z.max (ilog2 a - 52) (-1074)) in
    let m := round_half_even (a / ulp) in
    let v := inject_Z m * ulp in
    if (m =? 0)%Z then signed_zero negative
    else if Qle_bool (two_pow 1024) v then Infinity negative
    else Finite (Qred (if negative then - v else v)).

(** The float a decimal literal denotes. *)
Definition double (q : Q) : number := Float (round_double q).

(** [x + y] for two floats: never an exception, an overflow gives infinity. *)
Definition float_add (x y : float) : float :=
  match x, y with
  | NaN, _ | _, NaN => NaN
  | Infinity s, Infinity t => if Bool.eqb s t then Infinity s else NaN
  | Infinity s, _ | _, Infinity s => Infinity s
  | NegZero, NegZero => NegZero
  | NegZero, Finite b => round_double b
  | Finite a, NegZero => round_double a
  | Finite a, Finite b => round_double (a + b)
  end.

(** The value of [float(z)] for an int: an int that rounds to [2 ** 1024] or
    beyond is too large to convert. *)
Definition double_of_int (z : Z) : result Q :=
  match round_double (inject_Z z) with
  | Finite q => Ok q
  | _ => Raise OverflowError
  end.

Definition to_float (n : number) : result float :=
  match n with
  | Int z => q <- double_of_int z ;; Ok (Finite q)
  | Float x => Ok x
  end.

(** [a + b] for two numbers: ints add exactly, anything else is added as
    floats after the int operand, if any, has been converted. *)
Definition number_add (a b : number) : result number :=
  match a, b with
  | Int x, Int y => Ok (Int (x + y))
  | _, _ => x <- to_float a ;; y <- to_float b ;; Ok (Float (float_add x y))
  end.

(** [acc + v]: [v] has to be a number or a bool. *)
Definition py_add (acc : number) (v : json) : result number :=
  match as_number v with
  | Some n => number_add acc n
  | None => Raise TypeError
  end.

(** [x / y] for a float [x] and a finite nonzero [y]. *)
Definition float_div (x : float) (y : Q) : float :=
  let yneg := (Qnum y <? 0)%Z in
  match x with
  | NaN => NaN
  | Infinity s => Infinity (xorb s yneg)
  | NegZero => signed_zero (negb yneg)
  | Finite a =>
      if Qeq_bool a 0 then signed_zero yneg else round_double (a / y)
  end.

(** [a / n] with an int divisor, always a float.  An int dividend gives the
    correctly rounded quotient of the two ints, or [OverflowError] when that
    is too large for a float; a float dividend is divided by [float(n)]. *)
Definition py_div (a : number) (n : Z) : result float :=
  match a with
  | Int z =>
      if (n =? 0)%Z then Raise ZeroDivisionError
      else if (z =? 0)%Z then Ok (signed_zero (n <? 0)%Z)
      else match round_double (inject_Z z / inject_Z n) with
           | Infinity _ => Raise OverflowError
           | q => Ok q
           end
  | Float x =>
      y <- double_of_int n ;;
      if Qeq_bool y 0 then Raise ZeroDivisionError
      else Ok (float_div x y)
  end.

(** [round(x, ndigits)] for a float: the exact value of [x] is rounded to
    [ndigits] decimals, ties to even, and the decimal obtained is converted
    back to the nearest double.  Infinities and NaN are returned as they
    are, and so is every float when [ndigits] exceeds 323. *)
Definition py_round (x : float) (ndigits : nat) : result float :=
  match x with
  | Finite q =>
      if (323 <? ndigits)%nat then Ok x
      else
        let n := round_half_even (q * pow10 ndigits) in
        if (n =? 0)%Z then Ok (signed_zero (Qnum q <? 0)%Z)
        else match round_double (inject_Z n / pow10 ndigits) with
             | Infinity _ => Raise OverflowError
             | y => Ok y
             end
  | _ => Ok x
  end.

(** Stable sort, largest key first: [l.sort(key=..., reverse=True)] keeps
    elements with equal keys in their original order. *)
Section Sort.
Context {A K : Type} (key : A -> K) (leb : K -> K -> bool).

Fixpoint insert_desc (x : A) (l : list A) : list A :=
  match l with
  | [] => [x]
  | y :: l' =>
      if leb (key y) (key x) then x :: y :: l' else y :: insert_desc x l'
  end.

Fixpoint sort_desc (l : list A) : list A :=
  match l with
  | [] => []
  | x :: l' => insert_desc x (sort_desc l')
  end.

End Sort.

End Py.

(** ** Report store scanner and record normalizer ([load_benchmark_files]) *)

Module Scanner.
Import Py.
Local Open Scope string_scope.

Definition BENCHMARK_DIR : string := "../benchmarks".

(** What [open] and [json.load] make of a file: a value, or one of the
    exceptions they raise. *)
Inductive content : Type :=
| Malformed
| Undecodable
| Unconvertible
| TooDeep
| Unreadable
| Parsed (data : json).

(** One entry of the benchmark directory.  A path returned by [glob] is
    represented by the entry it names, so that [os.path.getmtime] and [open]
    are field accesses.  The modification time is a float, kept as its exact
    value.  The directory is a snapshot: every entry has a modification time
    (an entry that cannot be opened is [Unreadable], but [getmtime] on it
    succeeds), and entries do not come and go during a scan. *)
Record file : Type := {
  name : string;
  mtime : Q;
  body : content
}.

Definition path_of (f : file) : string := BENCHMARK_DIR ++ "/" ++ name f.

Definition getmtime (f : file) : Q := mtime f.

(** Shell-style matching of a name against a pattern, as [glob] does through
    [fnmatch]; the two patterns of the server use no wildcard but the star. *)
Fixpoint fnmatch (pat : string) : string -> bool :=
  match pat with
  | EmptyString =>
      fun s => match s with EmptyString => true | String _ _ => false end
  | String c pat' =>
      if Ascii.eqb c "*" then
        fix star (s : string) : bool :=
          fnmatch pat' s ||
          match s with
          | EmptyString => false
          | String _ s' => star s'
          end
      else
        fun s =>
          match s with
          | EmptyString => false
          | String d s' => Ascii.eqb c d && fnmatch pat' s'
          end
  end.

Definition patterns : list string :=
  ["benchmark_*.json"; "benchmark_report_*.json"].

(** [glob.glob(str(BENCHMARK_DIR / pattern))], in directory order. *)
Definition glob (dir : list file) (pattern : string) : list file :=
  filter (fun f => fnmatch pattern (name f)) dir.

(** Lines 143-148 and 159-164: the scenario read off the path. *)
Definition infer_scenario (file_path : string) : string :=
  if contains "multi" (lower file_path) then "multi-client"
  else if contains "single" (lower file_path) then "single-client"
  else "unknown".

(** [if 'scenario' not in d: d['scenario'] = ...]. *)
Definition with_scenario (file_path : string) (d : list (string * json))
  : list (string * json) :=
  if dict_mem "scenario" d then d
  else dict_set "scenario" (JStr (infer_scenario file_path)) d.

Definition dict_get_default (k : string) (default : json)
  (d : list (string * json)) : json :=
  match dict_get k d with Some v => v | None => default end.

(** Lines 133-150, the body of the loop over [data['client_results']]; item
    assignment on anything but a dict is a [TypeError]. *)
Definition client_record (file_path : string) (mt : Q)
  (data : list (string * json)) (client_result : json) : result json :=
  match client_result with
  | JObj cr =>
      let cr := dict_set "filename" (JStr (basename file_path)) cr in
      let cr := dict_set "file_mtime" (JNum (Float (Finite mt))) cr in
      let cr := dict_set "report_id"
                  (dict_get_default "benchmark_id" (JStr "unknown") data) cr in
      let cr := dict_set "num_clients"
                  (dict_get_default "num_clients" (JNum (Int 1)) data) cr in
      Ok (JObj (with_scenario file_path cr))
  | _ => Raise TypeError
  end.

(** The values a [for] loop sees when it iterates over a loaded value. *)
Definition py_iter (v : json) : result (list json) :=
  match v with
  | JArr l => Ok l
  | JObj kvs => Ok (map (fun kv => JStr (fst kv)) kvs)
  | JStr s => Ok (map (fun c => JStr (String c EmptyString)) (list_ascii_of_string s))
  | _ => Raise TypeError
  end.

Fixpoint map_result {A B} (f : A -> result B) (l : list A) : result (list B) :=
  match l with
  | [] => Ok []
  | x :: l' => y <- f x ;; ys <- map_result f l' ;; Ok (y :: ys)
  end.

(** Lines 129-166: the records one loaded file contributes.  A loaded value
    that is not a dict fails with [TypeError], either at the membership test
    or at the first item assignment. *)
Definition normalize (file_path : string) (mt : Q) (data : json)
  : result (list json) :=
  match data with
  | JObj d =>
      match dict_get "client_results" d with
      | Some client_results =>
          entries <- py_iter client_results ;;
          map_result (client_record file_path mt d) entries
      | None =>
          let d := dict_set "filename" (JStr (basename file_path)) d in
          let d := dict_set "file_mtime" (JNum (Float (Finite mt))) d in
          Ok [JObj (with_scenario file_path d)]
      end
  | _ => Raise TypeError
  end.

(** Lines 126-127, [open(file_path, 'r')] and [json.load(f)].  The text is
    not JSON: [JSONDecodeError]; the bytes are not text in the encoding of the
    locale: [UnicodeDecodeError]; an integer literal is too long to convert:
    [ValueError]; the nesting is too deep: [RecursionError]; the file cannot
    be opened or read: [OSError]. *)
Definition read_json (f : file) : result json :=
  match body f with
  | Malformed => Raise JSONDecodeError
  | Undecodable => Raise UnicodeDecodeError
  | Unconvertible => Raise ValueError
  | TooDeep => Raise RecursionError
  | Unreadable => Raise OSError
  | Parsed data => Ok data
  end.

Definition load_file (f : file) : result (list json) :=
  data <- read_json f ;; normalize (path_of f) (getmtime f) data.

(** What the server prints when a file or the whole scan fails. *)
Inductive diagnostic : Type :=
| Warning (file_path : string) (e : exn)
| Error (e : exn).

(** [except (json.JSONDecodeError, KeyError)]. *)
Definition caught_per_file (e : exn) : bool :=
  match e with
  | JSONDecodeError | KeyError => true
  | _ => false
  end.

(** Lines 124-169, the loop over [all_files]; the diagnostics printed so far
    survive an exception. *)
Fixpoint scan_loop (all_files : list file) (benchmark_files : list json)
  (log : list diagnostic) : list diagnostic * result (list json) :=
  match all_files with
  | [] => (log, Ok benchmark_files)
  | f :: rest =>
      match load_file f with
      | Ok records => scan_loop rest (benchmark_files ++ records)%list log
      | Raise e =>
          if caught_per_file e
          then scan_loop rest benchmark_files (log ++ [Warning (path_of f) e])%list
          else (log, Raise e)
      end
  end.

(** Lines 113-122: both globs, concatenated, newest first. *)
Definition all_files (dir : list file) : list file :=
  sort_desc getmtime Qle_bool (flat_map (glob dir) patterns).

Definition load_benchmark_files_logged (dir : list file)
  : list diagnostic * result (list json) :=
  match scan_loop (all_files dir) [] [] with
  | (log, Ok benchmark_files) => (log, Ok benchmark_files)
  | (log, Raise e) =>
      if is_exception e then ((log ++ [Error e])%list, Ok []) else (log, Raise e)
  end.

Definition load_benchmark_files (dir : list file) : result (list json) :=
  snd (load_benchmark_files_logged dir).


End Scanner.

(** ** Aggregator ([calculate_aggregate_metrics]) and run grouping ([get_runs]) *)

Module Aggregator.
Import Py.
Local Open Scope string_scope.

(** The dict [calculate_aggregate_metrics] returns: the ints of the literal
    dict when there are no records, floats otherwise. *)
Record aggregate : Type := {
  total_benchmarks : Z;
  avg_proof_time : number;
  avg_verify_time : number;
  avg_training_time : number;
  avg_final_loss : number;
  avg_proof_size : number;
  total_duration : number
}.

(** The local dict [totals]. *)
Record totals : Type := {
  proof_time : number;
  verify_time : number;
  training_time : number;
  final_loss : number;
  proof_size : number;
  duration : number
}.

Definition empty_aggregate : aggregate :=
  {| total_benchmarks := 0; avg_proof_time := Int 0; avg_verify_time := Int 0;
     avg_training_time := Int 0; avg_final_loss := Int 0;
     avg_proof_size := Int 0; total_duration := Int 0 |}.

Definition zero_totals : totals :=
  {| proof_time := Int 0; verify_time := Int 0; training_time := Int 0;
     final_loss := Int 0; proof_size := Int 0; duration := Int 0 |}.

(** Lines 203-211, the body of the loop for one dict. *)
Definition accumulate (t : totals) (benchmark : json) : result totals :=
  zkp_metrics <- py_get benchmark "zkp_metrics" (JObj []) ;;
  training_metrics <- py_get benchmark "training_metrics" (JObj []) ;;
  v1 <- py_get zkp_metrics "proof_generation_time_ms" (JNum (Int 0)) ;;
  s1 <- py_add (proof_time t) v1 ;;
  v2 <- py_get zkp_metrics "proof_verification_time_ms" (JNum (Int 0)) ;;
  s2 <- py_add (verify_time t) v2 ;;
  v3 <- py_get training_metrics "training_time_ms" (JNum (Int 0)) ;;
  s3 <- py_add (training_time t) v3 ;;
  v4 <- py_get training_metrics "final_loss" (JNum (Int 0)) ;;
  s4 <- py_add (final_loss t) v4 ;;
  v5 <- py_get zkp_metrics "proof_size_bytes" (JNum (Int 0)) ;;
  s5 <- py_add (proof_size t) v5 ;;
  v6 <- py_get benchmark "total_duration_ms" (JNum (Int 0)) ;;
  s6 <- py_add (duration t) v6 ;;
  Ok {| proof_time := s1; verify_time := s2; training_time := s3;
        final_loss := s4; proof_size := s5; duration := s6 |}.

(** Lines 200-212: the loop, threading [totals] and [count]. *)
Fixpoint aggregate_loop (benchmarks : list json) (t : totals) (count : Z)
  : result (totals * Z) :=
  match benchmarks with
  | [] => Ok (t, count)
  | benchmark :: rest =>
      if isinstance_dict benchmark then
        t' <- accumulate t benchmark ;;
        aggregate_loop rest t' (count + 1)
      else aggregate_loop rest t count
  end.

(** [round(total / count, ndigits)], one entry of the returned dict. *)
Definition rounded_quotient (total : number) (count : Z) (ndigits : nat)
  : result number :=
  q <- py_div total count ;; r <- py_round q ndigits ;; Ok (Float r).

(** Lines 178-225; the entries of the returned dict are evaluated in the
    order they are written. *)
Definition calculate_aggregate_metrics (benchmarks : list json)
  : result aggregate :=
  match benchmarks with
  | [] => Ok empty_aggregate
  | _ :: _ =>
      tc <- aggregate_loop benchmarks zero_totals 0 ;;
      let t := fst tc in
      let count := if (snd tc =? 0)%Z then 1%Z else snd tc in
      a1 <- rounded_quotient (proof_time t) count 2 ;;
      a2 <- rounded_quotient (verify_time t) count 2 ;;
      a3 <- rounded_quotient (training_time t) count 2 ;;
      a4 <- rounded_quotient (final_loss t) count 4 ;;
      a5 <- rounded_quotient (proof_size t) count 2 ;;
      a6 <- rounded_quotient (duration t) count 2 ;;
      Ok {| total_benchmarks := Z.of_nat (List.length benchmarks);
            avg_proof_time := a1;
            avg_verify_time := a2;
            avg_training_time := a3;
            avg_final_loss := a4;
            avg_proof_size := a5;
            total_duration := a6 |}
  end.

(** One value of the dict [runs] of [get_runs]. *)
Record run : Type := {
  run_id : json;
  scenario : json;
  start_time : json;
  num_clients : json;
  client_ids : list json
}.

(** Lists and dicts cannot be dict keys. *)
Definition hashable (v : json) : bool :=
  match v with
  | JArr _ | JObj _ => false
  | _ => true
  end.

(** [run_id in runs], the dict being kept as its values in insertion order. *)
Definition runs_mem (k : json) (runs : list run) : bool :=
  existsb (fun r => py_eq (run_id r) k) runs.

Fixpoint runs_get (k : json) (runs : list run) : option run :=
  match runs with
  | [] => None
  | r :: runs' => if py_eq (run_id r) k then Some r else runs_get k runs'
  end.

(** [runs[k]['client_ids'].append(c)]. *)
Fixpoint runs_append_client (k c : json) (runs : list run) : list run :=
  match runs with
  | [] => []
  | r :: runs' =>
      if py_eq (run_id r) k
      then {| run_id := run_id r; scenario := scenario r;
              start_time := start_time r; num_clients := num_clients r;
              client_ids := (client_ids r ++ [c])%list |} :: runs'
      else r :: runs_append_client k c runs'
  end.

(** Lines 438-451, the body of the loop over the loaded records. *)
Definition add_benchmark (runs : list run) (b : json) : result (list run) :=
  report_id <- py_get b "report_id" JNull ;;
  session_id <- py_get b "session_id" JNull ;;
  let rid := py_or report_id session_id in
  if negb (truthy rid) then Ok runs
  else if negb (hashable rid) then Raise TypeError
  else
    sc <- py_get b "scenario" (JStr "unknown") ;;
    st <- py_get b "start_time" JNull ;;
    nc <- py_get b "num_clients" (JNum (Int 1)) ;;
    let runs :=
      if runs_mem rid runs then runs
      else (runs ++ [{| run_id := rid; scenario := sc; start_time := st;
                        num_clients := nc; client_ids := [] |}])%list in
    client_id <- py_get b "client_id" JNull ;;
    let seen := match runs_get rid runs with
                | Some r => client_ids r
                | None => []
                end in
    if truthy client_id && negb (list_contains client_id seen)
    then Ok (runs_append_client rid client_id runs)
    else Ok runs.

Fixpoint build_runs (benchmarks : list json) (runs : list run)
  : result (list run) :=
  match benchmarks with
  | [] => Ok runs
  | b :: rest => runs' <- add_benchmark runs b ;; build_runs rest runs'
  end.

(** The sort key [x['start_time'] or '']. *)
Definition sort_key (r : run) : json := py_or (start_time r) (JStr "").

Definition is_str (v : json) : bool :=
  match v with JStr _ => true | _ => false end.

Definition is_list (v : json) : bool :=
  match v with JArr _ => true | _ => false end.

(** The exact value of an int, a bool or a finite float. *)
Definition finite_val (v : json) : option Q :=
  match as_number v with
  | Some n => exact_value n
  | None => None
  end.

Definition is_num (v : json) : bool :=
  match as_number v with Some _ => true | None => false end.

Definition is_finite_num (v : json) : bool :=
  match finite_val v with Some _ => true | None => false end.

Definition str_key (r : run) : string :=
  match sort_key r with JStr s => s | _ => "" end.

Definition num_key (r : run) : Q :=
  match finite_val (sort_key r) with Some q => q | None => 0 end.

Section WithSort.

(** What [sorted] makes of two or more runs whose keys are all lists, or all
    numbers with an infinity or a NaN among them.  Lists compare up to their
    first differing elements, which may or may not compare, and NaN is not
    ordered, so that the outcome depends on which pairs the sorting algorithm
    happens to compare: it is left to the library. *)
Variable list_sort : list run -> result (list run).

(** Line 453, [sorted(runs.values(), key=..., reverse=True)].  A single run is
    never compared.  Strings compare with strings and numbers with numbers,
    and the sort is stable.  A dict compares with nothing, and a string, a
    number and a list do not compare with one another: keys of two kinds, or
    a dict among the keys, are a [TypeError], since every run is compared
    with another one at least once. *)
Definition sorted_runs (runs : list run) : result (list run) :=
  match runs with
  | [] | [_] => Ok runs
  | _ =>
      if forallb (fun r => is_str (sort_key r)) runs
      then Ok (sort_desc str_key String.leb runs)
      else if forallb (fun r => is_finite_num (sort_key r)) runs
      then Ok (sort_desc num_key Qle_bool runs)
      else if forallb (fun r => is_num (sort_key r)) runs
           || forallb (fun r => is_list (sort_key r)) runs
      then list_sort runs
      else Raise TypeError
  end.

(** Lines 436-453: from the loaded records to the sorted run list. *)
Definition group_runs (benchmarks : list json) : result (list run) :=
  runs <- build_runs benchmarks [] ;; sorted_runs runs.

End WithSort.

End Aggregator.

(** ** Query handlers *)

Module Queries.
Import Py Scanner Aggregator.
Local Open Scope string_scope.

Section WithText.

(** [str(e)], the text of an exception, fixed by the library that raises it. *)
Variable str_exn : exn -> string.

(** The library sort behind [sorted], see [Aggregator.sorted_runs]. *)
Variable list_sort : list run -> result (list run).

(** [except Exception as e: raise HTTPException(status_code=500, ...)]. *)
Definition or_500 {A} (prefix : string) (body : result A) : result A :=
  match body with
  | Ok a => Ok a
  | Raise e =>
      if is_exception e then Raise (HTTPException 500 (prefix ++ str_exn e))
      else Raise e
  end.

(** [next((b for b in benchmarks if b.get('session_id') == session_id), None)]. *)
Fixpoint next_match (benchmarks : list json) (session_id : string)
  : result json :=
  match benchmarks with
  | [] => Ok JNull
  | b :: rest =>
      v <- py_get b "session_id" JNull ;;
      if py_eq v (JStr session_id) then Ok b else next_match rest session_id
  end.

(** Lines 336-348. *)
Definition get_benchmark (dir : list file) (session_id : string)
  : result json :=
  or_500 "Failed to get benchmark: "
    (benchmarks <- load_benchmark_files dir ;;
     benchmark <- next_match benchmarks session_id ;;
     if negb (truthy benchmark)
     then Raise (HTTPException 404 "Benchmark not found")
     else Ok benchmark).

(** Lines 323-334. *)
Definition get_benchmarks (dir : list file)
  : result (list json * Z * aggregate) :=
  or_500 "Failed to load benchmarks: "
    (benchmarks <- load_benchmark_files dir ;;
     metrics <- calculate_aggregate_metrics benchmarks ;;
     Ok (benchmarks, Z.of_nat (List.length benchmarks), metrics)).

(** Lines 350-357. *)
Definition get_metrics (dir : list file) : result aggregate :=
  or_500 "Failed to calculate metrics: "
    (benchmarks <- load_benchmark_files dir ;;
     calculate_aggregate_metrics benchmarks).

(** Lines 431-456. *)
Definition get_runs (dir : list file) : result (list run * Z) :=
  or_500 "Failed to list runs: "
    (benchmarks <- load_benchmark_files dir ;;
     run_list <- group_runs list_sort benchmarks ;;
     Ok (run_list, Z.of_nat (List.length run_list))).

End WithText.

End Queries.

(** ** Run supervisor ([run_benchmark], [run_benchmark_process], [stop_benchmark]) *)

Module Supervisor.
Import Py.
Local Open Scope string_scope.

(** An absolute directory, as the list of its components below the root. *)
Definition path : Type := list string.

(** The directory [..] resolves to. *)
Definition parent (p : path) : path := removelast p.

Record BenchmarkConfig : Type := {
  scenario : string;
  numClients : Z;
  numRounds : Z;
  clientDelay : Z;
  maxConcurrent : Z;
  serverUrl : option string
}.

Record BenchmarkRequest : Type := {
  command : string;
  config : BenchmarkConfig
}.

(** A [subprocess.Popen] handle: the children are numbered in creation order. *)
Record process : Type := {
  pid : nat;
  args : list string;
  child_cwd : path
}.

(** The module globals, the working directory of the service, the background
    tasks that were added and have not started yet (in the order they were
    added), and every child process created so far. *)
Record state : Type := {
  running : bool;
  message : string;
  current_benchmark_process : option process;
  cwd : path;
  background_tasks : list BenchmarkConfig;
  spawned : list process
}.

Definition initial_state (service_dir : path) : state :=
  {| running := false; message := ""; current_benchmark_process := None;
     cwd := service_dir; background_tasks := []; spawned := [] |}.

(** Stateful code that may raise: the state reached is kept either way. *)
Definition M (A : Type) : Type := state -> state * result A.

Definition ret {A} (a : A) : M A := fun st => (st, Ok a).

Definition raise {A} (e : exn) : M A := fun st => (st, Raise e).

Definition bindM {A B} (m : M A) (k : A -> M B) : M B :=
  fun st =>
    match m st with
    | (st', Ok a) => k a st'
    | (st', Raise e) => (st', Raise e)
    end.

Declare Scope sup_scope.
Delimit Scope sup_scope with sup.
Notation "x <~ e ;; k" := (bindM e (fun x => k))
  (at level 61, e at next level, right associativity) : sup_scope.
Notation "e ;;; k" := (bindM e (fun _ => k))
  (at level 61, right associativity) : sup_scope.
Local Open Scope sup_scope.

(** [try: body / except Exception as e: handler e]. *)
Definition try_except {A} (body : M A) (handler : exn -> M A) : M A :=
  fun st =>
    match body st with
    | (st', Ok a) => (st', Ok a)
    | (st', Raise e) => if is_exception e then handler e st' else (st', Raise e)
    end.

(** [try: body / finally: cleanup]: the cleanup runs on every way out, and an
    exception of its own replaces the outcome of the body. *)
Definition try_finally {A} (body : M A) (cleanup : M unit) : M A :=
  fun st =>
    match body st with
    | (st', r) =>
        match cleanup st' with
        | (st'', Ok _) => (st'', r)
        | (st'', Raise e) => (st'', Raise e)
        end
    end.

Definition set_running (b : bool) : M unit :=
  fun st =>
    ({| running := b; message := message st;
        current_benchmark_process := current_benchmark_process st;
        cwd := cwd st; background_tasks := background_tasks st;
        spawned := spawned st |}, Ok tt).

Definition set_message (m : string) : M unit :=
  fun st =>
    ({| running := running st; message := m;
        current_benchmark_process := current_benchmark_process st;
        cwd := cwd st; background_tasks := background_tasks st;
        spawned := spawned st |}, Ok tt).

Definition set_process (p : option process) : M unit :=
  fun st =>
    ({| running := running st; message := message st;
        current_benchmark_process := p;
        cwd := cwd st; background_tasks := background_tasks st;
        spawned := spawned st |}, Ok tt).

Definition getcwd : M path := fun st => (st, Ok (cwd st)).

(** [background_tasks.add_task(run_benchmark_process, config)]. *)
Definition add_task (c : BenchmarkConfig) : M unit :=
  fun st =>
    ({| running := running st; message := message st;
        current_benchmark_process := current_benchmark_process st;
        cwd := cwd st;
        background_tasks := (background_tasks st ++ [c])%list;
        spawned := spawned st |}, Ok tt).

(** Lines 227-252. *)
Definition scenario_mapping : list (string * string) :=
  [("single-client", "single-client");
   ("multi-client-sequential", "multi-client-sequential");
   ("multi-client-concurrent", "multi-client-concurrent");
   ("stress-test", "stress-test");
   ("custom", "custom")].

Fixpoint mapping_get (k default : string) (m : list (string * string)) : string :=
  match m with
  | [] => default
  | (k', v) :: m' => if String.eqb k k' then v else mapping_get k default m'
  end.

Definition build_benchmark_command (c : BenchmarkConfig) : list string :=
  let cmd := ["cargo"; "run"; "--bin"; "benchmarks"; "--"] in
  let sc := mapping_get (scenario c) (scenario c) scenario_mapping in
  let cmd := (cmd ++ ["--scenario"; sc])%list in
  let cmd := (cmd ++ ["--num-clients"; str_of_int (numClients c)])%list in
  let cmd := (cmd ++ ["--rounds"; str_of_int (numRounds c)])%list in
  let cmd := (cmd ++ ["--client-delay-ms"; str_of_int (clientDelay c)])%list in
  let cmd := (cmd ++ ["--max-concurrent"; str_of_int (maxConcurrent c)])%list in
  let cmd :=
    match serverUrl c with
    | Some url =>
        if String.eqb url "" then cmd else (cmd ++ ["--server-url"; url])%list
    | None => cmd
    end in
  (cmd ++ ["--verbose"])%list.

(** What the operating system answers during one run. *)
Record run_env : Type := {
  accessible : path -> bool;
  spawn_error : option exn;
  communicate : result (Z * string * string)
}.

(** What the child does when [stop_benchmark] terminates it: [None] when it
    exits within the ten seconds of [wait]. *)
Record stop_env : Type := {
  wait_error : option exn
}.

(** The dict [run_benchmark_process] returns. *)
Record outcome : Type := {
  success : bool;
  text : string;
  stdout : string;
  stderr : string
}.

Inductive response : Type :=
| Started (c : BenchmarkConfig)
| Stopped (text : string)
| Status (is_running : bool) (text : string).

Section WithText.

(** [str(e)], the text of an exception, fixed by the library that raises it. *)
Variable str_exn : exn -> string.

(** [os.chdir] to an absolute directory. *)
Definition chdir (env : run_env) (target : path) : M unit :=
  fun st =>
    if accessible env target
    then ({| running := running st; message := message st;
             current_benchmark_process := current_benchmark_process st;
             cwd := target; background_tasks := background_tasks st;
             spawned := spawned st |}, Ok tt)
    else (st, Raise OSError).

(** [subprocess.Popen(cmd, ..., cwd=WORKSPACE_DIR)]: the child starts in the
    directory [..] names from the working directory of the moment. *)
Definition popen (env : run_env) (cmd : list string) : M process :=
  fun st =>
    match spawn_error env with
    | Some e => (st, Raise e)
    | None =>
        let p := {| pid := List.length (spawned st); args := cmd;
                    child_cwd := parent (cwd st) |} in
        ({| running := running st; message := message st;
            current_benchmark_process := current_benchmark_process st;
            cwd := cwd st; background_tasks := background_tasks st;
            spawned := (spawned st ++ [p])%list |}, Ok p)
    end.

Definition wait_for (env : run_env) : M (Z * string * string) :=
  fun st => (st, communicate env).

(** Lines 254-315.  The coroutine contains no [await]: once started it runs
    to its end before the event loop serves another request. *)
Definition run_benchmark_process (c : BenchmarkConfig) (env : run_env)
  : M outcome :=
  original_cwd <~ getcwd ;;
  try_finally
    (try_except
       (set_running true ;;;
        set_message "Initializing benchmark..." ;;;
        wd <~ getcwd ;;
        chdir env (parent wd) ;;;
        let cmd := build_benchmark_command c in
        p <~ popen env cmd ;;
        set_process (Some p) ;;;
        set_message "Benchmark running..." ;;;
        res <~ wait_for env ;;
        let '(return_code, out, err) := res in
        if (return_code =? 0)%Z then
          set_message "Benchmark completed successfully" ;;;
          ret {| success := true; text := "Benchmark completed successfully";
                 stdout := out; stderr := err |}
        else
          set_message ("Benchmark failed with code " ++ str_of_int return_code) ;;;
          ret {| success := false;
                 text := "Benchmark failed with return code "
                         ++ str_of_int return_code;
                 stdout := out; stderr := err |})
       (fun e =>
          set_message ("Benchmark error: " ++ str_exn e) ;;;
          ret {| success := false;
                 text := "Error running benchmark: " ++ str_exn e;
                 stdout := ""; stderr := str_exn e |}))
    (set_running false ;;;
     set_process None ;;;
     chdir env original_cwd).

(** [except Exception as e: raise HTTPException(status_code=500, ...)]. *)
Definition or_500 {A} (prefix : string) (body : M A) : M A :=
  try_except body
    (fun e => raise (HTTPException 500 (prefix ++ str_exn e))).

(** Lines 359-377. *)
Definition run_benchmark (request : BenchmarkRequest) : M response :=
  fun st =>
    if running st
    then (st, Raise (HTTPException 400 "Benchmark already running"))
    else
      or_500 "Failed to start benchmark: "
        (add_task (config request) ;;;
         ret (Started (config request))) st.

(** Lines 379-400. *)
Definition stop_benchmark (env : stop_env) : M response :=
  fun st =>
    match running st, current_benchmark_process st with
    | true, Some _ =>
        match wait_error env with
        | None =>
            (set_running false ;;;
             set_message "Benchmark stopped by user" ;;;
             ret (Stopped "Benchmark stopped")) st
        | Some TimeoutExpired =>
            (set_running false ;;;
             set_message "Benchmark forcefully terminated" ;;;
             ret (Stopped "Benchmark forcefully terminated")) st
        | Some e =>
            or_500 "Failed to stop benchmark: " (raise e) st
        end
    | _, _ => (st, Raise (HTTPException 400 "No benchmark running"))
    end.

(** Lines 402-405. *)
Definition get_status : M response :=
  fun st => (st, Ok (Status (running st) (message st))).

(** What the event loop does next: serve a request, or start one of the
    background tasks that are waiting and run it to its end.  Every accepted
    request has a [BackgroundTasks] object of its own, which the framework
    runs once the response has been sent; which of the waiting tasks starts
    next is up to the framework, so the event names it by its position. *)
Inductive event : Type :=
| StartRequest (request : BenchmarkRequest)
| StopRequest (env : stop_env)
| StatusRequest
| RunTask (env : run_env) (i : nat).

(** The waiting tasks without the one at position [i]. *)
Definition without_task (i : nat) (tasks : list BenchmarkConfig)
  : list BenchmarkConfig :=
  (firstn i tasks ++ skipn (S i) tasks)%list.

Definition take_task (i : nat) : M (option BenchmarkConfig) :=
  fun st =>
    match nth_error (background_tasks st) i with
    | None => (st, Ok None)
    | Some c =>
        ({| running := running st; message := message st;
            current_benchmark_process := current_benchmark_process st;
            cwd := cwd st;
            background_tasks := without_task i (background_tasks st);
            spawned := spawned st |}, Ok (Some c))
    end.

Definition step (ev : event) (st : state) : state :=
  match ev with
  | StartRequest request => fst (run_benchmark request st)
  | StopRequest env => fst (stop_benchmark env st)
  | StatusRequest => fst (get_status st)
  | RunTask env i =>
      fst ((task <~ take_task i ;;
            match task with
            | Some c => run_benchmark_process c env ;;; ret tt
            | None => ret tt
            end) st)
  end.

Definition run_events (evs : list event) (st : state) : state :=
  fold_left (fun s ev => step ev s) evs st.

End WithText.

End Supervisor.


(** ** What the specification says of scanning and normalizing *)

Module ScannerSpec.
Import Py Scanner.
Local Open Scope string_scope.

(** The raw records of a loaded file: the nested client entries of a report,
    or the file itself. *)
Definition raw_entries (d : list (string * json)) : list json :=
  match dict_get "client_results" d with
  | None => [JObj d]
  | Some (JArr entries) => entries
  | Some _ => []
  end.

(** A single record, or a report whose client entries are all dicts. *)
Definition well_shaped (d : list (string * json)) : bool :=
  match dict_get "client_results" d with
  | None => true
  | Some (JArr entries) => forallb isinstance_dict entries
  | Some _ => false
  end.

(** The scenario read off a file name, letter case ignored. *)
Definition scenario_from_name (nm : string) : string :=
  if contains "multi" (lower nm) then "multi-client"
  else if contains "single" (lower nm) then "single-client"
  else "unknown".

(** The scenario the specification reads off a file name. *)
Definition scenario_as_specified (nm : string) : string :=
  if contains "multi" nm then "multi-client"
  else if contains "single" nm then "single-client"
  else "unknown".

(** An explicit scenario wins over the file name. *)
Definition expected_scenario (nm : string) (entry : list (string * json)) : json :=
  match dict_get "scenario" entry with
  | Some v => v
  | None => JStr (scenario_from_name nm)
  end.

(** The keys normalization may write. *)
Definition metadata_keys : list string :=
  ["filename"; "file_mtime"; "report_id"; "num_clients"; "scenario"].

(** [record] is [entry] with nothing changed outside the metadata keys. *)
Definition extends (entry record : list (string * json)) : Prop :=
  forall k, existsb (String.eqb k) metadata_keys = false ->
            dict_get k record = dict_get k entry.

(** [record] carries the provenance of the file it was read from. *)
Definition carries_provenance (file_path : string) (mt : Q) (record : json) : Prop :=
  exists r, record = JObj r /\
    dict_get "filename" r = Some (JStr (basename file_path)) /\
    dict_get "file_mtime" r = Some (JNum (Float (Finite mt))).

(** [record] carries the run identifier and the declared client count of the
    report [d], with the defaults the server uses when the report has none. *)
Definition inherits (d : list (string * json)) (record : json) : Prop :=
  exists r, record = JObj r /\
    dict_get "report_id" r =
      Some (dict_get_default "benchmark_id" (JStr "unknown") d) /\
    dict_get "num_clients" r =
      Some (dict_get_default "num_clients" (JNum (Int 1)) d).

(** [record] is the dict [entry] plus metadata. *)
Definition derived_from (entry record : json) : Prop :=
  exists e r, entry = JObj e /\ record = JObj r /\ extends e r.

(** [record] has the scenario of [entry], or the one its file name gives. *)
Definition scenario_settled (nm : string) (entry record : json) : Prop :=
  exists e r, entry = JObj e /\ record = JObj r /\
    dict_get "scenario" r = Some (expected_scenario nm e).

(** A file [json.load] rejects with [JSONDecodeError]. *)
Definition malformed (f : file) : bool :=
  match body f with Malformed => true | _ => false end.

(** A file that parses and has one of the two expected shapes. *)
Definition valid (f : file) : bool :=
  match body f with
  | Parsed (JObj d) => well_shaped d
  | _ => false
  end.

(** The records a file contributes, none when it cannot be loaded. *)
Definition normalized (f : file) : list json :=
  match load_file f with
  | Ok records => records
  | Raise _ => []
  end.




End ScannerSpec.

(** ** The aggregate the specification describes *)

Module AggregateSpec.
Import Py Aggregator.
Local Open Scope string_scope.

(** The sub-dict of a record, empty when the record has none. *)
Definition section_of (k : string) (b : json) : json :=
  match b with
  | JObj d => match dict_get k d with Some v => v | None => JObj [] end
  | _ => JObj []
  end.

(** The value stored under a key, the int 0 when the key is missing. *)
Definition value_at (k : string) (x : json) : json :=
  match x with
  | JObj d => match dict_get k d with Some v => v | None => JNum (Int 0) end
  | _ => JNum (Int 0)
  end.

Definition proof_generation_time_ms (b : json) : json :=
  value_at "proof_generation_time_ms" (section_of "zkp_metrics" b).
Definition proof_verification_time_ms (b : json) : json :=
  value_at "proof_verification_time_ms" (section_of "zkp_metrics" b).
Definition training_time_ms (b : json) : json :=
  value_at "training_time_ms" (section_of "training_metrics" b).
Definition final_loss_of (b : json) : json :=
  value_at "final_loss" (section_of "training_metrics" b).
Definition proof_size_bytes (b : json) : json :=
  value_at "proof_size_bytes" (section_of "zkp_metrics" b).
Definition total_duration_ms (b : json) : json :=
  value_at "total_duration_ms" b.

(** A key that is missing or holds a number, in something that is a dict. *)
Definition number_or_missing (k : string) (x : json) : bool :=
  match x with
  | JObj d =>
      match dict_get k d with
      | Some v => match as_number v with Some _ => true | None => false end
      | None => true
      end
  | _ => false
  end.

(** A record whose metrics, where present, are numbers. *)
Definition well_typed (b : json) : bool :=
  isinstance_dict b &&
  number_or_missing "proof_generation_time_ms" (section_of "zkp_metrics" b) &&
  number_or_missing "proof_verification_time_ms" (section_of "zkp_metrics" b) &&
  number_or_missing "training_time_ms" (section_of "training_metrics" b) &&
  number_or_missing "final_loss" (section_of "training_metrics" b) &&
  number_or_missing "proof_size_bytes" (section_of "zkp_metrics" b) &&
  number_or_missing "total_duration_ms" b.

(** Entries that are no dicts are passed over by the aggregator. *)
Definition extractable (b : json) : bool :=
  negb (isinstance_dict b) || well_typed b.

(** The shared denominator: the records the loop extracted metrics from. *)
Definition attempted (benchmarks : list json) : nat :=
  List.length (filter isinstance_dict benchmarks).

(** A dict whose two metric sections, where present, are dicts. *)
Definition sectioned (b : json) : bool :=
  isinstance_dict b &&
  isinstance_dict (section_of "zkp_metrics" b) &&
  isinstance_dict (section_of "training_metrics" b).

(** What one record adds to the six totals. *)
Definition add_all (t : totals) (b : json) : result totals :=
  s1 <- py_add (proof_time t) (proof_generation_time_ms b) ;;
  s2 <- py_add (verify_time t) (proof_verification_time_ms b) ;;
  s3 <- py_add (training_time t) (training_time_ms b) ;;
  s4 <- py_add (final_loss t) (final_loss_of b) ;;
  s5 <- py_add (proof_size t) (proof_size_bytes b) ;;
  s6 <- py_add (duration t) (total_duration_ms b) ;;
  Ok {| proof_time := s1; verify_time := s2; training_time := s3;
        final_loss := s4; proof_size := s5; duration := s6 |}.

Fixpoint add_loop (records : list json) (t : totals) : result totals :=
  match records with
  | [] => Ok t
  | b :: rest => t' <- add_all t b ;; add_loop rest t'
  end.

(** A value that can be added to a number. *)
Definition numeric (v : json) : Prop := as_number v <> None.

(** The sum as Python computes it: the values are added to [acc] one by one,
    from left to right, each addition being an int or a float addition
    according to its operands. *)
Fixpoint py_sum (acc : number) (values : list json) : result number :=
  match values with
  | [] => Ok acc
  | v :: rest => s <- py_add acc v ;; py_sum s rest
  end.

(** The sum of a metric over the dict records, in list order, from the int 0. *)
Definition total (metric : json -> json) (benchmarks : list json)
  : result number :=
  py_sum (Int 0) (map metric (filter isinstance_dict benchmarks)).

(** Sum of a metric over the records, over the shared count, rounded. *)
Definition rounded_mean (metric : json -> json) (benchmarks : list json)
  (ndigits : nat) : result number :=
  t <- total metric benchmarks ;;
  rounded_quotient t (Z.of_nat (attempted benchmarks)) ndigits.

(** The aggregate of a record set, metric by metric: 2 decimals for five of
    the averages, 4 for the final loss. *)
Definition mean_aggregate (benchmarks : list json) : result aggregate :=
  a1 <- rounded_mean proof_generation_time_ms benchmarks 2 ;;
  a2 <- rounded_mean proof_verification_time_ms benchmarks 2 ;;
  a3 <- rounded_mean training_time_ms benchmarks 2 ;;
  a4 <- rounded_mean final_loss_of benchmarks 4 ;;
  a5 <- rounded_mean proof_size_bytes benchmarks 2 ;;
  a6 <- rounded_mean total_duration_ms benchmarks 2 ;;
  Ok {| total_benchmarks := Z.of_nat (List.length benchmarks);
        avg_proof_time := a1; avg_verify_time := a2; avg_training_time := a3;
        avg_final_loss := a4; avg_proof_size := a5; total_duration := a6 |}.

(** The exceptions the aggregator can raise: a section or a record that is
    not what it should be, a metric that is no number, an int too large to be
    added to a float or divided into one. *)
Definition extraction_error (e : exn) : Prop :=
  e = AttributeError \/ e = TypeError \/ e = OverflowError.

End AggregateSpec.

(** ** What the specification says of run groups *)

Module RunsSpec.
Import Py Aggregator.
Local Open Scope string_scope.

(** A field of a record, [None] in Python when the record has none. *)
Definition field (k : string) (b : json) : json :=
  match b with
  | JObj d => match dict_get k d with Some v => v | None => JNull end
  | _ => JNull
  end.

(** The identifier a record is grouped by: [report_id] when present, else
    [session_id]. *)
Definition run_id_of (b : json) : json :=
  py_or (field "report_id" b) (field "session_id" b).

(** A record that has one of the two identifiers. *)
Definition identified (b : json) : bool := truthy (run_id_of b).

(** The group a record belongs to is the one with its identifier. *)
Definition member_of (g : run) (b : json) : bool :=
  identified b && py_eq (run_id g) (run_id_of b).

(** The records of a group, in discovery order. *)
Definition members (benchmarks : list json) (g : run) : list json :=
  filter (member_of g) benchmarks.

Definition str_or_null (v : json) : bool :=
  match v with
  | JNull | JStr _ => true
  | _ => false
  end.

(** A record typed as the data model has it: its identifiers and its start
    time are strings where present. *)
Definition groupable (b : json) : bool :=
  isinstance_dict b &&
  str_or_null (field "report_id" b) &&
  str_or_null (field "session_id" b) &&
  str_or_null (field "start_time" b).

(** The identifiers of the groups, in order. *)
Definition ids (runs : list run) : list json := map run_id runs.

(** A group list as [get_runs] builds it from groupable records: non-empty
    string identifiers, no two alike, string-or-null start times. *)
Definition well_keyed (runs : list run) : Prop :=
  Forall (fun g => exists s, run_id g = JStr s /\ s <> ""
                             /\ str_or_null (start_time g) = true) runs /\
  NoDup (ids runs).

End RunsSpec.

(** ** What the specification says of record lookup and of the supervisor *)

Module QuerySpec.
Import Py.
Local Open Scope string_scope.

(** [b.get('session_id') == session_id] for a loaded record. *)
Definition matches (session_id : string) (b : json) : bool :=
  match b with
  | JObj kvs =>
      match dict_get "session_id" kvs with
      | Some v => py_eq v (JStr session_id)
      | None => false
      end
  | _ => false
  end.

(** A dict that carries a file name. *)
Definition is_record (b : json) : Prop :=
  exists kvs, b = JObj kvs /\ dict_get "filename" kvs <> None.

End QuerySpec.

Module SupervisorSpec.
Import Py Supervisor.

(** No run in progress and no child process owned. *)
Definition idle (st : state) : Prop :=
  running st = false /\ current_benchmark_process st = None.

End SupervisorSpec.

(** ** Sample data *)

Module Samples.
Import Py Scanner Supervisor.
Local Open Scope string_scope.

(** A record set the theorem applies to: two records, one without metrics. *)
Definition sample_records : list json :=
  [JObj [("session_id", JStr "a");
         ("zkp_metrics", JObj [("proof_generation_time_ms",
                                   JNum (Float (Finite (3 # 2))))]);
         ("training_metrics", JObj [("final_loss", JNum (double (1234 # 10000)))])];
   JObj [("session_id", JStr "b")]].

(** A report of two client entries, the second with a scenario of its own. *)
Definition sample_entries : list json :=
  [JObj [("session_id", JStr "a"); ("client_id", JStr "c1")];
   JObj [("session_id", JStr "b"); ("client_id", JStr "c2");
         ("scenario", JStr "stress-test")]].

Definition sample_report : list (string * json) :=
  [("benchmark_id", JStr "run-17"); ("num_clients", JNum (Int 2));
   ("client_results", JArr sample_entries)].

(** One invalid file and two valid single-record files. *)
Definition sample_dir : list file :=
  [ {| name := "benchmark_single_7.json"; mtime := 10;
       body := Parsed (JObj [("session_id", JStr "s7")]) |};
    {| name := "benchmark_broken.json"; mtime := 30; body := Malformed |};
    {| name := "benchmark_multi_client_42.json"; mtime := 20;
       body := Parsed (JObj [("session_id", JStr "s42")]) |} ].


(** Two reports of one client entry each, and one invalid file. *)
Definition reports_dir : list file :=
  [ {| name := "benchmark_report_1.json"; mtime := 20;
       body := Parsed (JObj [("benchmark_id", JStr "run-1");
                             ("client_results",
                              JArr [JObj [("session_id", JStr "a")]])]) |};
    {| name := "benchmark_report_2.json"; mtime := 30;
       body := Parsed (JObj [("benchmark_id", JStr "run-2");
                             ("client_results",
                              JArr [JObj [("session_id", JStr "b")]])]) |};
    {| name := "benchmark_broken.json"; mtime := 10; body := Malformed |} ].

Definition first_report : file :=
  {| name := "benchmark_report_1.json"; mtime := 20;
     body := Parsed (JObj [("benchmark_id", JStr "run-1");
                           ("client_results",
                            JArr [JObj [("session_id", JStr "a")]])]) |}.

Definition sample_config : BenchmarkConfig :=
  {| scenario := "multi-client-concurrent"; numClients := 3; numRounds := 2;
     clientDelay := 100; maxConcurrent := 2; serverUrl := None |}.

Definition service_dir : path := ["srv"; "zkp-fl"; "advanced-dashboard"].

(** The spawn fails: [cargo] is not installed. *)
Definition spawn_fails : run_env :=
  {| accessible := fun _ => true; spawn_error := Some OSError;
     communicate := Ok (0%Z, "", "") |}.

(** Everything works and the child exits with code 0. *)
Definition run_succeeds : run_env :=
  {| accessible := fun _ => true; spawn_error := None;
     communicate := Ok (0%Z, "done", "") |}.

(** The text of an exception, as recent Starlette gives it for
    [HTTPException]; other texts are left empty. *)
Definition sample_str (e : exn) : string :=
  match e with
  | HTTPException status detail => str_of_int status ++ ": " ++ detail
  | _ => ""
  end.

(** An undecodable file next to two valid single-record files. *)
Definition undecodable_dir : list file :=
  [ {| name := "benchmark_single_7.json"; mtime := 10;
       body := Parsed (JObj [("session_id", JStr "s7")]) |};
    {| name := "benchmark_binary.json"; mtime := 30; body := Undecodable |};
    {| name := "benchmark_multi_client_42.json"; mtime := 20;
       body := Parsed (JObj [("session_id", JStr "s42")]) |} ].

(** A record whose only metric is its duration. *)
Definition lasting (ms : number) : json :=
  JObj [("total_duration_ms", JNum ms)].

(** Three durations that cancel: 1e16, 1.0 and -1e16. *)
Definition cancelling : list json :=
  [lasting (double 10000000000000000); lasting (double 1);
   lasting (double (-10000000000000000))].

(** The same three records, the two large ones first. *)
Definition cancelling_reordered : list json :=
  [lasting (double 10000000000000000);
   lasting (double (-10000000000000000)); lasting (double 1)].

(** A duration of 1.5 followed by one of 10 ** 400, an int no float can hold. *)
Definition overflowing : list json :=
  [lasting (double (3 # 2)); lasting (Int (10 ^ 400))].

(** Three client records of one report, a single record, and a record with
    no identifier at all. *)
Definition sample_benchmarks : list json :=
  [JObj [("report_id", JStr "run-1"); ("session_id", JStr "a");
         ("client_id", JStr "c1"); ("start_time", JStr "2024-05-01T10:00:00")];
   JObj [("session_id", JStr "solo"); ("start_time", JStr "2024-06-01T10:00:00")];
   JObj [("report_id", JStr "run-1"); ("session_id", JStr "b");
         ("client_id", JStr "c2"); ("start_time", JStr "2024-05-01T10:00:05")];
   JObj [("client_id", JStr "c9")]].

End Samples.

(** ** Further notions the properties below are stated with *)

Module ScanSpec.
Import Py Scanner.
Local Open Scope string_scope.

(** The modification time a record carries, 0 when it carries none. *)
Definition record_mtime (r : json) : Q :=
  match r with
  | JObj kvs =>
      match dict_get "file_mtime" kvs with
      | Some (JNum (Float (Finite q))) => q
      | _ => 0
      end
  | _ => 0
  end.

(** [a] is at least as new as [b]. *)
Definition newer_or_same (a b : json) : Prop := record_mtime b <= record_mtime a.

(** A record as the scan emits it: a dict with the name of a file the first
    pattern matches, a modification time and a scenario. *)
Definition emitted_record (r : json) : Prop :=
  exists kvs nm mt sc,
    r = JObj kvs /\
    dict_get "filename" kvs = Some (JStr nm) /\
    fnmatch "benchmark_*.json" nm = true /\
    dict_get "file_mtime" kvs = Some (JNum (Float (Finite mt))) /\
    dict_get "scenario" kvs = Some sc.

(** A directory listing: no name has a slash. *)
Definition plain_names (dir : list file) : bool :=
  forallb (fun g => negb (contains "/" (name g))) dir.

End ScanSpec.

Module AggregateLaws.
Import Py Aggregator AggregateSpec.
Local Open Scope string_scope.

(** [agg] with another record count. *)
Definition with_total (n : Z) (agg : aggregate) : aggregate :=
  {| total_benchmarks := n;
     avg_proof_time := avg_proof_time agg;
     avg_verify_time := avg_verify_time agg;
     avg_training_time := avg_training_time agg;
     avg_final_loss := avg_final_loss agg;
     avg_proof_size := avg_proof_size agg;
     total_duration := total_duration agg |}.

(** The aggregate of [n] records without any metric: every average is the
    float 0.0. *)
Definition float_zeros (n : Z) : aggregate :=
  {| total_benchmarks := n; avg_proof_time := double 0;
     avg_verify_time := double 0; avg_training_time := double 0;
     avg_final_loss := double 0; avg_proof_size := double 0;
     total_duration := double 0 |}.

(** A dict record whose [zkp_metrics] or [training_metrics] is present and is
    no dict. *)
Definition broken_section (b : json) : Prop :=
  exists d k v,
    b = JObj d /\ (k = "zkp_metrics" \/ k = "training_metrics") /\
    dict_get k d = Some v /\ isinstance_dict v = false.

End AggregateLaws.

Module RunLaws.
Import Py Aggregator RunsSpec.
Local Open Scope string_scope.

(** [a] starts no earlier than [b], a missing start time counting as the
    empty string. *)
Definition starts_no_earlier (a b : run) : Prop :=
  String.leb (str_key b) (str_key a) = true.

(** The client ids of a group are truthy and no two of them are equal. *)
Definition distinct_clients (g : run) : Prop :=
  Forall (fun c => truthy c = true) (client_ids g) /\
  ForallOrdPairs (fun c c' => py_eq c c' = false) (client_ids g).

(** The metadata of a group are those of the record [b]. *)
Definition described_by (g : run) (b : json) : Prop :=
  start_time g = field "start_time" b /\
  scenario g = match b with
               | JObj d => match dict_get "scenario" d with
                           | Some v => v | None => JStr "unknown" end
               | _ => JStr "unknown"
               end /\
  num_clients g = match b with
                  | JObj d => match dict_get "num_clients" d with
                              | Some v => v | None => JNum (Int 1) end
                  | _ => JNum (Int 1)
                  end.

(** What a group keeps of its first record. *)
Definition core (g : run) : json * json * json * json :=
  (run_id g, scenario g, start_time g, num_clients g).

(** The group [get_runs] opens for a record. *)
Definition fresh_run (b : json) : run :=
  {| run_id := run_id_of b;
     scenario := match b with
                 | JObj d => match dict_get "scenario" d with
                             | Some v => v | None => JStr "unknown" end
                 | _ => JStr "unknown"
                 end;
     start_time := field "start_time" b;
     num_clients := match b with
                    | JObj d => match dict_get "num_clients" d with
                                | Some v => v | None => JNum (Int 1) end
                    | _ => JNum (Int 1)
                    end;
     client_ids := [] |}.

(** The first record of a group, in discovery order, describes it. *)
Definition first_record_describes (benchmarks : list json) (g : run) : Prop :=
  exists b, find (member_of g) benchmarks = Some b /\ described_by g b.

(** A stand-in for the library sort where a statement needs one: it leaves
    the runs in the order they have. *)
Definition sample_sort (runs : list run) : result (list run) := Ok runs.

(** What the loop has established after the records [seen]. *)
Definition grouped (seen : list json) (runs : list run) : Prop :=
  well_keyed runs /\
  (forall x, In x seen -> identified x = true -> In (run_id_of x) (ids runs)) /\
  Forall (first_record_describes seen) runs.

End RunLaws.

Module SupervisorLaws.
Import Py Supervisor.
Local Open Scope string_scope.

(** The first exception a run meets in this environment, if any. *)
Definition run_failure (env : run_env) (st : state) : option exn :=
  if negb (accessible env (parent (cwd st))) then Some OSError
  else match spawn_error env with
       | Some e => Some e
       | None => match communicate env with
                 | Raise e => Some e
                 | Ok _ => None
                 end
       end.

(** The child process a run starts from the state [st]. *)
Definition child_of (c : BenchmarkConfig) (st : state) : process :=
  {| pid := List.length (spawned st);
     args := build_benchmark_command c;
     child_cwd := parent (parent (cwd st)) |}.

(** The state a run leaves behind. *)
Definition after_run (st : state) (text : string) (children : list process)
  : state :=
  {| running := false; message := text; current_benchmark_process := None;
     cwd := cwd st; background_tasks := background_tasks st;
     spawned := (spawned st ++ children)%list |}.

(** The flags the command line always carries, in order. *)
Definition fixed_flags (c : BenchmarkConfig) : list string :=
  ["cargo"; "run"; "--bin"; "benchmarks"; "--";
   "--scenario"; scenario c;
   "--num-clients"; str_of_int (numClients c);
   "--rounds"; str_of_int (numRounds c);
   "--client-delay-ms"; str_of_int (clientDelay c);
   "--max-concurrent"; str_of_int (maxConcurrent c)].

(** An environment in which every run goes through with the same exit code. *)
Definition dependable (env : run_env) (rc : Z) (out err : string) : Prop :=
  (forall p, accessible env p = true) /\
  spawn_error env = None /\
  communicate env = Ok (rc, out, err).

(** The command lines of the children created so far. *)
Definition command_lines (st : state) : list (list string) :=
  map args (spawned st).

End SupervisorLaws.

(** ** File listing ([list_benchmark_files]) *)

Module Files.
Import Py Scanner Queries.
Local Open Scope string_scope.

(** One entry of the answer of [/api/files]. *)
Record file_info : Type := {
  info_name : string;
  info_path : string;
  info_size : Z;
  info_modified : string
}.

Section WithStat.

Variable str_exn : exn -> string.

(** [os.stat(file_path).st_size]. *)
Variable st_size : file -> Z.

(** [datetime.fromtimestamp(t).isoformat()]. *)
Variable isoformat : Q -> string.

Definition stat_info (f : file) : file_info :=
  {| info_name := basename (path_of f);
     info_path := path_of f;
     info_size := st_size f;
     info_modified := isoformat (getmtime f) |}.

(** Lines 407-429. *)
Definition list_benchmark_files (dir : list file)
  : result (list file_info * Z) :=
  or_500 str_exn "Failed to list files: "
    (let files := map stat_info (flat_map (glob dir) patterns) in
     let files := sort_desc info_modified String.leb files in
     Ok (files, Z.of_nat (List.length files))).

End WithStat.

End Files.

Module QueryLaws.
Import Py Scanner Files.
Local Open Scope string_scope.


(** A directory with one record whose [zkp_metrics] is null. *)
Definition broken_dir : list file :=
  [ {| name := "benchmark_single_7.json"; mtime := 10;
       body := Parsed (JObj [("session_id", JStr "s7");
                             ("zkp_metrics", JNull)]) |} ].

(** Time stamps of the year 2024, one second apart. *)
Definition sample_isoformat (t : Q) : string :=
  "2024-01-01T00:00:" ++ str_of_int (Qfloor t).

End QueryLaws.

(** ** More sample data *)

Module MoreSamples.
Import Py Supervisor Samples.
Local Open Scope string_scope.

(** The run is interrupted while it waits for the child. *)
Definition interrupted : run_env :=
  {| accessible := fun _ => true; spawn_error := None;
     communicate := Raise KeyboardInterrupt |}.

(** A state in which a child is owned and the flag is set. *)
Definition busy_state : state :=
  {| running := true; message := "Benchmark running...";
     current_benchmark_process :=
       Some {| pid := 0; args := build_benchmark_command sample_config;
               child_cwd := ["srv"] |};
     cwd := ["srv"; "zkp-fl"]; background_tasks := [];
     spawned := [{| pid := 0; args := build_benchmark_command sample_config;
                    child_cwd := ["srv"] |}] |}.

(** Two requests are waiting to be run. *)
Definition two_queued : state :=
  {| running := false; message := ""; current_benchmark_process := None;
     cwd := service_dir;
     background_tasks :=
       [sample_config;
        {| scenario := "stress-test"; numClients := 50; numRounds := 1;
           clientDelay := 0; maxConcurrent := 10;
           serverUrl := Some "http://localhost:9000" |}];
     spawned := [] |}.

End MoreSamples.

(** * Properties *)

(** ** Numbers *)

Module NumberFacts.
Import Py.

Lemma round_half_even_close (q : Q) :
  Qabs (inject_Z (round_half_even q) - q) <= 1 # 2.
Proof.
  destruct q as [n d]. unfold round_half_even. cbn [Qnum Qden].
  pose proof (Z.div_mod n (Zpos d) ltac:(lia)) as Hdm.
  pose proof (Z.mod_pos_bound n (Zpos d) ltac:(lia)) as Hb.
  set (fl := (n / Zpos d)%Z) in *. set (r := (n mod Zpos d)%Z) in *.
  apply Qabs_Qle_condition.
  destruct (Z.ltb_spec (2 * r) (Zpos d)) as [H1|H1];
    [|destruct (Z.ltb_spec (Zpos d) (2 * r)) as [H2|H2];
      [|destruct (Z.even fl)]];
    split; unfold Qle, Qminus, Qplus, Qopp, inject_Z; cbn [Qnum Qden];
    rewrite ?Pos2Z.inj_mul; nia.
Qed.

(** Rounding to the nearest integer does not take 1 or more to 0. *)
Lemma round_half_even_pos (q : Q) : 1 <= q -> (0 < round_half_even q)%Z.
Proof.
  intros H. pose proof (round_half_even_close q) as Hc.
  apply Qabs_Qle_condition in Hc. destruct Hc as [Hlo _].
  assert (Hq : 1 # 2 <= inject_Z (round_half_even q)) by lra.
  destruct (Z.ltb_spec 0 (round_half_even q)) as [Hp|Hn]; [exact Hp|].
  exfalso. unfold Qle, inject_Z in Hq. cbn [Qnum Qden] in Hq. lia.
Qed.

Lemma two_pow_pos (k : Z) : 0 < two_pow k.
Proof.
  unfold two_pow. destruct (Z.leb_spec 0 k) as [H|H].
  - assert (0 < 2 ^ k)%Z by (apply Z.pow_pos_nonneg; lia).
    unfold Qlt, inject_Z. cbn [Qnum Qden]. lia.
  - reflexivity.
Qed.

(** A power of two with an exponent up to the binary logarithm of a positive
    int is at most that int. *)
Lemma two_pow_le_int (k n : Z) :
  (0 < n)%Z -> (k <= Z.log2 n)%Z -> two_pow k <= inject_Z n.
Proof.
  intros Hn Hk. unfold two_pow. destruct (Z.leb_spec 0 k) as [H|H].
  - assert (2 ^ k <= n)%Z.
    { apply Z.le_trans with (2 ^ Z.log2 n)%Z.
      - apply Z.pow_le_mono_r; lia.
      - apply Z.log2_spec, Hn. }
    unfold Qle, inject_Z. cbn [Qnum Qden]. lia.
  - unfold Qle, inject_Z. cbn [Qnum Qden].
    assert (0 < Zpos (Z.to_pos (2 ^ (- k))))%Z by lia. nia.
Qed.

Lemma ilog2_int (n : Z) : (0 < n)%Z -> (ilog2 (inject_Z n) <= Z.log2 n)%Z.
Proof.
  intros Hn. unfold ilog2, inject_Z. cbn [Qnum Qden].
  change (Z.log2 1) with 0%Z. rewrite Z.sub_0_r.
  destruct (Qle_bool (two_pow (Z.log2 n)) (n # 1)); lia.
Qed.

(** The double nearest to an int other than 0 is not 0. *)
Lemma round_double_int (z : Z) (q : Q) :
  z <> 0%Z -> round_double (inject_Z z) = Finite q -> ~ q == 0.
Proof.
  intros Hz. unfold round_double.
  assert (Hq : Qeq_bool (inject_Z z) 0 = false).
  { apply not_true_iff_false. intros E. apply Qeq_bool_iff in E.
    unfold Qeq, inject_Z in E. cbn [Qnum Qden] in E. lia. }
  rewrite Hq.
  assert (Ha : Qabs (inject_Z z) = inject_Z (Z.abs z)) by reflexivity.
  rewrite Ha.
  set (n := Z.abs z). assert (Hn : (0 < n)%Z) by (unfold n; lia).
  set (k := Z.max (ilog2 (inject_Z n) - 52) (-1074)).
  assert (Hk : (k <= Z.log2 n)%Z).
  { pose proof (ilog2_int Hn). pose proof (Z.log2_nonneg n). unfold k. lia. }
  pose proof (two_pow_pos k) as Hpos.
  pose proof (two_pow_le_int Hn Hk) as Hle.
  assert (Hm : (0 < round_half_even (inject_Z n / two_pow k))%Z).
  { apply round_half_even_pos. apply Qle_shift_div_l; [exact Hpos|].
    rewrite Qmult_1_l. exact Hle. }
  set (m := round_half_even (inject_Z n / two_pow k)) in *.
  destruct (Z.eqb_spec m 0) as [E|_]; [lia|].
  assert (Hv : 0 < inject_Z m * two_pow k).
  { apply Qmult_lt_0_compat; [|exact Hpos].
    unfold Qlt, inject_Z. cbn [Qnum Qden]. lia. }
  destruct (Qle_bool (two_pow 1024) (inject_Z m * two_pow k)); [discriminate|].
  intros H. injection H as <-. rewrite Qred_correct.
  generalize dependent (inject_Z m * two_pow k). intros v Hv.
  match goal with
  | |- context [if ?c then _ else _] => destruct c
  end; intros E; lra.
Qed.

Lemma double_of_int_nonzero (z : Z) (q : Q) :
  z <> 0%Z -> double_of_int z = Ok q -> Qeq_bool q 0 = false.
Proof.
  intros Hz. unfold double_of_int.
  destruct (round_double (inject_Z z)) as [q'| | |] eqn:E; try discriminate.
  intros H. injection H as <-.
  apply not_true_iff_false. intros H0. apply Qeq_bool_iff in H0.
  exact (round_double_int Hz E H0).
Qed.

Lemma double_of_int_raises (z : Z) (e : exn) :
  double_of_int z = Raise e -> e = OverflowError.
Proof.
  unfold double_of_int. destruct (round_double (inject_Z z)); try discriminate;
    intros H; injection H as <-; reflexivity.
Qed.

Lemma to_float_raises (n : number) (e : exn) :
  to_float n = Raise e -> e = OverflowError.
Proof.
  destruct n as [z|x]; cbn [to_float]; [|discriminate].
  destruct (double_of_int z) eqn:E; cbn [bind]; [discriminate|].
  intros H. injection H as <-. eapply double_of_int_raises, E.
Qed.

(** Adding two numbers fails in one way only: an int too large for a float. *)
Lemma number_add_raises (a b : number) (e : exn) :
  number_add a b = Raise e -> e = OverflowError.
Proof.
  unfold number_add.
  assert (H : (x <- to_float a ;; y <- to_float b ;; Ok (Float (float_add x y)))
              = Raise e -> e = OverflowError).
  { destruct (to_float a) eqn:Ea; cbn [bind].
    - destruct (to_float b) eqn:Eb; cbn [bind]; [discriminate|].
      intros H. injection H as <-. eapply to_float_raises, Eb.
    - intros H. injection H as <-. eapply to_float_raises, Ea. }
  destruct a, b; try exact H. discriminate.
Qed.

Lemma py_add_raises (acc : number) (v : json) (e : exn) :
  py_add acc v = Raise e -> e = TypeError \/ e = OverflowError.
Proof.
  unfold py_add. destruct (as_number v).
  - intros H. right. eapply number_add_raises, H.
  - intros H. injection H as <-. left. reflexivity.
Qed.

(** Dividing by an int other than 0 fails in one way only, too. *)
Lemma py_div_raises (a : number) (n : Z) (e : exn) :
  n <> 0%Z -> py_div a n = Raise e -> e = OverflowError.
Proof.
  intros Hn. unfold py_div. destruct a as [z|x].
  - destruct (Z.eqb_spec n 0) as [E|_]; [contradiction|].
    destruct (z =? 0)%Z; [discriminate|].
    destruct (round_double (inject_Z z / inject_Z n)); try discriminate.
    intros H. injection H as <-. reflexivity.
  - destruct (double_of_int n) as [y|e'] eqn:E; cbn [bind].
    + rewrite (double_of_int_nonzero Hn E). discriminate.
    + intros H. injection H as <-. eapply double_of_int_raises, E.
Qed.

Lemma py_round_raises (x : float) (ndigits : nat) (e : exn) :
  py_round x ndigits = Raise e -> e = OverflowError.
Proof.
  unfold py_round. destruct x as [q| | |]; try discriminate.
  destruct (323 <? ndigits)%nat; [discriminate|].
  destruct (round_half_even (q * pow10 ndigits) =? 0)%Z; [discriminate|].
  destruct (round_double _); try discriminate.
  intros H. injection H as <-. reflexivity.
Qed.

Lemma number_eq_refl (n : number) : number_eq n n = true.
Proof.
  destruct n as [z|[q| |s|]]; unfold number_eq; cbn [exact_value];
    try apply Qeq_bool_refl; try reflexivity.
  destruct s; reflexivity.
Qed.

End NumberFacts.

(** ** Aggregator *)

Module AggregatorFacts.
Import Py Aggregator AggregateSpec NumberFacts Samples.
Local Open Scope string_scope.

Lemma py_get_raises x k d e : py_get x k d = Raise e -> e = AttributeError.
Proof.
  destruct x; simpl; intros H; inversion H; reflexivity.
Qed.

Lemma rounded_quotient_raises (t : number) (n : Z) (ndigits : nat) (e : exn) :
  n <> 0%Z -> rounded_quotient t n ndigits = Raise e -> e = OverflowError.
Proof.
  intros Hn. unfold rounded_quotient.
  destruct (py_div t n) as [q|e'] eqn:Ed; cbn [bind].
  - destruct (py_round q ndigits) as [r|e'] eqn:Er; cbn [bind]; [discriminate|].
    intros H. injection H as <-. eapply py_round_raises, Er.
  - intros H. injection H as <-. eapply py_div_raises; eassumption.
Qed.

Ltac step_bind H :=
  match type of H with
  | bind ?m _ = Raise _ =>
      let E := fresh "E" in
      destruct m eqn:E; simpl in H;
      [ | inversion H; subst;
          first [ left; eapply py_get_raises; eassumption
                | right; eapply py_add_raises; eassumption ] ]
  end.

Lemma accumulate_raises t b e : accumulate t b = Raise e -> extraction_error e.
Proof.
  unfold accumulate, extraction_error. intros H.
  repeat step_bind H. discriminate H.
Qed.

Lemma aggregate_loop_raises benchmarks :
  forall t c e, aggregate_loop benchmarks t c = Raise e -> extraction_error e.
Proof.
  induction benchmarks as [|b rest IH]; simpl; intros t c e H.
  - discriminate H.
  - destruct (isinstance_dict b).
    + destruct (accumulate t b) eqn:E; simpl in H.
      * eapply IH; eassumption.
      * inversion H; subst. eapply accumulate_raises; eassumption.
    + eapply IH; eassumption.
Qed.

(** The exceptions the aggregate computation can end in. *)
Lemma calculate_raises (benchmarks : list json) (e : exn) :
  calculate_aggregate_metrics benchmarks = Raise e -> extraction_error e.
Proof.
  unfold calculate_aggregate_metrics. destruct benchmarks as [|b rest]; [discriminate|].
  destruct (aggregate_loop (b :: rest) zero_totals 0) as [[t c]|e'] eqn:E;
    cbn [bind fst snd].
  - set (count := if (c =? 0)%Z then 1%Z else c).
    assert (Hc : count <> 0%Z) by (unfold count; destruct (Z.eqb_spec c 0); lia).
    repeat match goal with
           | |- bind ?m _ = Raise _ -> _ =>
               let E' := fresh "E" in
               destruct m eqn:E'; cbn [bind];
               [|intros H; injection H as <-; right; right;
                 eapply rounded_quotient_raises; eassumption]
           end.
    discriminate.
  - intros H. injection H as <-. eapply aggregate_loop_raises, E.
Qed.

(** C8.  The aggregate of no records is the all-zero struct with
    [total_benchmarks = 0], and whatever the records are, the aggregate
    computation never raises [ZeroDivisionError]: the divisor is the count of
    extracted records, replaced by 1 when it is 0. *)
Theorem aggregate_empty_and_never_divides_by_zero :
  calculate_aggregate_metrics [] =
    Ok {| total_benchmarks := 0; avg_proof_time := Int 0;
          avg_verify_time := Int 0; avg_training_time := Int 0;
          avg_final_loss := Int 0; avg_proof_size := Int 0;
          total_duration := Int 0 |}
  /\ forall benchmarks,
       calculate_aggregate_metrics benchmarks <> Raise ZeroDivisionError.
Proof.
  split; [reflexivity|].
  intros benchmarks H. apply calculate_raises in H.
  destruct H as [H|[H|H]]; discriminate H.
Qed.

(** The loop passes over what is no dict. *)
Lemma aggregate_loop_skips_non_dicts (benchmarks : list json) :
  forall t c,
    aggregate_loop benchmarks t c =
    aggregate_loop (filter isinstance_dict benchmarks) t c.
Proof.
  induction benchmarks as [|b rest IH]; intros t c; [reflexivity|].
  cbn [aggregate_loop filter]. destruct (isinstance_dict b) eqn:Hd.
  - cbn [aggregate_loop]. rewrite Hd.
    destruct (accumulate t b); cbn [bind]; [apply IH | reflexivity].
  - apply IH.
Qed.


(** On a dict with dict sections the body of the loop is six additions. *)
Lemma accumulate_sectioned (t : totals) (b : json) :
  sectioned b = true -> accumulate t b = add_all t b.
Proof.
  unfold sectioned. intros H.
  apply andb_prop in H. destruct H as [H Ht].
  apply andb_prop in H. destruct H as [Hb Hz].
  destruct b as [| | | | |kvs]; try discriminate Hb.
  unfold accumulate, add_all, proof_generation_time_ms,
    proof_verification_time_ms, training_time_ms, final_loss_of,
    proof_size_bytes, total_duration_ms.
  change (py_get (JObj kvs) "zkp_metrics" (JObj []))
    with (Ok (section_of "zkp_metrics" (JObj kvs))).
  change (py_get (JObj kvs) "training_metrics" (JObj []))
    with (Ok (section_of "training_metrics" (JObj kvs))).
  cbn [bind].
  destruct (section_of "zkp_metrics" (JObj kvs)) as [| | | | |z];
    try discriminate Hz.
  destruct (section_of "training_metrics" (JObj kvs)) as [| | | | |tr];
    try discriminate Ht.
  reflexivity.
Qed.

Lemma well_typed_sectioned (b : json) : well_typed b = true -> sectioned b = true.
Proof.
  unfold well_typed, sectioned. intros H.
  repeat (apply andb_prop in H; let H' := fresh "H" in destruct H as [H H']).
  rewrite H.
  destruct (section_of "zkp_metrics" b); try discriminate.
  destruct (section_of "training_metrics" b); try discriminate.
  reflexivity.
Qed.

Lemma number_or_missing_numeric (k : string) (x : json) :
  number_or_missing k x = true -> numeric (value_at k x).
Proof.
  unfold number_or_missing, value_at, numeric.
  destruct x as [| | | | |d]; try discriminate.
  destruct (dict_get k d) as [v|]; [|discriminate].
  destruct (as_number v); [discriminate | discriminate].
Qed.

Lemma well_typed_numeric (b : json) :
  well_typed b = true ->
  numeric (proof_generation_time_ms b) /\ numeric (proof_verification_time_ms b) /\
  numeric (training_time_ms b) /\ numeric (final_loss_of b) /\
  numeric (proof_size_bytes b) /\ numeric (total_duration_ms b).
Proof.
  unfold well_typed. intros H.
  repeat (apply andb_prop in H; let H' := fresh "H" in destruct H as [H H']).
  repeat split; apply number_or_missing_numeric; assumption.
Qed.

(** The dict records of an extractable list are well typed. *)
Lemma extractable_dicts (benchmarks : list json) :
  forallb extractable benchmarks = true ->
  forallb well_typed (filter isinstance_dict benchmarks) = true.
Proof.
  induction benchmarks as [|b rest IH]; intros H; [reflexivity|].
  cbn [forallb] in H. apply andb_prop in H. destruct H as [Hb Hrest].
  cbn [filter]. unfold extractable in Hb.
  destruct (isinstance_dict b); cbn [negb orb] in Hb.
  - cbn [forallb]. rewrite Hb. apply IH, Hrest.
  - apply IH, Hrest.
Qed.

Lemma well_typed_is_dict (b : json) : well_typed b = true -> isinstance_dict b = true.
Proof.
  unfold well_typed. intros H.
  repeat (apply andb_prop in H; destruct H as [H _]). exact H.
Qed.

(** On well-typed dicts the loop is the six additions, record after record. *)
Lemma aggregate_loop_adds (records : list json) :
  forallb well_typed records = true ->
  forall t c,
    aggregate_loop records t c =
    (t' <- add_loop records t ;; Ok (t', (c + Z.of_nat (List.length records))%Z)).
Proof.
  induction records as [|b rest IH]; intros H t c.
  - cbn. rewrite Z.add_0_r. reflexivity.
  - cbn [forallb] in H. apply andb_prop in H. destruct H as [Hb Hrest].
    cbn [aggregate_loop add_loop]. rewrite (well_typed_is_dict _ Hb).
    rewrite (accumulate_sectioned t _ (well_typed_sectioned _ Hb)).
    destruct (add_all t b) as [t1|e]; cbn [bind]; [|reflexivity].
    rewrite (IH Hrest). destruct (add_loop rest t1); cbn [bind]; [|reflexivity].
    f_equal. f_equal. cbn [List.length]. lia.
Qed.

Lemma numeric_add_raises (acc : number) (v : json) (e : exn) :
  numeric v -> py_add acc v = Raise e -> e = OverflowError.
Proof.
  unfold numeric, py_add. destruct (as_number v) as [n|]; [|contradiction].
  intros _ H. eapply number_add_raises, H.
Qed.

Lemma py_sum_raises (values : list json) :
  Forall numeric values ->
  forall acc e, py_sum acc values = Raise e -> e = OverflowError.
Proof.
  induction 1 as [|v rest Hv _ IH]; intros acc e; cbn [py_sum]; [discriminate|].
  destruct (py_add acc v) as [s|e'] eqn:E; cbn [bind].
  - apply IH.
  - intros H. injection H as <-. eapply numeric_add_raises; eassumption.
Qed.

Lemma add_all_raises (t : totals) (b : json) (e : exn) :
  well_typed b = true -> add_all t b = Raise e -> e = OverflowError.
Proof.
  intros Hb. destruct (well_typed_numeric _ Hb) as (N1 & N2 & N3 & N4 & N5 & N6).
  unfold add_all.
  repeat match goal with
         | |- bind (py_add ?a ?v) _ = Raise _ -> _ =>
             let E := fresh "E" in
             destruct (py_add a v) eqn:E; cbn [bind];
             [|intros H; injection H as <-;
               eapply numeric_add_raises; [|eassumption]; assumption]
         end.
  discriminate.
Qed.

Lemma add_loop_raises (records : list json) :
  forallb well_typed records = true ->
  forall t e, add_loop records t = Raise e -> e = OverflowError.
Proof.
  induction records as [|b rest IH]; intros H t e; cbn [add_loop]; [discriminate|].
  cbn [forallb] in H. apply andb_prop in H. destruct H as [Hb Hrest].
  destruct (add_all t b) as [t1|e'] eqn:E; cbn [bind].
  - apply (IH Hrest).
  - intros H. injection H as <-. eapply add_all_raises; eassumption.
Qed.

Ltac bind_ok H :=
  match type of H with
  | bind ?m _ = Ok _ =>
      let E := fresh "E" in
      destruct m eqn:E; cbn [bind] in H; [|discriminate H]
  end.

(** The six totals do not interfere: the loop ends with a total for every
    metric exactly when each of the six sums can be computed, and then the
    totals are those sums. *)
Lemma add_loop_sums (records : list json) :
  forall t t',
    add_loop records t = Ok t' <->
    py_sum (proof_time t) (map proof_generation_time_ms records)
      = Ok (proof_time t') /\
    py_sum (verify_time t) (map proof_verification_time_ms records)
      = Ok (verify_time t') /\
    py_sum (training_time t) (map training_time_ms records)
      = Ok (training_time t') /\
    py_sum (final_loss t) (map final_loss_of records) = Ok (final_loss t') /\
    py_sum (proof_size t) (map proof_size_bytes records) = Ok (proof_size t') /\
    py_sum (duration t) (map total_duration_ms records) = Ok (duration t').
Proof.
  induction records as [|b rest IH]; intros t t'; cbn [add_loop map py_sum].
  - split.
    + intros H. injection H as <-. repeat split.
    + intros (H1 & H2 & H3 & H4 & H5 & H6).
      injection H1 as H1. injection H2 as H2. injection H3 as H3.
      injection H4 as H4. injection H5 as H5. injection H6 as H6.
      destruct t, t'. cbn in *. congruence.
  - split.
    + intros H. destruct (add_all t b) as [t1|] eqn:E; cbn [bind] in H;
        [|discriminate H].
      apply IH in H. unfold add_all in E.
      repeat bind_ok E. injection E as <-.
      cbn [proof_time verify_time training_time final_loss proof_size duration]
        in H.
      cbn [bind]. exact H.
    + intros (H1 & H2 & H3 & H4 & H5 & H6).
      bind_ok H1. bind_ok H2. bind_ok H3. bind_ok H4. bind_ok H5. bind_ok H6.
      unfold add_all. rewrite E, E0, E1, E2, E3, E4. cbn [bind].
      apply IH.
      cbn [proof_time verify_time training_time final_loss proof_size duration].
      repeat split; assumption.
Qed.

Lemma bind_raises {A B} (m : result A) (k : A -> result B) (e : exn)
  (P : exn -> Prop) :
  (forall e', m = Raise e' -> P e') ->
  (forall a e', m = Ok a -> k a = Raise e' -> P e') ->
  bind m k = Raise e -> P e.
Proof.
  intros Hm Hk. destruct m as [a|e']; cbn [bind].
  - intros H. eapply Hk; [reflexivity | exact H].
  - intros H. injection H as <-. apply Hm. reflexivity.
Qed.

Lemma rounded_mean_raises (metric : json -> json) (benchmarks : list json)
  (ndigits : nat) (e : exn) :
  Forall numeric (map metric (filter isinstance_dict benchmarks)) ->
  (0 < attempted benchmarks)%nat ->
  rounded_mean metric benchmarks ndigits = Raise e -> e = OverflowError.
Proof.
  intros Hnum Hpos. unfold rounded_mean, total.
  apply (@bind_raises _ _ _ _ e (fun e' => e' = OverflowError)).
  - intros e' H. eapply py_sum_raises; eassumption.
  - intros t e' _ H. eapply rounded_quotient_raises; [|exact H]. lia.
Qed.

Lemma numeric_metrics (records : list json) :
  forallb well_typed records = true ->
  Forall numeric (map proof_generation_time_ms records) /\
  Forall numeric (map proof_verification_time_ms records) /\
  Forall numeric (map training_time_ms records) /\
  Forall numeric (map final_loss_of records) /\
  Forall numeric (map proof_size_bytes records) /\
  Forall numeric (map total_duration_ms records).
Proof.
  induction records as [|b rest IH]; intros H.
  - repeat split; constructor.
  - cbn [forallb] in H. apply andb_prop in H. destruct H as [Hb Hrest].
    destruct (IH Hrest) as (I1 & I2 & I3 & I4 & I5 & I6).
    destruct (well_typed_numeric _ Hb) as (N1 & N2 & N3 & N4 & N5 & N6).
    repeat split; constructor; assumption.
Qed.

(** The metric-by-metric aggregate fails with [OverflowError] only. *)
Lemma mean_aggregate_raises (benchmarks : list json) (e : exn) :
  forallb extractable benchmarks = true ->
  (0 < attempted benchmarks)%nat ->
  mean_aggregate benchmarks = Raise e -> e = OverflowError.
Proof.
  intros Hall Hpos.
  destruct (numeric_metrics _ (extractable_dicts _ Hall))
    as (N1 & N2 & N3 & N4 & N5 & N6).
  unfold mean_aggregate.
  repeat match goal with
         | |- bind (rounded_mean ?m ?b ?n) _ = Raise _ -> _ =>
             let E := fresh "E" in
             destruct (rounded_mean m b n) eqn:E; cbn [bind];
             [|intros H; injection H as <-;
               eapply rounded_mean_raises; [| |eassumption]; assumption]
         end.
  discriminate.
Qed.

(** The loop and the metric-by-metric computation agree, in their results
    and in their failures. *)
Lemma aggregate_closed_form (benchmarks : list json) :
  forallb extractable benchmarks = true ->
  (0 < attempted benchmarks)%nat ->
  calculate_aggregate_metrics benchmarks = mean_aggregate benchmarks.
Proof.
  intros Hall Hpos.
  pose proof (extractable_dicts _ Hall) as Hdicts.
  destruct benchmarks as [|b rest]; [unfold attempted in Hpos; simpl in Hpos; lia|].
  unfold calculate_aggregate_metrics.
  rewrite aggregate_loop_skips_non_dicts, (aggregate_loop_adds _ Hdicts).
  fold (attempted (b :: rest)).
  set (n := Z.of_nat (attempted (b :: rest))) in *.
  assert (Hn : (0 + n =? 0)%Z = false) by (apply Z.eqb_neq; unfold n; lia).
  destruct (add_loop (filter isinstance_dict (b :: rest)) zero_totals)
    as [t|e] eqn:Eloop; cbn [bind fst snd].
  - rewrite Hn, Z.add_0_l.
    apply add_loop_sums in Eloop.
    destruct Eloop as (S1 & S2 & S3 & S4 & S5 & S6).
    unfold mean_aggregate, rounded_mean, total. fold n.
    cbn [proof_time verify_time training_time final_loss proof_size duration
         zero_totals] in S1, S2, S3, S4, S5, S6.
    rewrite S1, S2, S3, S4, S5, S6. cbn [bind]. reflexivity.
  - pose proof (add_loop_raises _ Hdicts _ Eloop) as ->.
    destruct (mean_aggregate (b :: rest)) as [agg|e] eqn:Emean.
    + exfalso. unfold mean_aggregate, rounded_mean in Emean.
      repeat match type of Emean with
             | bind (bind ?m _) _ = Ok _ =>
                 let E := fresh "T" in
                 destruct m eqn:E; cbn [bind] in Emean; [|discriminate Emean]
             | bind ?m _ = Ok _ =>
                 let E := fresh "Q" in
                 destruct m eqn:E; cbn [bind] in Emean; [|discriminate Emean]
             end.
      unfold total in *.
      assert (Hok : add_loop (filter isinstance_dict (b :: rest)) zero_totals =
                    Ok {| proof_time := a; verify_time := a1; training_time := a3;
                          final_loss := a5; proof_size := a7; duration := a9 |}).
      { apply add_loop_sums.
        cbn [proof_time verify_time training_time final_loss proof_size duration
             zero_totals].
        repeat split; assumption. }
      rewrite Hok in Eloop. discriminate Eloop.
    + rewrite (mean_aggregate_raises _ Hall Hpos Emean). reflexivity.
Qed.

(** C2, as amended.  For every record set with at least one dict record, all
    of whose dict records hold numbers wherever a metric is present, the
    aggregate is the one computed metric by metric: each average is the sum
    of its metric over the dict records, added up in list order from the int
    0 with Python's arithmetic (0 for a record without the metric), divided
    by the shared count of dict records and rounded to 2 decimal places for
    proof time, verify time, training time, proof size and duration, and to
    4 decimal places for the final loss.  The call raises [OverflowError]
    exactly when that computation does. *)
Theorem aggregate_is_rounded_mean (benchmarks : list json) :
  forallb extractable benchmarks = true ->
  (0 < attempted benchmarks)%nat ->
  calculate_aggregate_metrics benchmarks = mean_aggregate benchmarks.
Proof.
  exact (aggregate_closed_form benchmarks).
Qed.

Lemma aggregate_is_rounded_mean_witness :
  calculate_aggregate_metrics sample_records = mean_aggregate sample_records.
Proof.
  apply (aggregate_is_rounded_mean sample_records).
  - reflexivity.
  - vm_compute. lia.
Defined.

(** The sample records: proof times 1.5 and none, final losses 0.1234 and
    none, over two records. *)
Lemma sample_aggregate :
  calculate_aggregate_metrics sample_records =
    Ok {| total_benchmarks := 2;
          avg_proof_time := double (75 # 100);
          avg_verify_time := double 0;
          avg_training_time := double 0;
          avg_final_loss := double (617 # 10000);
          avg_proof_size := double 0;
          total_duration := double 0 |}.
Proof. vm_compute. reflexivity. Qed.

(** C2, as stated, fails for the final loss: a single record with final loss
    0.1234 has [avg_final_loss] 0.1234, not the 2-decimal 0.12. *)
Lemma final_loss_keeps_four_decimals :
  let benchmarks :=
    [JObj [("training_metrics",
            JObj [("final_loss", JNum (double (1234 # 10000)))])]] in
  exists agg,
    calculate_aggregate_metrics benchmarks = Ok agg /\
    avg_final_loss agg = double (1234 # 10000) /\
    rounded_mean final_loss_of benchmarks 2 = Ok (double (12 # 100)) /\
    avg_final_loss agg <> double (12 # 100).
Proof.
  eexists. split; [vm_compute; reflexivity|].
  split; [vm_compute; reflexivity|]. split; [vm_compute; reflexivity|].
  vm_compute. discriminate.
Qed.

(** Forty int records, one with proof time 107: the average 2.675 is rounded
    as the double it is, which lies below 2.675, and so to 2.67. *)
Lemma quotient_is_rounded_as_a_double :
  rounded_quotient (Int 107) 40 2 = Ok (double (267 # 100)).
Proof. vm_compute. reflexivity. Qed.

End AggregatorFacts.

(** ** Scanner and normalizer *)

Module ScannerFacts.
Import Py Scanner ScannerSpec Samples.
Local Open Scope string_scope.

Lemma dict_get_set (k k' : string) (v : json) (d : list (string * json)) :
  dict_get k (dict_set k' v d) =
  if String.eqb k k' then Some v else dict_get k d.
Proof.
  induction d as [|[k0 v0] d IH]; simpl.
  - reflexivity.
  - destruct (String.eqb_spec k' k0) as [->|Hne]; simpl.
    + destruct (String.eqb k k0); reflexivity.
    + rewrite IH. destruct (String.eqb_spec k k0) as [->|Hne'].
      * destruct (String.eqb_spec k0 k'); [congruence | reflexivity].
      * reflexivity.
Qed.

Lemma dict_get_with_scenario (p k : string) (d : list (string * json)) :
  dict_get k (with_scenario p d) =
  if String.eqb k "scenario"
  then Some (match dict_get "scenario" d with
             | Some v => v
             | None => JStr (infer_scenario p)
             end)
  else dict_get k d.
Proof.
  unfold with_scenario, dict_mem.
  destruct (dict_get "scenario" d) as [v|] eqn:E.
  - destruct (String.eqb_spec k "scenario") as [->|_]; [exact E | reflexivity].
  - rewrite dict_get_set. destruct (String.eqb_spec k "scenario") as [->|_];
      [reflexivity | reflexivity].
Qed.

(** The directory part of a path adds nothing to the inference. *)
Lemma infer_scenario_path (nm : string) :
  infer_scenario (BENCHMARK_DIR ++ "/" ++ nm) = scenario_from_name nm.
Proof. reflexivity. Qed.

Ltac use_distinct k :=
  match goal with
  | H : String.eqb k _ = false |- _ => rewrite H
  end.

(** What one nested client entry becomes (lines 133-150). *)
Lemma client_record_fields (p : string) (mt : Q) (d e : list (string * json)) :
  exists r,
    client_record p mt d (JObj e) = Ok (JObj r) /\
    dict_get "filename" r = Some (JStr (basename p)) /\
    dict_get "file_mtime" r = Some (JNum (Float (Finite mt))) /\
    dict_get "report_id" r =
      Some (dict_get_default "benchmark_id" (JStr "unknown") d) /\
    dict_get "num_clients" r = Some (dict_get_default "num_clients" (JNum (Int 1)) d) /\
    dict_get "scenario" r =
      Some (match dict_get "scenario" e with
            | Some v => v
            | None => JStr (infer_scenario p)
            end) /\
    extends e r.
Proof.
  eexists. split; [reflexivity|].
  repeat split;
    try (rewrite dict_get_with_scenario; repeat rewrite dict_get_set; reflexivity).
  intros k Hk. simpl in Hk.
  repeat (apply orb_false_elim in Hk; let H := fresh "Hk" in destruct Hk as [H Hk]).
  repeat (rewrite dict_get_with_scenario || rewrite dict_get_set || use_distinct k).
  reflexivity.
Qed.

(** What a single-record file becomes (lines 152-166). *)
Lemma single_record_fields (p : string) (mt : Q) (d : list (string * json)) :
  dict_get "client_results" d = None ->
  exists r,
    normalize p mt (JObj d) = Ok [JObj r] /\
    dict_get "filename" r = Some (JStr (basename p)) /\
    dict_get "file_mtime" r = Some (JNum (Float (Finite mt))) /\
    dict_get "scenario" r =
      Some (match dict_get "scenario" d with
            | Some v => v
            | None => JStr (infer_scenario p)
            end) /\
    extends d r.
Proof.
  intros Hnone. unfold normalize. rewrite Hnone.
  eexists. split; [reflexivity|].
  repeat split;
    try (rewrite dict_get_with_scenario; repeat rewrite dict_get_set; reflexivity).
  intros k Hk. simpl in Hk.
  repeat (apply orb_false_elim in Hk; let H := fresh "Hk" in destruct Hk as [H Hk]).
  repeat (rewrite dict_get_with_scenario || rewrite dict_get_set || use_distinct k).
  reflexivity.
Qed.

Lemma map_client_record (p : string) (mt : Q) (d : list (string * json))
  (entries : list json) :
  forallb isinstance_dict entries = true ->
  exists records,
    map_result (client_record p mt d) entries = Ok records /\
    Forall2 (fun entry record =>
               exists e r, entry = JObj e /\
                 client_record p mt d (JObj e) = Ok record /\ record = JObj r)
            entries records.
Proof.
  induction entries as [|x entries IH]; intros Hall.
  - exists []. split; [reflexivity | constructor].
  - simpl in Hall. apply andb_prop in Hall. destruct Hall as [Hx Hrest].
    destruct x as [| | | | |e]; try discriminate.
    destruct (IH Hrest) as (records & Hmap & Hrel).
    destruct (client_record_fields p mt d e) as (r & Hr & _).
    exists (JObj r :: records). split.
    + cbn [map_result]. rewrite Hr. cbn [bind]. rewrite Hmap. reflexivity.
    + constructor; [|exact Hrel]. exists e, r. auto.
Qed.

(** C4.  A report with N nested client entries (dicts) normalizes to exactly
    N records, the i-th being the i-th entry with metadata added: each has the
    report's run identifier as [report_id] and its declared count as
    [num_clients], and each carries the file name and modification time. *)
Theorem report_yields_one_record_per_entry
  (file_path : string) (mt : Q) (d : list (string * json)) (entries : list json) :
  dict_get "client_results" d = Some (JArr entries) ->
  forallb isinstance_dict entries = true ->
  exists records,
    normalize file_path mt (JObj d) = Ok records /\
    List.length records = List.length entries /\
    Forall (inherits d) records /\
    Forall (carries_provenance file_path mt) records /\
    Forall2 derived_from entries records.
Proof.
  intros Hcr Hall.
  destruct (map_client_record file_path mt d entries Hall) as (records & Hmap & Hrel).
  exists records. unfold normalize. rewrite Hcr. cbn [py_iter bind].
  split; [exact Hmap|]. clear Hmap Hcr Hall.
  induction Hrel as [|entry record entries records (e & r & -> & Hrec & ->) _ IH].
  - repeat split; constructor.
  - destruct IH as (Hlen & Hinh & Hprov & Hder).
    destruct (client_record_fields file_path mt d e)
      as (r' & Hr' & Hfile & Hmtime & Hrid & Hnum & _ & Hext).
    rewrite Hr' in Hrec. injection Hrec as <-.
    repeat split.
    + simpl. rewrite Hlen. reflexivity.
    + constructor; [|exact Hinh]. exists r'. auto.
    + constructor; [|exact Hprov]. exists r'. auto.
    + constructor; [|exact Hder]. exists e, r'. auto.
Qed.

Lemma report_yields_one_record_per_entry_witness :
  exists records,
    normalize "../benchmarks/benchmark_report_17.json" 5 (JObj sample_report)
      = Ok records /\
    List.length records = 2%nat /\
    Forall (inherits sample_report) records /\
    Forall (carries_provenance "../benchmarks/benchmark_report_17.json" 5) records /\
    Forall2 derived_from sample_entries records.
Proof.
  apply (@report_yields_one_record_per_entry
           "../benchmarks/benchmark_report_17.json" 5 sample_report
           sample_entries).
  - reflexivity.
  - reflexivity.
Defined.

(** C5, as amended.  For a file with an ASCII name, a record without a
    [scenario] field gets the scenario the name gives, letter case ignored:
    [multi-client] when the lowercased name contains [multi], else
    [single-client] when it contains [single], else [unknown]; a record with
    a [scenario] field keeps it. *)
Theorem scenario_inferred_unless_explicit
  (nm : string) (mt : Q) (d : list (string * json)) :
  is_ascii nm = true ->
  well_shaped d = true ->
  exists records,
    normalize (BENCHMARK_DIR ++ "/" ++ nm) mt (JObj d) = Ok records /\
    Forall2 (scenario_settled nm) (raw_entries d) records.
Proof.
  unfold well_shaped, raw_entries. intros _ Hshape.
  destruct (dict_get "client_results" d) as [cr|] eqn:Hcr.
  - destruct cr as [| | | |entries|]; try discriminate.
    destruct (map_client_record (BENCHMARK_DIR ++ "/" ++ nm) mt d entries Hshape)
      as (records & Hmap & Hrel).
    exists records. unfold normalize. rewrite Hcr. cbn [py_iter bind].
    split; [exact Hmap|]. clear Hmap Hcr Hshape.
    induction Hrel as [|entry record entries' records' (e & r & -> & Hrec & ->) _ IH].
    + constructor.
    + constructor; [|exact IH].
      destruct (client_record_fields (BENCHMARK_DIR ++ "/" ++ nm) mt d e)
        as (r' & Hr' & _ & _ & _ & _ & Hsc & _).
      rewrite Hr' in Hrec. injection Hrec as <-.
      exists e, r'. repeat split. rewrite Hsc, infer_scenario_path. reflexivity.
  - destruct (single_record_fields (BENCHMARK_DIR ++ "/" ++ nm) mt d Hcr)
      as (r & Hr & _ & _ & Hsc & _).
    exists [JObj r]. split; [exact Hr|].
    constructor; [|constructor].
    exists d, r. repeat split. rewrite Hsc, infer_scenario_path. reflexivity.
Qed.

Lemma scenario_inferred_unless_explicit_witness :
  exists records,
    normalize (BENCHMARK_DIR ++ "/" ++ "benchmark_report_99.json") 1
      (JObj [("session_id", JStr "s")]) = Ok records /\
    Forall2 (scenario_settled "benchmark_report_99.json")
      [JObj [("session_id", JStr "s")]] records.
Proof.
  apply (@scenario_inferred_unless_explicit "benchmark_report_99.json" 1
           [("session_id", JStr "s")]).
  - reflexivity.
  - reflexivity.
Defined.

(** C5, as stated, fails on letter case: [benchmark_MULTI_1.json] contains
    neither [multi] nor [single], so the stated rule gives [unknown], but the
    record is normalized to [multi-client]. *)
Lemma uppercase_name_is_matched :
  let nm := "benchmark_MULTI_1.json" in
  scenario_as_specified nm = "unknown" /\
  exists r,
    normalize (BENCHMARK_DIR ++ "/" ++ nm) 0 (JObj []) = Ok [JObj r] /\
    dict_get "scenario" r = Some (JStr "multi-client") /\
    dict_get "scenario" r <> Some (JStr (scenario_as_specified nm)).
Proof.
  split; [reflexivity|].
  eexists. split; [reflexivity|]. split; [reflexivity|].
  vm_compute. discriminate.
Qed.

End ScannerFacts.

(** ** Sorting *)

Module SortFacts.
Import Py.

Section Sorting.
Context {A K : Type} (key : A -> K) (leb : K -> K -> bool).

Lemma insert_desc_perm (x : A) (l : list A) :
  Permutation (insert_desc key leb x l) (x :: l).
Proof.
  induction l as [|y l IH]; simpl.
  - apply Permutation_refl.
  - destruct (leb (key y) (key x)).
    + apply Permutation_refl.
    + eapply perm_trans; [apply perm_skip, IH | apply perm_swap].
Qed.

Lemma sort_desc_perm (l : list A) : Permutation (sort_desc key leb l) l.
Proof.
  induction l as [|x l IH]; simpl.
  - constructor.
  - eapply perm_trans; [apply insert_desc_perm | apply perm_skip, IH].
Qed.

Lemma filter_insert_desc_perm (p : A -> bool) (x : A) (l : list A) :
  Permutation (filter p (insert_desc key leb x l)) (filter p (x :: l)).
Proof.
  induction l as [|y l IH]; simpl.
  - apply Permutation_refl.
  - destruct (leb (key y) (key x)); simpl.
    + apply Permutation_refl.
    + simpl in IH. destruct (p y), (p x); auto using perm_skip.
      eapply perm_trans; [apply perm_skip, IH | apply perm_swap].
Qed.

Lemma filter_sort_desc_perm (p : A -> bool) (l : list A) :
  Permutation (filter p (sort_desc key leb l)) (filter p l).
Proof.
  induction l as [|x l IH]; simpl.
  - constructor.
  - eapply perm_trans; [apply filter_insert_desc_perm|].
    simpl. destruct (p x); auto using perm_skip.
Qed.


End Sorting.

End SortFacts.

(** ** Scanning a directory *)

Module ScanFacts.
Import Py Scanner ScannerSpec AggregateSpec SortFacts ScannerFacts Samples.
Local Open Scope string_scope.

(** A pattern that starts with a star still matches after one more
    character is put in front of the name. *)
Lemma star_cons (p s : string) (c : ascii) :
  fnmatch (String "*" p) s = true -> fnmatch (String "*" p) (String c s) = true.
Proof.
  intros H. simpl in *. rewrite H. apply orb_true_r.
Qed.

Lemma fnmatch_literal (c : ascii) (p s : string) :
  Ascii.eqb c "*" = false ->
  fnmatch (String c p) s =
  match s with
  | EmptyString => false
  | String d s' => Ascii.eqb c d && fnmatch p s'
  end.
Proof.
  intros H. cbn [fnmatch]. rewrite H. reflexivity.
Qed.

Ltac peel H nm :=
  let a := fresh "a" in
  let H1 := fresh "Hc" in
  rewrite fnmatch_literal in H by reflexivity;
  destruct nm as [|a nm]; [discriminate H|];
  apply andb_prop in H; destruct H as [H1 H];
  apply Ascii.eqb_eq in H1; subst a;
  rewrite fnmatch_literal by reflexivity;
  rewrite Ascii.eqb_refl, andb_true_l.

(** Whatever the second pattern matches, the first matches too. *)
Lemma report_pattern_is_covered (nm : string) :
  fnmatch "benchmark_report_*.json" nm = true ->
  fnmatch "benchmark_*.json" nm = true.
Proof.
  intros H.
  do 10 peel H nm.
  repeat (rewrite fnmatch_literal in H by reflexivity;
          let a := fresh "a" in
          destruct nm as [|a nm]; [discriminate H|];
          apply andb_prop in H; destruct H as [_ H];
          apply star_cons).
  exact H.
Qed.

(** A directory entry name has no slash, so the path ends in the name. *)
Lemma basename_path (nm : string) :
  contains "/" nm = false -> basename (BENCHMARK_DIR ++ "/" ++ nm) = nm.
Proof.
  intros H.
  assert (P : String.prefix "" nm = true) by (destruct nm; reflexivity).
  unfold BENCHMARK_DIR. cbn. rewrite H, P. reflexivity.
Qed.



Lemma malformed_raises (f : file) :
  malformed f = true ->
  load_file f = Raise JSONDecodeError /\ valid f = false.
Proof.
  unfold malformed, valid, load_file, read_json.
  destruct (body f); try discriminate. split; reflexivity.
Qed.

Lemma flat_map_valid (files : list file) :
  forallb (fun f => malformed f || valid f) files = true ->
  flat_map normalized (filter valid files) = flat_map normalized files.
Proof.
  induction files as [|f files IH]; intros H; [reflexivity|].
  cbn [forallb] in H. apply andb_prop in H. destruct H as [Hf Hrest].
  cbn [filter flat_map]. destruct (valid f) eqn:Hv.
  - cbn [flat_map]. rewrite (IH Hrest). reflexivity.
  - rewrite orb_false_r in Hf.
    destruct (malformed_raises f Hf) as [Hraise _].
    unfold normalized at 2. rewrite Hraise. apply (IH Hrest).
Qed.


Lemma glob_nothing (dir : list file) (pat : string) :
  forallb (fun f => negb (fnmatch pat (name f))) dir = true -> glob dir pat = [].
Proof.
  unfold glob. induction dir as [|f dir IH]; intros H; [reflexivity|].
  cbn [forallb] in H. apply andb_prop in H. destruct H as [Hf Hrest].
  cbn [filter]. apply negb_true_iff in Hf. rewrite Hf. apply IH, Hrest.
Qed.

Lemma map_result_raises {A B} (f : A -> result B) (l : list A) (e : exn)
  (P : exn -> Prop) :
  (forall x e', f x = Raise e' -> P e') ->
  map_result f l = Raise e -> P e.
Proof.
  intros Hf. induction l as [|x l IH]; cbn [map_result]; [discriminate|].
  destruct (f x) as [y|e'] eqn:Hx; cbn [bind].
  - destruct (map_result f l) as [ys|e'']; cbn [bind]; [discriminate|].
    intros H. injection H as <-. apply IH. reflexivity.
  - intros H. injection H as <-. eapply Hf, Hx.
Qed.

(** Normalization fails with [TypeError] only. *)
Lemma normalize_raises (p : string) (mt : Q) (data : json) (e : exn) :
  normalize p mt data = Raise e -> e = TypeError.
Proof.
  destruct data as [| | | | |d]; cbn [normalize];
    try (intros H; injection H as <-; reflexivity).
  destruct (dict_get "client_results" d) as [cr|]; [|discriminate].
  destruct (py_iter cr) as [entries|e'] eqn:Hiter; cbn [bind].
  - intros H.
    apply (@map_result_raises _ _ (client_record p mt d) entries e
             (fun e' => e' = TypeError)); [|exact H].
    intros x e'.
    destruct x; cbn [client_record]; intros H'; inversion H'; reflexivity.
  - intros H. injection H as <-.
    destruct cr; cbn [py_iter] in Hiter; inversion Hiter; reflexivity.
Qed.

(** Loading a file fails with an [Exception], and with [JSONDecodeError]
    exactly when the file is malformed. *)
Lemma load_file_raises (f : file) (e : exn) :
  load_file f = Raise e ->
  is_exception e = true /\
  caught_per_file e = malformed f /\
  (malformed f = true -> e = JSONDecodeError).
Proof.
  unfold load_file, read_json, malformed.
  destruct (body f) as [| | | | |data]; cbn [bind];
    try (intros H; injection H as <-; repeat split;
         solve [reflexivity | discriminate]).
  intros H. apply normalize_raises in H. subst e. repeat split. discriminate.
Qed.












Lemma map_result_inv {A B} (f : A -> result B) (l : list A) (rs : list B) :
  map_result f l = Ok rs -> Forall2 (fun x r => f x = Ok r) l rs.
Proof.
  revert rs. induction l as [|x l IH]; intros rs H; simpl in H.
  - injection H as <-. constructor.
  - destruct (f x) as [y|] eqn:Hy; simpl in H; [|discriminate].
    destruct (map_result f l) as [ys|]; simpl in H; [|discriminate].
    injection H as <-. constructor; [exact Hy | apply IH; reflexivity].
Qed.

(** Every record normalization emits carries the name of its file. *)
Lemma normalize_provenance (p : string) (mt : Q) (data : json) (records : list json) :
  normalize p mt data = Ok records ->
  Forall (carries_provenance p mt) records.
Proof.
  destruct data as [| | | | |d]; try discriminate.
  unfold normalize.
  destruct (dict_get "client_results" d) as [cr|] eqn:Hcr.
  - destruct (py_iter cr) as [entries|]; [|discriminate]. cbn [bind].
    intros H. apply map_result_inv in H.
    induction H as [|x r entries records Hx _ IH]; constructor; [|exact IH].
    destruct x as [| | | | |e]; try discriminate.
    destruct (client_record_fields p mt d e) as (r' & Hr' & Hfile & Hmtime & _).
    rewrite Hr' in Hx. injection Hx as <-. exists r'. auto.
  - destruct (single_record_fields p mt d Hcr) as (r & Hr & Hfile & Hmtime & _).
    unfold normalize in Hr. rewrite Hcr in Hr. intros H. rewrite Hr in H.
    injection H as <-. constructor; [|constructor]. exists r. auto.
Qed.



Lemma unique_name (dir : list file) (f : file) :
  NoDup (map name dir) -> In f dir ->
  filter (fun g => String.eqb (name g) (name f)) dir = [f].
Proof.
  induction dir as [|g dir IH]; intros Hnd Hin; [destruct Hin|].
  cbn [map] in Hnd. inversion Hnd as [|x l Hnotin Hnd']; subst.
  cbn [filter]. destruct Hin as [->|Hin].
  - rewrite String.eqb_refl. f_equal.
    clear IH Hnd Hnd'. induction dir as [|h dir IH]; [reflexivity|].
    cbn [filter]. destruct (String.eqb_spec (name h) (name f)) as [E|_].
    + exfalso. apply Hnotin. left. exact E.
    + apply IH. intros H. apply Hnotin. right. exact H.
  - destruct (String.eqb_spec (name g) (name f)) as [E|_].
    + exfalso. apply Hnotin. rewrite E. apply in_map, Hin.
    + apply IH; assumption.
Qed.

Lemma filter_filter_comm {A} (p q : A -> bool) (l : list A) :
  filter p (filter q l) = filter q (filter p l).
Proof.
  induction l as [|x l IH]; [reflexivity|]. cbn [filter].
  destruct (q x) eqn:Hq, (p x) eqn:Hp; cbn [filter];
    rewrite ?Hq, ?Hp, IH; reflexivity.
Qed.

Lemma matched_once (dir : list file) (f : file) (pat : string) :
  NoDup (map name dir) -> In f dir -> fnmatch pat (name f) = true ->
  filter (fun g => String.eqb (name g) (name f)) (glob dir pat) = [f].
Proof.
  intros Hnd Hin Hm. unfold glob.
  rewrite filter_filter_comm, (unique_name dir f Hnd Hin).
  cbn [filter]. rewrite Hm. reflexivity.
Qed.



Lemma total_benchmarks_is_length (benchmarks : list json) (agg : Aggregator.aggregate) :
  Aggregator.calculate_aggregate_metrics benchmarks = Ok agg ->
  Aggregator.total_benchmarks agg = Z.of_nat (List.length benchmarks).
Proof.
  unfold Aggregator.calculate_aggregate_metrics.
  destruct benchmarks as [|b rest].
  - intros H. injection H as <-. reflexivity.
  - destruct (Aggregator.aggregate_loop (b :: rest) Aggregator.zero_totals 0)
      as [tc|]; cbn [bind]; [|discriminate].
    repeat (match goal with
            | |- bind ?m _ = _ -> _ => destruct m; cbn [bind]; [|discriminate]
            end).
    intros H. injection H as <-. reflexivity.
Qed.


Lemma names_distinct :
  NoDup ["benchmark_report_1.json"; "benchmark_report_2.json";
         "benchmark_broken.json"].
Proof.
  repeat constructor; simpl; intros H;
    repeat (destruct H as [H|H]; [discriminate H|]); exact H.
Qed.



End ScanFacts.

(** ** Record lookup *)

Module QueryFacts.
Import Py Scanner ScannerSpec QuerySpec Queries ScannerFacts ScanFacts Samples.
Local Open Scope string_scope.

Lemma load_file_records (f : file) (records : list json) :
  load_file f = Ok records -> Forall is_record records.
Proof.
  unfold load_file, read_json. destruct (body f) as [| | | | |data]; try discriminate.
  cbn [bind]. intros H. apply normalize_provenance in H.
  eapply Forall_impl; [|exact H].
  intros r (kvs & -> & Hfile & _). exists kvs. split; [reflexivity|].
  rewrite Hfile. discriminate.
Qed.

Lemma scan_loop_records (files : list file) :
  forall acc log log' out,
    Forall is_record acc ->
    scan_loop files acc log = (log', Ok out) ->
    Forall is_record out.
Proof.
  induction files as [|f files IH]; intros acc log log' out Hacc H.
  - simpl in H. injection H as _ <-. exact Hacc.
  - cbn [scan_loop] in H. destruct (load_file f) as [records|e] eqn:Hf.
    + eapply IH; [|exact H]. apply Forall_app. split; [exact Hacc|].
      eapply load_file_records; exact Hf.
    + destruct (caught_per_file e); [|discriminate].
      eapply IH; [exact Hacc | exact H].
Qed.

(** Whatever the scan returns is a list of dicts that carry a file name. *)
Lemma loaded_are_records (dir : list file) (out : list json) :
  load_benchmark_files dir = Ok out -> Forall is_record out.
Proof.
  unfold load_benchmark_files, load_benchmark_files_logged.
  destruct (scan_loop (all_files dir) [] []) as [log [benchmarks|e]] eqn:H.
  - cbn [snd]. intros E. injection E as <-.
    eapply scan_loop_records; [constructor | exact H].
  - destruct (is_exception e); cbn [snd]; intros E; [|discriminate].
    injection E as <-. constructor.
Qed.

Lemma matches_get (session_id : string) (kvs : list (string * json)) :
  py_eq (match dict_get "session_id" kvs with Some v => v | None => JNull end)
        (JStr session_id)
  = matches session_id (JObj kvs).
Proof.
  unfold matches. destruct (dict_get "session_id" kvs); reflexivity.
Qed.

Lemma next_match_miss (session_id : string) (benchmarks : list json) :
  Forall is_record benchmarks ->
  existsb (matches session_id) benchmarks = false ->
  next_match benchmarks session_id = Ok JNull.
Proof.
  induction 1 as [|b benchmarks (kvs & -> & _) _ IH]; intros Hnone.
  - reflexivity.
  - cbn [existsb] in Hnone. apply orb_false_elim in Hnone.
    destruct Hnone as [Hb Hrest]. cbn [next_match py_get bind].
    rewrite matches_get, Hb. apply IH, Hrest.
Qed.

(** C7, the behaviour of the code.  When no loaded record has the requested
    session id, the handler raises its 404, catches it in its own
    [except Exception] clause and answers with status 500. *)
Theorem lookup_miss_is_internal_error
  (str_exn : exn -> string) (dir : list file) (session_id : string)
  (benchmarks : list json) :
  load_benchmark_files dir = Ok benchmarks ->
  existsb (matches session_id) benchmarks = false ->
  get_benchmark str_exn dir session_id =
    Raise (HTTPException 500
             ("Failed to get benchmark: "
              ++ str_exn (HTTPException 404 "Benchmark not found"))).
Proof.
  intros Hload Hnone. unfold get_benchmark.
  rewrite Hload. cbn [bind].
  rewrite (next_match_miss session_id (loaded_are_records dir Hload) Hnone).
  reflexivity.
Qed.

Lemma lookup_miss_is_internal_error_witness :
  get_benchmark sample_str sample_dir "no-such-session" =
    Raise (HTTPException 500 "Failed to get benchmark: 404: Benchmark not found").
Proof.
  apply (@lookup_miss_is_internal_error sample_str sample_dir "no-such-session"
           (ScannerSpec.normalized
              {| name := "benchmark_multi_client_42.json"; mtime := 20;
                 body := Parsed (JObj [("session_id", JStr "s42")]) |}
            ++ ScannerSpec.normalized
              {| name := "benchmark_single_7.json"; mtime := 10;
                 body := Parsed (JObj [("session_id", JStr "s7")]) |})%list).
  - reflexivity.
  - reflexivity.
Defined.

Lemma next_match_hit (session_id : string) (benchmarks : list json) :
  Forall is_record benchmarks ->
  existsb (matches session_id) benchmarks = true ->
  exists b, next_match benchmarks session_id = Ok b /\
            find (matches session_id) benchmarks = Some b /\ truthy b = true.
Proof.
  induction 1 as [|b benchmarks (kvs & -> & Hfile) _ IH]; intros Hsome.
  - discriminate.
  - cbn [existsb] in Hsome. cbn [next_match py_get bind find].
    rewrite matches_get.
    destruct (matches session_id (JObj kvs)).
    + exists (JObj kvs). repeat split.
      destruct kvs; [contradiction Hfile; reflexivity | reflexivity].
    + apply IH, Hsome.
Qed.

(** The other half of C7 holds: a session id that matches is answered with
    the newest record that carries it. *)
Lemma lookup_hit_returns_record
  (str_exn : exn -> string) (dir : list file) (session_id : string)
  (benchmarks : list json) :
  load_benchmark_files dir = Ok benchmarks ->
  existsb (matches session_id) benchmarks = true ->
  exists b, get_benchmark str_exn dir session_id = Ok b /\
            find (matches session_id) benchmarks = Some b.
Proof.
  intros Hload Hsome. unfold get_benchmark. rewrite Hload. cbn [bind].
  destruct (next_match_hit session_id (loaded_are_records dir Hload) Hsome)
    as (b & -> & Hfind & Htruthy).
  exists b. cbn [bind]. rewrite Htruthy. split; [reflexivity | exact Hfind].
Qed.

End QueryFacts.

(** ** Run supervisor *)

Module SupervisorFacts.
Import Py Supervisor SupervisorSpec Samples.
Local Open Scope string_scope.

Section WithText.
Variable str_exn : exn -> string.

(** The [finally] clause of a run, when the saved directory can be entered. *)
Lemma cleanup_restores (env : run_env) (original_cwd : path) (st : state) :
  accessible env original_cwd = true ->
  bindM (set_running false)
    (fun _ => bindM (set_process None) (fun _ => chdir env original_cwd)) st
  = ({| running := false; message := message st;
        current_benchmark_process := None; cwd := original_cwd;
        background_tasks := background_tasks st; spawned := spawned st |},
     Ok tt).
Proof.
  intros H. unfold bindM, set_running, set_process, chdir. simpl. rewrite H.
  reflexivity.
Qed.

(** The [finally] clause is the last thing a run does, whatever came before. *)
Lemma run_ends_with_cleanup (c : BenchmarkConfig) (env : run_env) (st : state) :
  exists st',
    fst (run_benchmark_process str_exn c env st) =
    fst ((set_running false ;;; set_process None ;;; chdir env (cwd st))%sup st').
Proof.
  unfold run_benchmark_process.
  unfold bindM at 1. unfold getcwd at 1. cbv beta iota.
  unfold try_finally.
  match goal with
  | |- context [try_except ?body ?handler st] =>
      destruct (try_except body handler st) as [st' r]
  end.
  exists st'.
  match goal with
  | |- fst (let (_, _) := ?m in _) = _ => destruct m as [st'' [u|e]]
  end; reflexivity.
Qed.

(** C9.  Whatever the run meets (the workspace cannot be entered, the spawn
    fails, waiting raises, the child exits with 0 or not) and whether or not
    the exception is one [except Exception] catches, the run ends in the
    working directory it started in, provided that directory can still be
    entered. *)
Theorem working_directory_is_restored
  (c : BenchmarkConfig) (env : run_env) (st : state) :
  accessible env (cwd st) = true ->
  cwd (fst (run_benchmark_process str_exn c env st)) = cwd st.
Proof.
  intros Hback.
  destruct (run_ends_with_cleanup c env st) as (st' & ->).
  rewrite (cleanup_restores env (cwd st) st' Hback). reflexivity.
Qed.

(** A run leaves the supervisor idle, however it ends. *)
Lemma run_ends_idle (c : BenchmarkConfig) (env : run_env) (st : state) :
  running (fst (run_benchmark_process str_exn c env st)) = false /\
  current_benchmark_process (fst (run_benchmark_process str_exn c env st)) = None.
Proof.
  destruct (run_ends_with_cleanup c env st) as (st' & ->).
  unfold bindM, set_running, set_process, chdir. simpl.
  destruct (accessible env (cwd st)); split; reflexivity.
Qed.

Lemma step_keeps_idle (ev : event) (st : state) :
  idle st -> idle (step str_exn ev st).
Proof.
  intros [Hr Hp]. destruct ev as [request|env| |env i]; cbn [step].
  - unfold run_benchmark. rewrite Hr. split; [exact Hr | exact Hp].
  - unfold stop_benchmark. rewrite Hr. split; [exact Hr | exact Hp].
  - split; [exact Hr | exact Hp].
  - unfold bindM at 1, take_task.
    destruct (nth_error (background_tasks st) i) as [c|].
    + unfold bindM.
      match goal with
      | |- idle (fst (match run_benchmark_process _ _ _ ?s with _ => _ end)) =>
          pose proof (run_ends_idle c env s) as Hidle;
          destruct (run_benchmark_process str_exn c env s) as [st' [o|e]]
      end; exact Hidle.
    + split; [exact Hr | exact Hp].
Qed.

(** Between two steps of the event loop the supervisor is never observed
    running: the coroutine that sets the flag clears it before it returns. *)
Lemma never_observed_running (evs : list event) (service_dir : path) :
  idle (run_events str_exn evs (initial_state service_dir)).
Proof.
  unfold run_events.
  assert (H : idle (initial_state service_dir)) by (split; reflexivity).
  revert H. generalize (initial_state service_dir).
  induction evs as [|ev evs IH]; intros st H; [exact H|].
  cbn [fold_left]. apply IH, step_keeps_idle, H.
Qed.

(** The guard of [run_benchmark]: with [running] set the request is refused
    and nothing changes. *)
Lemma start_refused_while_running (request : BenchmarkRequest) (st : state) :
  running st = true ->
  run_benchmark str_exn request st =
    (st, Raise (HTTPException 400 "Benchmark already running")).
Proof.
  intros H. unfold run_benchmark. rewrite H. reflexivity.
Qed.

End WithText.

Lemma working_directory_is_restored_witness :
  cwd (fst (run_benchmark_process (fun _ => "No such file or directory")
              sample_config spawn_fails (initial_state service_dir)))
  = service_dir.
Proof.
  apply (@working_directory_is_restored (fun _ => "No such file or directory")
           sample_config spawn_fails (initial_state service_dir)).
  reflexivity.
Defined.

(** C1, the behaviour of the code.  [run_benchmark] tests the flag but does
    not set it: the flag is set by the background task.  Two requests that
    arrive before the first task has started are both accepted, both tasks
    are left waiting, and the event loop then spawns two child processes,
    whichever of the two tasks it starts first. *)
Theorem second_start_is_accepted
  (str_exn : exn -> string) (request : BenchmarkRequest) (dir : path) :
  let st0 := initial_state dir in
  let st1 := fst (run_benchmark str_exn request st0) in
  let st2 := fst (run_benchmark str_exn request st1) in
  snd (run_benchmark str_exn request st0) = Ok (Started (config request)) /\
  running st1 = false /\
  snd (run_benchmark str_exn request st1) = Ok (Started (config request)) /\
  background_tasks st2 = [config request; config request] /\
  List.length
    (spawned (run_events str_exn
                [RunTask run_succeeds 0; RunTask run_succeeds 0] st2))
  = 2%nat /\
  List.length
    (spawned (run_events str_exn
                [RunTask run_succeeds 1; RunTask run_succeeds 0] st2))
  = 2%nat.
Proof.
  cbv zeta.
  split; [vm_compute; reflexivity|]. split; [vm_compute; reflexivity|].
  split; [vm_compute; reflexivity|]. split; [vm_compute; reflexivity|].
  split; vm_compute; reflexivity.
Qed.

End SupervisorFacts.

(** ** Run groups *)

Module RunsFacts.
Import Py Aggregator RunsSpec RunLaws SortFacts Samples.
Local Open Scope string_scope.

Section WithSort.

(** The library sort, see [Aggregator.sorted_runs]. *)
Variable list_sort : list run -> result (list run).

Lemma identified_is_string (b : json) :
  groupable b = true -> identified b = true ->
  exists s, run_id_of b = JStr s /\ s <> "".
Proof.
  unfold groupable, identified, run_id_of, py_or. intros Hg.
  repeat (apply andb_prop in Hg; let H := fresh "H" in destruct Hg as [Hg H]).
  destruct (field "report_id" b) as [| | |s| |] eqn:Er; try discriminate;
    cbn [truthy].
  - destruct (field "session_id" b) as [| | |s| |]; try discriminate;
      cbn [truthy]; intros Ht; try discriminate.
    exists s. split; [reflexivity|]. intros ->. discriminate.
  - destruct (String.eqb_spec s "") as [->|Hne]; cbn [negb].
    + destruct (field "session_id" b) as [| | |t| |]; try discriminate;
        cbn [truthy]; intros Ht; try discriminate.
      exists t. split; [reflexivity|]. intros ->. discriminate.
    + intros _. exists s. split; [reflexivity | exact Hne].
Qed.

Lemma runs_mem_In (runs : list run) (s : string) :
  Forall (fun g => exists t, run_id g = JStr t /\ t <> ""
                             /\ str_or_null (start_time g) = true) runs ->
  runs_mem (JStr s) runs = true <-> In (JStr s) (ids runs).
Proof.
  unfold runs_mem, ids. induction 1 as [|g runs (t & Ht & _) _ IH]; cbn [existsb map In].
  - split; [discriminate | contradiction].
  - rewrite orb_true_iff, IH, Ht. cbn [py_eq].
    split; (intros [H|H]; [left | right; exact H]).
    + apply String.eqb_eq in H. subst. reflexivity.
    + injection H as ->. apply String.eqb_refl.
Qed.

Lemma runs_append_client_shape (k c : json) (runs : list run) :
  map (fun g => (run_id g, start_time g)) (runs_append_client k c runs) =
  map (fun g => (run_id g, start_time g)) runs.
Proof.
  induction runs as [|g runs IH]; [reflexivity|].
  cbn [runs_append_client]. destruct (py_eq (run_id g) k); cbn [map].
  - reflexivity.
  - rewrite IH. reflexivity.
Qed.

Lemma well_keyed_shape (runs runs' : list run) :
  map (fun g => (run_id g, start_time g)) runs' =
  map (fun g => (run_id g, start_time g)) runs ->
  well_keyed runs -> well_keyed runs' /\ ids runs' = ids runs.
Proof.
  intros Hshape [Hall Hnd].
  assert (Hids : ids runs' = ids runs).
  { assert (E : forall l, ids l = map fst (map (fun g => (run_id g, start_time g)) l))
      by (intros l; unfold ids; rewrite map_map; reflexivity).
    rewrite (E runs'), Hshape, <- E. reflexivity. }
  split; [|exact Hids]. split; [|rewrite Hids; exact Hnd].
  clear Hnd Hids. revert runs' Hshape.
  induction Hall as [|g runs Hg _ IH]; intros [|g' runs'] Hshape;
    try discriminate; constructor.
  - cbn [map] in Hshape. injection Hshape as E1 E2 _. rewrite E1, E2. exact Hg.
  - apply IH. cbn [map] in Hshape. injection Hshape as _ _ E. exact E.
Qed.

(** One step of the loop on a groupable record. *)
Lemma add_benchmark_groupable (runs : list run) (b : json) :
  groupable b = true -> well_keyed runs ->
  exists runs',
    add_benchmark runs b = Ok runs' /\ well_keyed runs' /\
    (forall k, In k (ids runs) -> In k (ids runs')) /\
    (identified b = true -> In (run_id_of b) (ids runs')).
Proof.
  intros Hg Hwk.
  pose proof (@identified_is_string b Hg) as Hid.
  assert (Hst : str_or_null (field "start_time" b) = true).
  { unfold groupable in Hg. apply andb_prop in Hg. apply Hg. }
  assert (Hd : isinstance_dict b = true).
  { unfold groupable in Hg.
    repeat (apply andb_prop in Hg; destruct Hg as [Hg _]). exact Hg. }
  destruct b as [| | | | |d]; try discriminate. clear Hd Hg.
  unfold add_benchmark. cbn [py_get bind].
  change (py_or (match dict_get "report_id" d with Some v => v | None => JNull end)
                (match dict_get "session_id" d with Some v => v | None => JNull end))
    with (run_id_of (JObj d)).
  change (truthy (run_id_of (JObj d))) with (identified (JObj d)).
  destruct (identified (JObj d)) eqn:Hident; cbn [negb].
  - destruct (Hid eq_refl) as (s & Hs & Hne). rewrite Hs. cbn [hashable negb].
    set (fresh := {| run_id := JStr s;
                     scenario := match dict_get "scenario" d with
                                 | Some v => v | None => JStr "unknown" end;
                     start_time := match dict_get "start_time" d with
                                   | Some v => v | None => JNull end;
                     num_clients := match dict_get "num_clients" d with
                                    | Some v => v | None => JNum (Int 1) end;
                     client_ids := [] |}).
    set (runs1 := if runs_mem (JStr s) runs then runs else (runs ++ [fresh])%list).
    assert (H1 : well_keyed runs1 /\
                 (forall k, In k (ids runs) -> In k (ids runs1)) /\
                 In (JStr s) (ids runs1)).
    { unfold runs1. destruct Hwk as [Hall Hnd].
      destruct (runs_mem (JStr s) runs) eqn:Hmem.
      - split; [split; assumption|]. split; [auto|].
        apply (@runs_mem_In runs s Hall), Hmem.
      - assert (Hnotin : ~ In (JStr s) (ids runs)).
        { intros Hin. apply (@runs_mem_In runs s Hall) in Hin. congruence. }
        split; [split|split].
        + apply Forall_app. split; [exact Hall|]. constructor; [|constructor].
          exists s. repeat split; [exact Hne | exact Hst].
        + unfold ids. rewrite map_app. cbn [map run_id fresh].
          apply Permutation_NoDup with (l := JStr s :: map run_id runs).
          * apply Permutation_cons_append.
          * constructor; assumption.
        + intros k Hk. unfold ids. rewrite map_app. apply in_or_app. left. exact Hk.
        + unfold ids. rewrite map_app. apply in_or_app. right. left. reflexivity. }
    destruct H1 as (Hwk1 & Hmono & Hin).
    set (cid := match dict_get "client_id" d with Some v => v | None => JNull end).
    match goal with
    | |- exists runs', (if ?c then Ok ?a else Ok ?b) = Ok runs' /\ _ =>
        exists (if c then a else b); split; [destruct c; reflexivity|];
        destruct c
    end.
    + destruct (@well_keyed_shape runs1 _ (runs_append_client_shape (JStr s) cid runs1) Hwk1)
        as [Hwk2 Hids].
      split; [exact Hwk2|]. rewrite Hids. split; [exact Hmono | intros _; exact Hin].
    + split; [exact Hwk1|]. split; [exact Hmono | intros _; exact Hin].
  - exists runs. split; [reflexivity|]. split; [exact Hwk|].
    split; [auto | discriminate].
Qed.

Lemma build_runs_groupable (benchmarks : list json) :
  forallb groupable benchmarks = true ->
  forall runs, well_keyed runs ->
  exists runs',
    build_runs benchmarks runs = Ok runs' /\ well_keyed runs' /\
    (forall k, In k (ids runs) -> In k (ids runs')) /\
    (forall b, In b benchmarks -> identified b = true ->
               In (run_id_of b) (ids runs')).
Proof.
  induction benchmarks as [|b rest IH]; intros Hall runs Hwk.
  - exists runs. split; [reflexivity|]. split; [exact Hwk|].
    split; [auto | intros b []].
  - cbn [forallb] in Hall. apply andb_prop in Hall. destruct Hall as [Hb Hrest].
    destruct (@add_benchmark_groupable runs b Hb Hwk) as (runs1 & Hadd & Hwk1 & Hmono1 & Hin1).
    destruct (IH Hrest runs1 Hwk1) as (runs2 & Hbuild & Hwk2 & Hmono2 & Hin2).
    exists runs2. cbn [build_runs]. rewrite Hadd. cbn [bind].
    split; [exact Hbuild|]. split; [exact Hwk2|]. split; [auto|].
    intros b' [<-|Hin] Hident; [apply Hmono2, Hin1, Hident | apply Hin2; assumption].
Qed.

Lemma sort_key_is_str (g : run) :
  str_or_null (start_time g) = true -> is_str (sort_key g) = true.
Proof.
  unfold sort_key, py_or. destruct (start_time g) as [| | |t| |]; try discriminate.
  - reflexivity.
  - intros _. cbn [truthy]. destruct (negb (String.eqb t "")); reflexivity.
Qed.

(** The final sort only reorders the groups. *)
Lemma sorted_runs_well_keyed (runs : list run) :
  well_keyed runs ->
  exists out, sorted_runs list_sort runs = Ok out /\ Permutation out runs.
Proof.
  intros [Hall _].
  assert (Hstr : forallb (fun r => is_str (sort_key r)) runs = true).
  { apply forallb_forall. intros g Hg. rewrite Forall_forall in Hall.
    destruct (Hall g Hg) as (s & _ & _ & Hst). apply sort_key_is_str, Hst. }
  unfold sorted_runs. destruct runs as [|g [|g' runs]].
  - exists []. split; [reflexivity | constructor].
  - exists [g]. split; [reflexivity | apply Permutation_refl].
  - rewrite Hstr. eexists. split; [reflexivity | apply sort_desc_perm].
Qed.

Lemma well_keyed_perm (runs out : list run) :
  Permutation out runs -> well_keyed runs -> well_keyed out.
Proof.
  intros P [Hall Hnd]. split.
  - rewrite Forall_forall in *. intros g Hg. apply Hall.
    eapply Permutation_in; [exact P | exact Hg].
  - apply (Permutation_NoDup (l := ids runs)); [|exact Hnd].
    unfold ids. apply Permutation_map, Permutation_sym, P.
Qed.

(** In a well-keyed list exactly one group has a listed identifier. *)
Lemma one_group_per_id (runs : list run) (s : string) :
  well_keyed runs ->
  List.length (filter (fun g => py_eq (run_id g) (JStr s)) runs) =
  if runs_mem (JStr s) runs then 1%nat else 0%nat.
Proof.
  intros [Hall Hnd]. unfold runs_mem.
  induction Hall as [|g runs (t & Ht & Hne & Hst) Hall IH]; [reflexivity|].
  unfold ids in Hnd. cbn [map] in Hnd. inversion Hnd as [|x l Hnotin Hnd']; subst.
  cbn [filter existsb]. destruct (py_eq (run_id g) (JStr s)) eqn:E.
  - cbn [orb List.length]. rewrite (IH Hnd').
    destruct (existsb (fun r => py_eq (run_id r) (JStr s)) runs) eqn:Hex; [|reflexivity].
    exfalso. apply Hnotin.
    rewrite Ht in E. cbn [py_eq] in E. apply String.eqb_eq in E. subst t.
    rewrite Ht. apply (@runs_mem_In runs s Hall). exact Hex.
  - cbn [orb]. apply (IH Hnd').
Qed.

Lemma filter_none {A} (l : list A) :
  List.length (filter (fun _ => false) l) = 0%nat.
Proof.
  induction l as [|x l IH]; [reflexivity | exact IH].
Qed.

(** Groups that each claim a record at most once, and records that are each
    claimed by as many groups as [sel] says, make a partition. *)
Lemma claimed_once_is_partition {A B} (mem : A -> B -> bool) (sel : B -> bool)
  (groups : list A) (bs : list B) :
  (forall b, In b bs ->
     List.length (filter (fun g => mem g b) groups) = if sel b then 1%nat else 0%nat) ->
  Permutation (flat_map (fun g => filter (mem g) bs) groups) (filter sel bs).
Proof.
  induction bs as [|b bs IH]; intros Hcount.
  - clear Hcount. induction groups as [|g groups IHg]; [apply perm_nil | exact IHg].
  - assert (Hstep : forall gs,
      Permutation (flat_map (fun g => filter (mem g) (b :: bs)) gs)
                  (map (fun _ => b) (filter (fun g => mem g b) gs)
                   ++ flat_map (fun g => filter (mem g) bs) gs)).
    { induction gs as [|g gs IHg]; [apply perm_nil|].
      cbn [flat_map filter]. destruct (mem g b); cbn [map app].
      - apply perm_skip.
        eapply perm_trans; [apply Permutation_app_head, IHg|].
        rewrite !app_assoc. apply Permutation_app_tail, Permutation_app_comm.
      - eapply perm_trans; [apply Permutation_app_head, IHg|].
        rewrite !app_assoc. apply Permutation_app_tail, Permutation_app_comm. }
    eapply perm_trans; [apply Hstep|].
    pose proof (Hcount b (or_introl eq_refl)) as Hb.
    cbn [filter]. destruct (sel b).
    + destruct (filter (fun g => mem g b) groups) as [|g [|g' l]]; try discriminate.
      cbn [map app]. apply perm_skip. apply IH. intros b' Hb'. apply Hcount. right. exact Hb'.
    + destruct (filter (fun g => mem g b) groups) as [|g l]; try discriminate.
      cbn [map app]. apply IH. intros b' Hb'. apply Hcount. right. exact Hb'.
Qed.

(** C6, as amended.  For records typed as the data model has them, the run
    list is computed, every record that has a [report_id] or a [session_id]
    belongs to exactly one group (the one with its identifier), every record
    that has neither belongs to none, and the members of all groups together
    are the identified input records, as a multiset. *)
Theorem groups_partition_identified_records (benchmarks : list json) :
  forallb groupable benchmarks = true ->
  exists runs,
    group_runs list_sort benchmarks = Ok runs /\
    (forall b, In b benchmarks ->
       List.length (filter (fun g => member_of g b) runs) =
       if identified b then 1%nat else 0%nat) /\
    Permutation (flat_map (members benchmarks) runs) (filter identified benchmarks).
Proof.
  intros Hall.
  assert (Hempty : well_keyed []) by (split; constructor).
  destruct (@build_runs_groupable benchmarks Hall [] Hempty)
    as (runs0 & Hbuild & Hwk0 & _ & Hin0).
  destruct (@sorted_runs_well_keyed runs0 Hwk0) as (runs & Hsort & Hperm).
  pose proof (@well_keyed_perm runs0 runs Hperm Hwk0) as Hwk.
  exists runs. unfold group_runs. rewrite Hbuild. cbn [bind].
  split; [exact Hsort|].
  assert (Hcount : forall b, In b benchmarks ->
            List.length (filter (fun g => member_of g b) runs) =
            if identified b then 1%nat else 0%nat).
  { intros b Hb. unfold member_of. destruct (identified b) eqn:Hident.
    - rewrite forallb_forall in Hall.
      destruct (@identified_is_string b (Hall b Hb) Hident) as (s & Hs & _).
      cbn [andb]. rewrite Hs, (@one_group_per_id runs s Hwk).
      assert (Hmem : runs_mem (JStr s) runs = true).
      { apply (@runs_mem_In runs s (proj1 Hwk)).
        unfold ids. eapply Permutation_in;
          [apply Permutation_map, Permutation_sym, Hperm|].
        rewrite <- Hs. apply Hin0; assumption. }
      rewrite Hmem. reflexivity.
    - cbn [andb]. apply filter_none. }
  split; [exact Hcount|].
  unfold members. apply claimed_once_is_partition. exact Hcount.
Qed.

End WithSort.

Lemma groups_partition_identified_records_witness :
  exists runs,
    group_runs sample_sort sample_benchmarks = Ok runs /\
    (forall b, In b sample_benchmarks ->
       List.length (filter (fun g => member_of g b) runs) =
       if identified b then 1%nat else 0%nat) /\
    Permutation (flat_map (members sample_benchmarks) runs)
                (filter identified sample_benchmarks).
Proof.
  apply (@groups_partition_identified_records sample_sort sample_benchmarks).
  reflexivity.
Defined.

(** C6, as stated, fails on a record that has neither identifier: it is
    passed over, so it is in no group and the groups do not add up to the
    input. *)
Lemma unidentified_record_is_in_no_group :
  let b := JObj [("client_id", JStr "c9")] in
  (forall list_sort, group_runs list_sort [b] = Ok []) /\
  (forall list_sort runs, group_runs list_sort [b] = Ok runs ->
     List.length (filter (fun g => member_of g b) runs) = 0%nat /\
     ~ Permutation (flat_map (members [b]) runs) [b]).
Proof.
  split; [reflexivity|].
  intros list_sort runs H. vm_compute in H. injection H as <-.
  split; [reflexivity|].
  cbn [flat_map]. intros P. apply Permutation_nil in P. discriminate P.
Qed.

End RunsFacts.

(** * Further properties of the code *)

(** ** Sortedness of the stable sort *)

Module SortedFacts.
Import Py.

Section SortedInsertion.
Context {A K : Type} (key : A -> K) (leb : K -> K -> bool).
Hypothesis leb_total : forall a b, leb a b = false -> leb b a = true.

Let desc (a b : A) : Prop := leb (key b) (key a) = true.

Lemma insert_desc_sorted (x : A) (l : list A) :
  Sorted desc l -> Sorted desc (insert_desc key leb x l).
Proof.
  induction 1 as [|y l Hsorted IH Hhd]; cbn [insert_desc].
  - repeat constructor.
  - destruct (leb (key y) (key x)) eqn:E.
    + constructor; [constructor; assumption|]. constructor. exact E.
    + constructor; [exact IH|].
      destruct l as [|z l]; cbn [insert_desc].
      * constructor. apply leb_total, E.
      * destruct (leb (key z) (key x)); constructor.
        -- apply leb_total, E.
        -- inversion Hhd; assumption.
Qed.

Lemma sort_desc_sorted (l : list A) : Sorted desc (sort_desc key leb l).
Proof.
  induction l as [|x l IH]; cbn [sort_desc].
  - constructor.
  - apply insert_desc_sorted, IH.
Qed.

End SortedInsertion.

End SortedFacts.

(** ** Scanner *)

Module ScanExtras.
Import Py Scanner ScannerSpec ScanSpec SortFacts SortedFacts ScannerFacts ScanFacts Samples.
Local Open Scope string_scope.

Lemma star_unfold (p s : string) :
  fnmatch (String "*" p) s =
  fnmatch p s ||
  match s with
  | EmptyString => false
  | String _ s' => fnmatch (String "*" p) s'
  end.
Proof. destruct s; reflexivity. Qed.

Lemma json_suffix_only (s : string) :
  fnmatch ".json" s = true <-> s = ".json".
Proof.
  split.
  - intros H.
    repeat (rewrite fnmatch_literal in H by reflexivity;
            let a := fresh "a" in
            destruct s as [|a s]; [discriminate H|];
            apply andb_prop in H;
            let Hc := fresh "Hc" in
            destruct H as [Hc H]; apply Ascii.eqb_eq in Hc; subst a).
    destruct s; [reflexivity | discriminate H].
  - intros ->. reflexivity.
Qed.

Lemma star_json (s : string) :
  fnmatch "*.json" s = true <-> exists mid, s = mid ++ ".json".
Proof.
  split.
  - induction s as [|a s IH]; rewrite star_unfold; intros H;
      apply orb_true_iff in H; destruct H as [H|H].
    + apply json_suffix_only in H. discriminate H.
    + discriminate H.
    + apply json_suffix_only in H. exists "". exact H.
    + destruct (IH H) as (mid & ->). exists (String a mid). reflexivity.
  - intros (mid & ->). induction mid as [|a mid IH].
    + reflexivity.
    + change (String a mid ++ ".json") with (String a (mid ++ ".json")).
      rewrite star_unfold, IH. apply orb_true_r.
Qed.

(** X1.  The first pattern matches exactly the names [benchmark_<anything>.json]. *)
Theorem first_pattern_names (nm : string) :
  fnmatch "benchmark_*.json" nm = true <->
  exists mid, nm = "benchmark_" ++ mid ++ ".json".
Proof.
  split.
  - intros H.
    do 10 (rewrite fnmatch_literal in H by reflexivity;
           let a := fresh "a" in
           destruct nm as [|a nm]; [discriminate H|];
           apply andb_prop in H;
           let Hc := fresh "Hc" in
           destruct H as [Hc H]; apply Ascii.eqb_eq in Hc; subst a).
    apply star_json in H. destruct H as (mid & ->). exists mid. reflexivity.
  - intros (mid & ->).
    change ("benchmark_" ++ mid ++ ".json")
      with (String "b" (String "e" (String "n" (String "c" (String "h"
             (String "m" (String "a" (String "r" (String "k" (String "_"
               (mid ++ ".json"))))))))))).
    do 10 (rewrite fnmatch_literal by reflexivity;
           rewrite Ascii.eqb_refl, andb_true_l).
    apply star_json. exists mid. reflexivity.
Qed.


Lemma Qle_bool_total (a b : Q) : Qle_bool a b = false -> Qle_bool b a = true.
Proof.
  intros H. apply Qle_bool_iff. apply Qlt_le_weak, Qnot_le_lt.
  intros Hle. apply Qle_bool_iff in Hle. congruence.
Qed.

(** The files are visited newest first. *)
Lemma all_files_newest_first (dir : list file) :
  StronglySorted (fun a b => getmtime b <= getmtime a) (all_files dir).
Proof.
  apply Sorted_StronglySorted.
  - intros a b c Hab Hbc. eapply Qle_trans; eassumption.
  - pose proof (sort_desc_sorted getmtime Qle_bool Qle_bool_total
                  (flat_map (glob dir) patterns)) as H.
    unfold all_files. induction H as [|x l Hs IH Hhd]; constructor; [exact IH|].
    destruct Hhd as [|y l' Hy]; constructor. apply Qle_bool_iff, Hy.
Qed.

(** When the loop completes, it has appended what each file normalizes to. *)
Lemma scan_loop_completes (files : list file) :
  forall acc log log' out,
    scan_loop files acc log = (log', Ok out) ->
    out = (acc ++ flat_map normalized files)%list.
Proof.
  induction files as [|f files IH]; intros acc log log' out H; cbn [scan_loop] in H.
  - injection H as _ <-. cbn [flat_map]. rewrite app_nil_r. reflexivity.
  - cbn [flat_map]. unfold normalized at 1.
    destruct (load_file f) as [records|e].
    + rewrite (IH _ _ _ _ H), app_assoc. reflexivity.
    + destruct (caught_per_file e); [|discriminate].
      rewrite (IH _ _ _ _ H). reflexivity.
Qed.

Lemma scan_loop_raises (files : list file) :
  forall acc log log' e,
    scan_loop files acc log = (log', Raise e) -> is_exception e = true.
Proof.
  induction files as [|f files IH]; intros acc log log' e H; cbn [scan_loop] in H.
  - discriminate.
  - destruct (load_file f) as [records|e'] eqn:Hf.
    + eapply IH, H.
    + destruct (caught_per_file e') eqn:Hc; [eapply IH, H|].
      injection H as _ <-. apply (@load_file_raises f e' Hf).
Qed.

Lemma load_is_loop (dir : list file) :
  load_benchmark_files dir =
  match snd (scan_loop (all_files dir) [] []) with
  | Ok out => Ok out
  | Raise _ => Ok []
  end.
Proof.
  unfold load_benchmark_files, load_benchmark_files_logged.
  destruct (scan_loop (all_files dir) [] []) as [log [out|e]] eqn:H; cbn [snd].
  - reflexivity.
  - rewrite (scan_loop_raises _ _ _ H). reflexivity.
Qed.

Lemma load_all_or_nothing (dir : list file) :
  exists out,
    load_benchmark_files dir = Ok out /\
    (out = [] \/ out = flat_map normalized (all_files dir)).
Proof.
  rewrite load_is_loop.
  destruct (scan_loop (all_files dir) [] []) as [log [out|e]] eqn:H; cbn [snd].
  - exists out. split; [reflexivity|]. right.
    apply (scan_loop_completes _ _ _ H).
  - exists []. split; [reflexivity|]. left. reflexivity.
Qed.

(** X2.  The scan never raises: whatever is in the directory it returns a list,
    either what all the listed files normalize to or nothing at all. *)
Theorem scan_never_raises (dir : list file) :
  exists out,
    load_benchmark_files dir = Ok out /\
    (out = [] \/ out = flat_map normalized (all_files dir)).
Proof.
  exact (load_all_or_nothing dir).
Qed.




(** The undecodable file is the newest of its directory: the scan stops at
    once and prints nothing but the error. *)
Lemma undecodable_file_is_reported :
  load_benchmark_files_logged undecodable_dir =
    ([Error UnicodeDecodeError], Ok []).
Proof. reflexivity. Qed.

Lemma strongly_sorted_app {A} (R : A -> A -> Prop) (l1 l2 : list A) :
  StronglySorted R l1 -> StronglySorted R l2 ->
  (forall a b, In a l1 -> In b l2 -> R a b) ->
  StronglySorted R (l1 ++ l2).
Proof.
  induction 1 as [|x l1 Hs IH Hall]; intros H2 Hcross; cbn [app]; [exact H2|].
  constructor.
  - apply IH; [exact H2|]. intros a b Ha Hb. apply Hcross; [right|]; assumption.
  - apply Forall_app. split; [exact Hall|].
    apply Forall_forall. intros b Hb. apply Hcross; [left; reflexivity | exact Hb].
Qed.

(** What normalization emits for one file: dicts with the file's name and
    modification time and with a scenario. *)
Lemma normalize_emits (p : string) (mt : Q) (data : json) (records : list json) :
  normalize p mt data = Ok records ->
  Forall (fun r => exists kvs sc,
            r = JObj kvs /\
            dict_get "filename" kvs = Some (JStr (basename p)) /\
            dict_get "file_mtime" kvs = Some (JNum (Float (Finite mt))) /\
            dict_get "scenario" kvs = Some sc) records.
Proof.
  destruct data as [| | | | |d]; try discriminate.
  unfold normalize.
  destruct (dict_get "client_results" d) as [cr|] eqn:Hcr.
  - destruct (py_iter cr) as [entries|]; [|discriminate]. cbn [bind].
    intros H. apply map_result_inv in H.
    induction H as [|x r entries records Hx _ IH]; constructor; [|exact IH].
    destruct x as [| | | | |e]; try discriminate.
    destruct (client_record_fields p mt d e)
      as (r' & Hr' & Hfile & Hmtime & _ & _ & Hsc & _).
    rewrite Hr' in Hx. injection Hx as <-. eauto 8.
  - destruct (single_record_fields p mt d Hcr) as (r & Hr & Hfile & Hmtime & Hsc & _).
    unfold normalize in Hr. rewrite Hcr in Hr. intros H. rewrite Hr in H.
    injection H as <-. constructor; [|constructor]. eauto 8.
Qed.

Lemma normalized_emits (f : file) :
  Forall (fun r => exists kvs sc,
            r = JObj kvs /\
            dict_get "filename" kvs = Some (JStr (basename (path_of f))) /\
            dict_get "file_mtime" kvs = Some (JNum (Float (Finite (getmtime f)))) /\
            dict_get "scenario" kvs = Some sc) (normalized f).
Proof.
  unfold normalized, load_file, read_json.
  destruct (body f) as [| | | | |data]; cbn [bind]; try constructor.
  destruct (normalize (path_of f) (getmtime f) data) eqn:E; [|constructor].
  eapply normalize_emits, E.
Qed.

Lemma normalized_newest_first (files : list file) :
  StronglySorted (fun a b => getmtime b <= getmtime a) files ->
  StronglySorted newer_or_same (flat_map normalized files).
Proof.
  assert (Hkey : forall f r, In r (normalized f) -> record_mtime r = getmtime f).
  { intros f r Hr. pose proof (normalized_emits f) as H.
    rewrite Forall_forall in H.
    destruct (H r Hr) as (kvs & sc & -> & _ & Hmt & _).
    unfold record_mtime. rewrite Hmt. reflexivity. }
  induction 1 as [|f files Hs IH Hall]; cbn [flat_map]; [constructor|].
  apply strongly_sorted_app; [|exact IH|].
  - pose proof (Hkey f) as Hf. induction (normalized f) as [|r l IHl]; constructor.
    + apply IHl. intros r' Hr'. apply Hf. right. exact Hr'.
    + apply Forall_forall. intros r' Hr'. unfold newer_or_same.
      rewrite (Hf r (or_introl eq_refl)), (Hf r' (or_intror Hr')). apply Qle_refl.
  - intros a b Ha Hb. apply in_flat_map in Hb. destruct Hb as (g & Hg & Hb).
    unfold newer_or_same. rewrite (Hkey f a Ha), (Hkey g b Hb).
    rewrite Forall_forall in Hall. apply Hall, Hg.
Qed.

(** X4.  The records come newest file first: no record is followed by one from a
    file modified later. *)
Theorem records_are_newest_first (dir : list file) (out : list json) :
  load_benchmark_files dir = Ok out ->
  StronglySorted newer_or_same out.
Proof.
  intros H. destruct (load_all_or_nothing dir) as (out' & Hout & Hcase).
  rewrite Hout in H. injection H as <-.
  destruct Hcase as [->| ->]; [constructor|].
  apply normalized_newest_first, all_files_newest_first.
Qed.

Lemma records_are_newest_first_witness :
  StronglySorted newer_or_same
    [JObj [("session_id", JStr "s42");
           ("filename", JStr "benchmark_multi_client_42.json");
           ("file_mtime", JNum (Float (Finite 20))); ("scenario", JStr "multi-client")];
     JObj [("session_id", JStr "s7");
           ("filename", JStr "benchmark_single_7.json");
           ("file_mtime", JNum (Float (Finite 10))); ("scenario", JStr "single-client")]].
Proof.
  apply (@records_are_newest_first sample_dir). reflexivity.
Defined.

Lemma listed_is_matched (dir : list file) (f : file) :
  In f (all_files dir) ->
  In f dir /\ fnmatch "benchmark_*.json" (name f) = true.
Proof.
  intros H. unfold all_files in H.
  apply (Permutation_in _ (sort_desc_perm _ _ _)) in H.
  apply in_flat_map in H. destruct H as (pat & Hpat & H).
  unfold glob in H. apply filter_In in H. destruct H as [Hin Hm].
  split; [exact Hin|].
  destruct Hpat as [<-|[<-|[]]]; [exact Hm | apply report_pattern_is_covered, Hm].
Qed.

(** X5.  Every record the scan returns is a dict that names a file the first
    pattern matches and has a modification time and a scenario. *)
Theorem scan_returns_emitted_records (dir : list file) (out : list json) :
  plain_names dir = true ->
  load_benchmark_files dir = Ok out ->
  Forall emitted_record out.
Proof.
  intros Hplain H. destruct (load_all_or_nothing dir) as (out' & Hout & Hcase).
  rewrite Hout in H. injection H as <-.
  destruct Hcase as [->| ->]; [constructor|].
  apply Forall_forall. intros r Hr.
  apply in_flat_map in Hr. destruct Hr as (f & Hf & Hr).
  destruct (listed_is_matched dir f Hf) as [Hin Hm].
  pose proof (normalized_emits f) as Hem. rewrite Forall_forall in Hem.
  destruct (Hem r Hr) as (kvs & sc & -> & Hfile & Hmt & Hsc).
  unfold plain_names in Hplain. rewrite forallb_forall in Hplain.
  pose proof (Hplain f Hin) as Hslash. apply negb_true_iff in Hslash.
  unfold path_of in Hfile. rewrite (basename_path _ Hslash) in Hfile.
  exists kvs, (name f), (getmtime f), sc. auto.
Qed.

Lemma scan_returns_emitted_records_witness :
  Forall emitted_record
    [JObj [("session_id", JStr "s42");
           ("filename", JStr "benchmark_multi_client_42.json");
           ("file_mtime", JNum (Float (Finite 20))); ("scenario", JStr "multi-client")];
     JObj [("session_id", JStr "s7");
           ("filename", JStr "benchmark_single_7.json");
           ("file_mtime", JNum (Float (Finite 10))); ("scenario", JStr "single-client")]].
Proof.
  apply (@scan_returns_emitted_records sample_dir).
  - reflexivity.
  - reflexivity.
Defined.

(** A directory without a name the first pattern matches gives no record and
    no diagnostic: the second pattern adds nothing. *)
Lemma scan_of_no_match (dir : list file) :
  forallb (fun f => negb (fnmatch "benchmark_*.json" (name f))) dir = true ->
  load_benchmark_files_logged dir = ([], Ok []).
Proof.
  intros H.
  assert (H2 : forallb (fun f => negb (fnmatch "benchmark_report_*.json" (name f))) dir
               = true).
  { apply forallb_forall. intros f Hf. rewrite forallb_forall in H.
    pose proof (H f Hf) as Hn. apply negb_true_iff in Hn. apply negb_true_iff.
    destruct (fnmatch "benchmark_report_*.json" (name f)) eqn:E; [|reflexivity].
    rewrite (report_pattern_is_covered _ E) in Hn. discriminate Hn. }
  unfold load_benchmark_files_logged, all_files, patterns. cbn [flat_map].
  rewrite (glob_nothing _ _ H), (glob_nothing _ _ H2). reflexivity.
Qed.

End ScanExtras.

(** ** Aggregator *)

Module AggregateExtras.
Import Py Aggregator AggregateSpec AggregateLaws NumberFacts AggregatorFacts Samples.
Local Open Scope string_scope.

(** X6.  Entries that are no dicts are counted in [total_benchmarks] and in
    nothing else.  Next to a dict entry, the averages are those of the dict
    entries alone; in a list that is not empty and has no dict entry at all
    they are the float 0.0, where the literal dict returned for the empty
    list has the int 0. *)
Theorem non_dicts_only_count (benchmarks : list json) :
  ((0 < attempted benchmarks)%nat ->
   calculate_aggregate_metrics benchmarks =
   match calculate_aggregate_metrics (filter isinstance_dict benchmarks) with
   | Ok agg => Ok (with_total (Z.of_nat (List.length benchmarks)) agg)
   | Raise e => Raise e
   end) /\
  (attempted benchmarks = 0%nat -> benchmarks <> [] ->
   calculate_aggregate_metrics benchmarks =
   Ok (float_zeros (Z.of_nat (List.length benchmarks)))).
Proof.
  unfold attempted. split.
  - intros Hpos.
    destruct benchmarks as [|b rest]; [reflexivity|].
    destruct (filter isinstance_dict (b :: rest)) as [|d ds] eqn:Hf;
      [cbn [List.length] in Hpos; lia|].
    unfold calculate_aggregate_metrics.
    rewrite (aggregate_loop_skips_non_dicts (b :: rest)), Hf.
    destruct (aggregate_loop (d :: ds) zero_totals 0) as [tc|e]; cbn [bind];
      [|reflexivity].
    repeat match goal with
           | |- context [bind ?m _] => destruct m; cbn [bind]; [|reflexivity]
           end.
    reflexivity.
  - intros Hnone Hne. apply length_zero_iff_nil in Hnone.
    destruct benchmarks as [|b rest]; [contradiction|].
    unfold calculate_aggregate_metrics.
    rewrite aggregate_loop_skips_non_dicts, Hnone.
    generalize (Z.of_nat (List.length (b :: rest))). intros n.
    vm_compute. reflexivity.
Qed.

Lemma non_dicts_only_count_witness :
  calculate_aggregate_metrics (JNull :: sample_records) =
    match calculate_aggregate_metrics
            (filter isinstance_dict (JNull :: sample_records)) with
    | Ok agg => Ok (with_total (Z.of_nat (List.length (JNull :: sample_records))) agg)
    | Raise e => Raise e
    end /\
  calculate_aggregate_metrics [JNull; JStr "x"] = Ok (float_zeros 2).
Proof.
  split.
  - apply (proj1 (non_dicts_only_count (JNull :: sample_records))).
    vm_compute. lia.
  - apply (proj2 (non_dicts_only_count [JNull; JStr "x"]));
      [reflexivity | discriminate].
Defined.

(** Without any dict entry the averages of a list that is not empty are the
    float 0.0, where the empty list has the int 0. *)
Lemma no_dict_gives_float_zeros :
  calculate_aggregate_metrics [JNull; JStr "x"] = Ok (float_zeros 2).
Proof. vm_compute. reflexivity. Qed.

Lemma accumulate_broken (t : totals) (b : json) :
  broken_section b -> exists e, accumulate t b = Raise e /\ extraction_error e.
Proof.
  intros (d & k & v & -> & Hk & Hget & Hv).
  destruct (accumulate t (JObj d)) as [t'|e] eqn:E.
  - exfalso. unfold accumulate in E. cbn [py_get bind] in E.
    destruct v; try discriminate Hv;
      (destruct Hk as [-> | ->]; rewrite Hget in E;
       [|destruct (match dict_get "zkp_metrics" d with
                   | Some v0 => v0 | None => JObj [] end)];
       cbn [py_get bind] in E;
       repeat match type of E with
              | bind ?m _ = Ok _ =>
                  destruct m; cbn [py_get bind] in E; [|discriminate E]
              end;
       discriminate E).
  - exists e. split; [reflexivity|]. eapply accumulate_raises, E.
Qed.

Lemma aggregate_loop_broken (benchmarks : list json) (b : json) :
  In b benchmarks -> broken_section b ->
  forall t c, exists e, aggregate_loop benchmarks t c = Raise e /\ extraction_error e.
Proof.
  intros Hin Hb. induction benchmarks as [|x rest IH]; [destruct Hin|].
  intros t c. cbn [aggregate_loop].
  destruct (isinstance_dict x) eqn:Hd.
  - destruct (accumulate t x) as [t'|e] eqn:E; cbn [bind].
    + destruct Hin as [->|Hin]; [|apply IH, Hin].
      destruct (@accumulate_broken t b Hb) as (e & He & _). congruence.
    + exists e. split; [reflexivity|]. eapply accumulate_raises, E.
  - destruct Hin as [->|Hin]; [|apply IH, Hin].
    destruct Hb as (d & k & v & -> & _). discriminate Hd.
Qed.

Lemma cancelling_is_reordered : Permutation cancelling cancelling_reordered.
Proof.
  unfold cancelling, cancelling_reordered. apply perm_skip, perm_swap.
Qed.

(** X7.  The aggregate depends on the order of the records: float addition
    rounds after every step.  Durations of 1e16, 1.0 and -1e16 average to 0.0
    in this order, the 1.0 being lost in 1e16, and to 0.33 when the two large
    ones come first. *)
Theorem aggregate_depends_on_order :
  Permutation cancelling cancelling_reordered /\
  (exists agg,
     calculate_aggregate_metrics cancelling = Ok agg /\
     total_duration agg = double 0) /\
  (exists agg,
     calculate_aggregate_metrics cancelling_reordered = Ok agg /\
     total_duration agg = double (33 # 100)) /\
  double 0 <> double (33 # 100).
Proof.
  split; [exact cancelling_is_reordered|].
  split; [eexists; split; vm_compute; reflexivity|].
  split; [eexists; split; vm_compute; reflexivity|].
  vm_compute. discriminate.
Qed.

(** A list without a dict entry is aggregated without any failure. *)
Lemma no_dict_no_failure (benchmarks : list json) :
  attempted benchmarks = 0%nat ->
  exists agg, calculate_aggregate_metrics benchmarks = Ok agg.
Proof.
  unfold attempted. intros H. apply length_zero_iff_nil in H.
  destruct benchmarks as [|b rest]; [eexists; reflexivity|].
  unfold calculate_aggregate_metrics.
  rewrite aggregate_loop_skips_non_dicts, H.
  eexists. vm_compute. reflexivity.
Qed.

(** X8.  With records whose metrics, where present, are numbers, the aggregate
    fails in one way only: with [OverflowError], raised when an int is too
    large to be added to a float or to be divided into one. *)
Theorem numeric_records_fail_by_overflow_only (benchmarks : list json) :
  forallb extractable benchmarks = true ->
  (exists agg, calculate_aggregate_metrics benchmarks = Ok agg) \/
  calculate_aggregate_metrics benchmarks = Raise OverflowError.
Proof.
  intros Hall. destruct (attempted benchmarks) as [|n] eqn:Hn.
  - left. apply no_dict_no_failure, Hn.
  - assert (Hpos : (0 < attempted benchmarks)%nat) by lia.
    rewrite (aggregate_closed_form _ Hall Hpos).
    destruct (mean_aggregate benchmarks) as [agg|e] eqn:E.
    + left. exists agg. reflexivity.
    + right. rewrite (mean_aggregate_raises _ Hall Hpos E). reflexivity.
Qed.

Lemma numeric_records_fail_by_overflow_only_witness :
  (exists agg, calculate_aggregate_metrics overflowing = Ok agg) \/
  calculate_aggregate_metrics overflowing = Raise OverflowError.
Proof.
  apply (@numeric_records_fail_by_overflow_only overflowing). reflexivity.
Defined.

(** The failure does occur: 1.5 cannot be added to 10 ** 400. *)
Lemma huge_int_overflows :
  calculate_aggregate_metrics overflowing = Raise OverflowError.
Proof. vm_compute. reflexivity. Qed.

End AggregateExtras.

(** ** Run groups *)

Module RunExtras.
Import Py Aggregator RunsSpec RunLaws SortFacts SortedFacts RunsFacts Samples.
Local Open Scope string_scope.

Section WithSort.

(** The library sort, see [Aggregator.sorted_runs]. *)
Variable list_sort : list run -> result (list run).

Lemma string_leb_total (a b : string) :
  String.leb a b = false -> String.leb b a = true.
Proof.
  intros H. destruct (String.leb_total a b) as [E|E]; [congruence | exact E].
Qed.

(** The final sort, when it succeeds, only reorders, if the library sort
    does. *)
Lemma sorted_runs_perm (runs out : list run) :
  (forall l l', list_sort l = Ok l' -> Permutation l' l) ->
  sorted_runs list_sort runs = Ok out -> Permutation out runs.
Proof.
  intros Hlib. unfold sorted_runs. destruct runs as [|g [|g' runs]].
  - intros H. injection H as <-. apply perm_nil.
  - intros H. injection H as <-. apply Permutation_refl.
  - destruct (forallb (fun r => is_str (sort_key r)) (g :: g' :: runs)).
    + intros H. injection H as <-.
      exact (sort_desc_perm str_key String.leb (g :: g' :: runs)).
    + destruct (forallb (fun r => is_finite_num (sort_key r)) (g :: g' :: runs)).
      * intros H. injection H as <-.
        exact (sort_desc_perm num_key Qle_bool (g :: g' :: runs)).
      * destruct (forallb (fun r => is_num (sort_key r)) (g :: g' :: runs)
                  || forallb (fun r => is_list (sort_key r)) (g :: g' :: runs));
          [apply Hlib | discriminate].
Qed.

(** X14.  Records typed as the data model has them give a run list sorted by start
    time, latest first, and the runs without a start time come last. *)
Theorem runs_are_latest_first (benchmarks : list json) :
  forallb groupable benchmarks = true ->
  exists runs,
    group_runs list_sort benchmarks = Ok runs /\
    Sorted starts_no_earlier runs /\
    (forall before g after,
        runs = (before ++ g :: after)%list -> str_key g = "" ->
        Forall (fun g' => str_key g' = "") after).
Proof.
  intros Hall.
  assert (Hempty : well_keyed []) by (split; constructor).
  destruct (@build_runs_groupable benchmarks Hall [] Hempty)
    as (runs0 & Hbuild & Hwk0 & _).
  assert (Hsorted : exists runs, sorted_runs list_sort runs0 = Ok runs /\
                                 Sorted starts_no_earlier runs).
  { destruct Hwk0 as [Hkeys _].
    assert (Hstr : forallb (fun r => is_str (sort_key r)) runs0 = true).
    { apply forallb_forall. intros g Hg. rewrite Forall_forall in Hkeys.
      destruct (Hkeys g Hg) as (s & _ & _ & Hst). apply sort_key_is_str, Hst. }
    unfold sorted_runs. destruct runs0 as [|g [|g' runs0]].
    - exists []. split; [reflexivity | constructor].
    - exists [g]. split; [reflexivity | repeat constructor].
    - rewrite Hstr. eexists. split; [reflexivity|].
      apply (sort_desc_sorted str_key String.leb string_leb_total). }
  destruct Hsorted as (runs & Hsort & Hs).
  exists runs. unfold group_runs. rewrite Hbuild. cbn [bind].
  split; [exact Hsort|]. split; [exact Hs|].
  intros before g after -> Hg. clear Hsort.
  induction before as [|x before IH].
  - cbn [app] in Hs. revert g Hg Hs.
    induction after as [|h after IHa]; intros g Hg Hs; constructor.
    + apply Sorted_inv in Hs. destruct Hs as [_ Hhd].
      inversion Hhd as [|? ? Hle]; subst. unfold starts_no_earlier in Hle.
      rewrite Hg in Hle. destruct (str_key h); [reflexivity | discriminate Hle].
    + apply Sorted_inv in Hs. destruct Hs as [Hs Hhd].
      apply (IHa h); [|exact Hs].
      inversion Hhd as [|? ? Hle]; subst. unfold starts_no_earlier in Hle.
      rewrite Hg in Hle. destruct (str_key h); [reflexivity | discriminate Hle].
  - apply IH. cbn [app] in Hs. apply Sorted_inv in Hs. apply Hs.
Qed.

Lemma fop_snoc {A} (R : A -> A -> Prop) (l : list A) (c : A) :
  ForallOrdPairs R l -> Forall (fun y => R y c) l -> ForallOrdPairs R (l ++ [c]).
Proof.
  induction 1 as [|a l Ha Hl IH]; intros Hc; cbn [app].
  - repeat constructor.
  - inversion Hc as [|? ? Hac Hc']; subst. constructor.
    + apply Forall_app. split; [exact Ha | constructor; [exact Hac | constructor]].
    + apply IH, Hc'.
Qed.

(** Appending a client id that is truthy and not yet in the group. *)
Lemma runs_append_client_distinct (k c : json) (runs : list run) :
  Forall distinct_clients runs ->
  truthy c = true ->
  list_contains c (match runs_get k runs with
                   | Some r => client_ids r
                   | None => []
                   end) = false ->
  Forall distinct_clients (runs_append_client k c runs).
Proof.
  induction 1 as [|g runs [Htruthy Hfop] Hrest IH]; intros Hc Hnew;
    cbn [runs_append_client]; [constructor|].
  cbn [runs_get] in Hnew. destruct (py_eq (run_id g) k).
  - constructor; [|exact Hrest]. split; cbn [client_ids].
    + apply Forall_app. split; [exact Htruthy | constructor; [exact Hc | constructor]].
    + apply fop_snoc; [exact Hfop|].
      apply Forall_forall. intros y Hy.
      unfold list_contains in Hnew.
      destruct (py_eq y c) eqn:E; [|reflexivity].
      assert (Hex : existsb (fun y => py_eq y c) (client_ids g) = true)
        by (apply existsb_exists; exists y; auto).
      congruence.
  - constructor; [split; assumption | apply IH; assumption].
Qed.

Lemma add_benchmark_distinct (runs runs' : list run) (b : json) :
  add_benchmark runs b = Ok runs' ->
  Forall distinct_clients runs -> Forall distinct_clients runs'.
Proof.
  unfold add_benchmark. destruct b as [| | | | |d]; try discriminate.
  cbn [py_get bind]. intros H Hinv.
  match type of H with
  | (if negb (truthy ?rid) then _ else _) = _ =>
      destruct (truthy rid); cbn [negb] in H;
      [destruct (hashable rid); cbn [negb] in H; [|discriminate H]
      |injection H as <-; exact Hinv]
  end.
  match type of H with
  | (if truthy ?c && negb (list_contains ?c (match runs_get ?k ?rs with _ => _ end))
     then _ else _) = _ =>
      assert (Hinv1 : Forall distinct_clients rs);
      [|destruct (truthy c) eqn:Hc; cbn [andb] in H;
        [destruct (list_contains c (match runs_get k rs with
                                    | Some r => client_ids r
                                    | None => []
                                    end)) eqn:Hseen; cbn [negb] in H|];
        injection H as <-;
        [exact Hinv1
        |apply runs_append_client_distinct; assumption
        |exact Hinv1]]
  end.
  destruct (runs_mem _ runs); [exact Hinv|].
  apply Forall_app. split; [exact Hinv|].
  constructor; [|constructor]. split; cbn [client_ids]; constructor.
Qed.

Lemma build_runs_distinct (benchmarks : list json) :
  forall runs runs',
    build_runs benchmarks runs = Ok runs' ->
    Forall distinct_clients runs -> Forall distinct_clients runs'.
Proof.
  induction benchmarks as [|b rest IH]; intros runs runs' H Hinv; cbn [build_runs] in H.
  - injection H as <-. exact Hinv.
  - destruct (add_benchmark runs b) as [runs1|] eqn:E; cbn [bind] in H; [|discriminate].
    eapply IH; [exact H|]. eapply add_benchmark_distinct; eassumption.
Qed.

(** X15.  In every run that [get_runs] returns the client ids are truthy and
    pairwise different, whatever the records are: the groups are built that
    way and the sort only reorders them. *)
Theorem client_ids_are_distinct (benchmarks : list json) (runs : list run) :
  (forall l l', list_sort l = Ok l' -> Permutation l' l) ->
  group_runs list_sort benchmarks = Ok runs ->
  Forall distinct_clients runs.
Proof.
  unfold group_runs. intros Hlib H.
  destruct (build_runs benchmarks []) as [runs0|] eqn:E; cbn [bind] in H;
    [|discriminate].
  pose proof (@build_runs_distinct benchmarks [] runs0 E (Forall_nil _)) as Hinv.
  apply (@sorted_runs_perm runs0 runs Hlib) in H.
  rewrite Forall_forall in *. intros g Hg. apply Hinv.
  eapply Permutation_in; [exact H | exact Hg].
Qed.

Lemma py_eq_refl_hashable (k : json) : hashable k = true -> py_eq k k = true.
Proof.
  destruct k as [|b|n|s| |]; try discriminate; intros _; cbn [py_eq].
  - reflexivity.
  - destruct b; reflexivity.
  - apply NumberFacts.number_eq_refl.
  - apply String.eqb_refl.
Qed.

Lemma runs_append_client_core (k c : json) (runs : list run) :
  map core (runs_append_client k c runs) = map core runs.
Proof.
  induction runs as [|g runs IH]; [reflexivity|].
  cbn [runs_append_client]. destruct (py_eq (run_id g) k); cbn [map].
  - reflexivity.
  - rewrite IH. reflexivity.
Qed.

(** One step of the loop, as far as identifiers and metadata go. *)
Lemma add_benchmark_core (runs runs' : list run) (b : json) :
  add_benchmark runs b = Ok runs' ->
  map core runs' =
  map core (if identified b && negb (runs_mem (run_id_of b) runs)
            then (runs ++ [fresh_run b])%list else runs) /\
  (identified b = true -> hashable (run_id_of b) = true).
Proof.
  unfold add_benchmark. destruct b as [| | | | |d]; try discriminate.
  cbn [py_get bind].
  change (py_or (match dict_get "report_id" d with Some v => v | None => JNull end)
                (match dict_get "session_id" d with Some v => v | None => JNull end))
    with (run_id_of (JObj d)).
  change (truthy (run_id_of (JObj d))) with (identified (JObj d)).
  destruct (identified (JObj d)); cbn [negb andb].
  - destruct (hashable (run_id_of (JObj d))); cbn [negb]; [|discriminate].
    intros H. split; [|reflexivity].
    match type of H with
    | (if ?c then Ok ?a else Ok ?b) = _ =>
        assert (E : map core runs' = map core b)
          by (destruct c; injection H as <-;
              [apply runs_append_client_core | reflexivity])
    end.
    rewrite E. destruct (runs_mem (run_id_of (JObj d)) runs); reflexivity.
  - intros H. injection H as <-. split; [reflexivity | discriminate].
Qed.

Lemma build_runs_ids_from (benchmarks : list json) :
  forall runs runs',
    build_runs benchmarks runs = Ok runs' ->
    forall g, In g runs' ->
      In (run_id g) (ids runs) \/
      exists b, In b benchmarks /\ member_of g b = true.
Proof.
  induction benchmarks as [|b rest IH]; intros runs runs' H g Hg; cbn [build_runs] in H.
  - injection H as <-. left. unfold ids. apply in_map, Hg.
  - destruct (add_benchmark runs b) as [runs1|] eqn:E; cbn [bind] in H; [|discriminate].
    destruct (IH runs1 runs' H g Hg) as [Hin|(b' & Hb' & Hm)].
    + destruct (@add_benchmark_core runs runs1 b E) as [Hcore Hhash].
      assert (Hids : ids runs1 =
                     ids (if identified b && negb (runs_mem (run_id_of b) runs)
                          then (runs ++ [fresh_run b])%list else runs)).
      { assert (Eids : forall l, ids l = map (fun t => fst (fst (fst t))) (map core l))
          by (intros l; unfold ids; rewrite map_map; reflexivity).
        rewrite (Eids runs1), Hcore, <- Eids. reflexivity. }
      rewrite Hids in Hin.
      destruct (identified b) eqn:Hident; cbn [andb] in Hin; [|left; exact Hin].
      destruct (runs_mem (run_id_of b) runs); cbn [negb] in Hin; [left; exact Hin|].
      unfold ids in Hin. rewrite map_app in Hin. apply in_app_or in Hin.
      destruct Hin as [Hin|[Hin|[]]]; [left; exact Hin|].
      right. exists b. split; [left; reflexivity|].
      unfold member_of. rewrite Hident. cbn [andb fresh_run run_id] in *.
      rewrite <- Hin. apply py_eq_refl_hashable, Hhash. reflexivity.
    + right. exists b'. split; [right; exact Hb' | exact Hm].
Qed.

(** X16.  No run is empty: each run that [get_runs] returns has the identifier
    of some input record. *)
Theorem every_group_has_a_record (benchmarks : list json) (runs : list run) :
  (forall l l', list_sort l = Ok l' -> Permutation l' l) ->
  group_runs list_sort benchmarks = Ok runs ->
  Forall (fun g => exists b, In b benchmarks /\ member_of g b = true) runs.
Proof.
  unfold group_runs. intros Hlib H. apply Forall_forall. intros g Hg.
  destruct (build_runs benchmarks []) as [runs0|] eqn:E; cbn [bind] in H;
    [|discriminate].
  apply (@sorted_runs_perm runs0 runs Hlib) in H.
  assert (Hg0 : In g runs0) by (eapply Permutation_in; eassumption).
  destruct (@build_runs_ids_from benchmarks [] runs0 E g Hg0) as [[]|Hb].
  exact Hb.
Qed.

Lemma find_app_found {A} (f : A -> bool) (l l' : list A) (b : A) :
  find f l = Some b -> find f (l ++ l') = Some b.
Proof.
  induction l as [|x l IH]; cbn [find app]; [discriminate|].
  destruct (f x); [trivial | exact IH].
Qed.

Lemma find_app_fresh {A} (f : A -> bool) (l : list A) (b : A) :
  (forall x, In x l -> f x = false) -> f b = true ->
  find f (l ++ [b]) = Some b.
Proof.
  intros Hnone Hb. induction l as [|x l IH]; cbn [find app].
  - rewrite Hb. reflexivity.
  - rewrite (Hnone x (or_introl eq_refl)). apply IH.
    intros y Hy. apply Hnone. right. exact Hy.
Qed.

Lemma describes_core (seen : list json) (g g' : run) :
  core g = core g' ->
  first_record_describes seen g -> first_record_describes seen g'.
Proof.
  unfold core. intros E (b & Hfind & Hst & Hsc & Hnc).
  injection E as E1 E2 E3 E4.
  exists b. unfold member_of in *. rewrite <- E1. split; [exact Hfind|].
  unfold described_by. rewrite <- E2, <- E3, <- E4. auto.
Qed.

Lemma forall_by_core (Q : run -> Prop) (l l' : list run) :
  (forall g g', core g = core g' -> Q g -> Q g') ->
  map core l = map core l' -> Forall Q l -> Forall Q l'.
Proof.
  intros Hq. revert l'. induction l as [|g l IH]; intros [|g' l'] E H;
    try discriminate; constructor; cbn [map] in E; injection E as E1 E2;
    inversion H; subst.
  - eapply Hq; [|eassumption]. unfold core. congruence.
  - apply IH; assumption.
Qed.

Lemma add_benchmark_first (seen : list json) (runs : list run) (b : json) :
  groupable b = true -> grouped seen runs ->
  exists runs', add_benchmark runs b = Ok runs' /\ grouped (seen ++ [b]) runs'.
Proof.
  intros Hg (Hwk & Hseen & Hdesc).
  destruct (@add_benchmark_groupable runs b Hg Hwk)
    as (runs' & Hadd & Hwk' & Hmono & Hin).
  exists runs'. split; [exact Hadd|]. split; [exact Hwk'|]. split.
  - intros x Hx Hident. apply in_app_or in Hx.
    destruct Hx as [Hx|[<-|[]]]; [apply Hmono, Hseen; assumption | apply Hin, Hident].
  - destruct (@add_benchmark_core runs runs' b Hadd) as [Hcore _].
    eapply forall_by_core; [apply describes_core | symmetry; exact Hcore |].
    assert (Hold : Forall (first_record_describes (seen ++ [b])) runs).
    { eapply Forall_impl; [|exact Hdesc].
      intros g (x & Hfind & Hd). exists x. split; [|exact Hd].
      apply find_app_found, Hfind. }
    destruct (identified b) eqn:Hident; cbn [andb]; [|exact Hold].
    destruct (runs_mem (run_id_of b) runs) eqn:Hmem; cbn [negb]; [exact Hold|].
    apply Forall_app. split; [exact Hold|]. constructor; [|constructor].
    destruct (@identified_is_string b Hg Hident) as (s & Hs & _).
    exists b. split; [|repeat split].
    apply find_app_fresh.
    + intros x Hx. unfold member_of. cbn [fresh_run run_id].
      destruct (identified x) eqn:Hix; [cbn [andb]|reflexivity].
      destruct (py_eq (run_id_of b) (run_id_of x)) eqn:E; [|reflexivity].
      exfalso. rewrite Hs in E.
      assert (Hxs : run_id_of x = JStr s).
      { destruct (run_id_of x); try discriminate E.
        cbn [py_eq] in E. apply String.eqb_eq in E. subst. reflexivity. }
      pose proof (Hseen x Hx Hix) as Hxin. rewrite Hxs in Hxin.
      apply (@runs_mem_In runs s (proj1 Hwk)) in Hxin.
      rewrite Hs in Hmem. congruence.
    + unfold member_of. cbn [fresh_run run_id]. rewrite Hident, Hs.
      cbn [andb py_eq]. apply String.eqb_refl.
Qed.

Lemma build_runs_first (benchmarks : list json) :
  forallb groupable benchmarks = true ->
  forall seen runs, grouped seen runs ->
  exists runs',
    build_runs benchmarks runs = Ok runs' /\ grouped (seen ++ benchmarks) runs'.
Proof.
  induction benchmarks as [|b rest IH]; intros Hall seen runs Hk.
  - exists runs. rewrite app_nil_r. split; [reflexivity | exact Hk].
  - cbn [forallb] in Hall. apply andb_prop in Hall. destruct Hall as [Hb Hrest].
    destruct (@add_benchmark_first seen runs b Hb Hk) as (runs1 & Hadd & Hk1).
    destruct (IH Hrest (seen ++ [b])%list runs1 Hk1) as (runs2 & Hbuild & Hk2).
    exists runs2. cbn [build_runs]. rewrite Hadd. cbn [bind].
    split; [exact Hbuild|]. rewrite <- app_assoc in Hk2. exact Hk2.
Qed.

(** X17.  The start time, scenario and client count of a group are those of the
    first record discovered with its identifier, that is, of its record from
    the newest file. *)
Theorem first_record_describes_its_group (benchmarks : list json) :
  forallb groupable benchmarks = true ->
  exists runs,
    group_runs list_sort benchmarks = Ok runs /\
    Forall (first_record_describes benchmarks) runs.
Proof.
  intros Hall.
  assert (Hempty : grouped [] []).
  { split; [split; constructor|]. split; [intros x []|constructor]. }
  destruct (@build_runs_first benchmarks Hall [] [] Hempty)
    as (runs0 & Hbuild & Hwk & _ & Hdesc).
  destruct (@sorted_runs_well_keyed list_sort runs0 Hwk) as (runs & Hsort & Hperm).
  exists runs. unfold group_runs. rewrite Hbuild. cbn [bind app] in *.
  split; [exact Hsort|].
  rewrite Forall_forall in *. intros g Hg. apply Hdesc.
  eapply Permutation_in; [exact Hperm | exact Hg].
Qed.

End WithSort.

Lemma sample_sort_permutes (l l' : list run) :
  sample_sort l = Ok l' -> Permutation l' l.
Proof.
  intros H. injection H as <-. apply Permutation_refl.
Qed.

Lemma runs_are_latest_first_witness :
  exists runs,
    group_runs sample_sort sample_benchmarks = Ok runs /\
    Sorted starts_no_earlier runs /\
    (forall before g after,
        runs = (before ++ g :: after)%list -> str_key g = "" ->
        Forall (fun g' => str_key g' = "") after).
Proof.
  apply (@runs_are_latest_first sample_sort sample_benchmarks). reflexivity.
Defined.

Lemma client_ids_are_distinct_witness :
  Forall distinct_clients
    [{| run_id := JStr "solo"; scenario := JStr "unknown";
        start_time := JStr "2024-06-01T10:00:00"; num_clients := JNum (Int 1);
        client_ids := [] |};
     {| run_id := JStr "run-1"; scenario := JStr "unknown";
        start_time := JStr "2024-05-01T10:00:00"; num_clients := JNum (Int 1);
        client_ids := [JStr "c1"; JStr "c2"] |}].
Proof.
  apply (@client_ids_are_distinct sample_sort sample_benchmarks).
  - exact sample_sort_permutes.
  - reflexivity.
Defined.

Lemma every_group_has_a_record_witness :
  Forall (fun g => exists b, In b sample_benchmarks /\ member_of g b = true)
    [{| run_id := JStr "solo"; scenario := JStr "unknown";
        start_time := JStr "2024-06-01T10:00:00"; num_clients := JNum (Int 1);
        client_ids := [] |};
     {| run_id := JStr "run-1"; scenario := JStr "unknown";
        start_time := JStr "2024-05-01T10:00:00"; num_clients := JNum (Int 1);
        client_ids := [JStr "c1"; JStr "c2"] |}].
Proof.
  apply (@every_group_has_a_record sample_sort sample_benchmarks).
  - exact sample_sort_permutes.
  - reflexivity.
Defined.

Lemma first_record_describes_its_group_witness :
  exists runs,
    group_runs sample_sort sample_benchmarks = Ok runs /\
    Forall (first_record_describes sample_benchmarks) runs.
Proof.
  apply (@first_record_describes_its_group sample_sort sample_benchmarks).
  reflexivity.
Defined.

End RunExtras.

(** ** Run supervisor *)

Module SupervisorExtras.
Import Py Supervisor SupervisorSpec SupervisorLaws SupervisorFacts Samples MoreSamples.
Local Open Scope string_scope.

Lemma mapping_is_identity (s : string) :
  mapping_get s s scenario_mapping = s.
Proof.
  unfold scenario_mapping. cbn [mapping_get].
  repeat match goal with
         | |- (if String.eqb ?a ?b then _ else _) = _ =>
             destruct (String.eqb_spec a b) as [E|_]; [symmetry; exact E|]
         end.
  reflexivity.
Qed.

(** X18.  The command line: the scenario is passed through unchanged whatever its
    name, the numbers are printed in decimal, [--server-url] is given exactly
    when a non-empty URL is configured, and [--verbose] comes last. *)
Theorem command_line_shape (c : BenchmarkConfig) :
  build_benchmark_command c =
  (fixed_flags c
   ++ match serverUrl c with
      | Some url => if String.eqb url "" then [] else ["--server-url"; url]
      | None => []
      end
   ++ ["--verbose"])%list.
Proof.
  unfold build_benchmark_command, fixed_flags. rewrite mapping_is_identity.
  destruct (serverUrl c) as [url|]; [destruct (String.eqb url "")|]; reflexivity.
Qed.

Ltac step_run :=
  cbn -[build_benchmark_command str_of_int String.append Z.eqb parent].

Section WithText.
Variable str_exn : exn -> string.

(** The body of the [try] block on the three ways it can go. *)
Lemma run_goes_through (c : BenchmarkConfig) (env : run_env) (st : state)
  (rc : Z) (out err : string) :
  accessible env (parent (cwd st)) = true ->
  spawn_error env = None ->
  communicate env = Ok (rc, out, err) ->
  accessible env (cwd st) = true ->
  run_benchmark_process str_exn c env st =
    (after_run st
       (if (rc =? 0)%Z then "Benchmark completed successfully"
        else "Benchmark failed with code " ++ str_of_int rc)
       [child_of c st],
     Ok {| success := (rc =? 0)%Z;
           text := if (rc =? 0)%Z then "Benchmark completed successfully"
                   else "Benchmark failed with return code " ++ str_of_int rc;
           stdout := out; stderr := err |}).
Proof.
  intros Hws Hspawn Hcomm Hback.
  unfold run_benchmark_process, try_finally, try_except, bindM, getcwd,
    set_running, set_message, set_process, chdir, popen, wait_for, ret.
  step_run.
  rewrite Hws. step_run.
  rewrite Hspawn. step_run.
  rewrite Hcomm. step_run.
  destruct (rc =? 0)%Z;
    step_run;
    rewrite Hback; reflexivity.
Qed.

Lemma run_meets_failure (c : BenchmarkConfig) (env : run_env) (st : state)
  (e : exn) :
  run_failure env st = Some e ->
  accessible env (cwd st) = true ->
  run_benchmark_process str_exn c env st =
    if is_exception e
    then (after_run st ("Benchmark error: " ++ str_exn e)
            (if accessible env (parent (cwd st))
             then match spawn_error env with
                  | Some _ => []
                  | None => [child_of c st]
                  end
             else []),
          Ok {| success := false;
                text := "Error running benchmark: " ++ str_exn e;
                stdout := ""; stderr := str_exn e |})
    else (after_run st
            (if accessible env (parent (cwd st))
             then match spawn_error env with
                  | Some _ => "Initializing benchmark..."
                  | None => "Benchmark running..."
                  end
             else "Initializing benchmark...")
            (if accessible env (parent (cwd st))
             then match spawn_error env with
                  | Some _ => []
                  | None => [child_of c st]
                  end
             else []),
          Raise e).
Proof.
  unfold run_failure. intros Hfail Hback.
  unfold run_benchmark_process, try_finally, try_except, bindM, getcwd,
    set_running, set_message, set_process, chdir, popen, wait_for, ret.
  step_run.
  destruct (accessible env (parent (cwd st))); cbn [negb] in Hfail.
  - step_run.
    destruct (spawn_error env) as [e'|].
    + injection Hfail as ->.
      step_run.
      destruct (is_exception e);
        step_run;
        rewrite Hback; unfold after_run; rewrite ?app_nil_r; reflexivity.
    + step_run.
      destruct (communicate env) as [res|e']; [discriminate|].
      injection Hfail as ->.
      step_run.
      destruct (is_exception e);
        step_run;
        rewrite Hback; reflexivity.
  - injection Hfail as <-.
    step_run.
    rewrite Hback. unfold after_run. rewrite app_nil_r. reflexivity.
Qed.

(** X19.  A child that exits decides the outcome by its exit code: 0 is a success,
    anything else a failure whose message carries the code; either way the
    captured output is returned and the supervisor ends idle where it began. *)
Theorem exit_code_decides_outcome (c : BenchmarkConfig) (env : run_env)
  (st : state) (rc : Z) (out err : string) :
  accessible env (parent (cwd st)) = true ->
  spawn_error env = None ->
  communicate env = Ok (rc, out, err) ->
  accessible env (cwd st) = true ->
  snd (run_benchmark_process str_exn c env st) =
    Ok {| success := (rc =? 0)%Z;
          text := if (rc =? 0)%Z then "Benchmark completed successfully"
                  else "Benchmark failed with return code " ++ str_of_int rc;
          stdout := out; stderr := err |} /\
  message (fst (run_benchmark_process str_exn c env st)) =
    (if (rc =? 0)%Z then "Benchmark completed successfully"
     else "Benchmark failed with code " ++ str_of_int rc) /\
  idle (fst (run_benchmark_process str_exn c env st)) /\
  cwd (fst (run_benchmark_process str_exn c env st)) = cwd st.
Proof.
  intros Hws Hspawn Hcomm Hback.
  rewrite (@run_goes_through c env st rc out err Hws Hspawn Hcomm Hback).
  repeat split.
Qed.

(** X20.  A run that gets as far as spawning creates exactly one child, with the
    command line built from the configuration, and starts it two levels above
    the service directory: [..] is applied once by [os.chdir] and once more by
    [Popen(cwd=...)]. *)
Theorem one_child_two_levels_up (c : BenchmarkConfig) (env : run_env)
  (st : state) (rc : Z) (out err : string) :
  accessible env (parent (cwd st)) = true ->
  spawn_error env = None ->
  communicate env = Ok (rc, out, err) ->
  accessible env (cwd st) = true ->
  spawned (fst (run_benchmark_process str_exn c env st)) =
    (spawned st ++
     [{| pid := List.length (spawned st);
         args := build_benchmark_command c;
         child_cwd := parent (parent (cwd st)) |}])%list /\
  background_tasks (fst (run_benchmark_process str_exn c env st)) =
    background_tasks st.
Proof.
  intros Hws Hspawn Hcomm Hback.
  rewrite (@run_goes_through c env st rc out err Hws Hspawn Hcomm Hback).
  split; reflexivity.
Qed.

(** X21.  An exception met during a run (the workspace cannot be entered, the spawn
    fails, waiting fails) is not raised but reported: the run returns a
    failure dict with the text of the exception, leaves it in the status
    message, and ends idle where it began. *)
Theorem failures_are_reported (c : BenchmarkConfig) (env : run_env)
  (st : state) (e : exn) :
  run_failure env st = Some e ->
  is_exception e = true ->
  accessible env (cwd st) = true ->
  snd (run_benchmark_process str_exn c env st) =
    Ok {| success := false;
          text := "Error running benchmark: " ++ str_exn e;
          stdout := ""; stderr := str_exn e |} /\
  message (fst (run_benchmark_process str_exn c env st)) =
    "Benchmark error: " ++ str_exn e /\
  idle (fst (run_benchmark_process str_exn c env st)) /\
  cwd (fst (run_benchmark_process str_exn c env st)) = cwd st.
Proof.
  intros Hfail Hexc Hback.
  rewrite (@run_meets_failure c env st e Hfail Hback), Hexc.
  repeat split.
Qed.

(** X22.  Only an exception that is no [Exception] gets out of a run. *)
Theorem only_base_exceptions_escape (c : BenchmarkConfig) (env : run_env)
  (st : state) (e : exn) :
  accessible env (cwd st) = true ->
  snd (run_benchmark_process str_exn c env st) = Raise e ->
  is_exception e = false /\ run_failure env st = Some e.
Proof.
  intros Hback Hraise.
  destruct (run_failure env st) as [e'|] eqn:Hfail.
  - rewrite (@run_meets_failure c env st e' Hfail Hback) in Hraise.
    destruct (is_exception e') eqn:He; cbn [snd] in Hraise; [discriminate|].
    injection Hraise as <-. split; [exact He | reflexivity].
  - exfalso. unfold run_failure in Hfail.
    destruct (accessible env (parent (cwd st))) eqn:Hws; cbn [negb] in Hfail;
      [|discriminate].
    destruct (spawn_error env) eqn:Hspawn; [discriminate|].
    destruct (communicate env) as [[[rc out] err]|] eqn:Hcomm; [|discriminate].
    rewrite (@run_goes_through c env st rc out err Hws Hspawn Hcomm Hback) in Hraise.
    discriminate Hraise.
Qed.

(** [stop_benchmark] with nothing to stop answers 400 and changes nothing. *)
Lemma stop_refused_when_idle (env : stop_env) (st : state) :
  running st = false \/ current_benchmark_process st = None ->
  stop_benchmark str_exn env st =
    (st, Raise (HTTPException 400 "No benchmark running")).
Proof.
  unfold stop_benchmark. intros [H|H]; rewrite H.
  - reflexivity.
  - destruct (running st); reflexivity.
Qed.

(** X23.  [stop_benchmark] on a running child: a child that exits in time and one
    that has to be killed both clear the flag, with different messages; any
    other failure is answered with 500 and leaves the flag set.  The handle
    is kept in every case: only the run itself releases it. *)
Theorem stop_outcomes (env : stop_env) (st : state) (p : process) :
  running st = true ->
  current_benchmark_process st = Some p ->
  current_benchmark_process (fst (stop_benchmark str_exn env st)) = Some p /\
  match wait_error env with
  | None =>
      snd (stop_benchmark str_exn env st) = Ok (Stopped "Benchmark stopped") /\
      running (fst (stop_benchmark str_exn env st)) = false /\
      message (fst (stop_benchmark str_exn env st)) = "Benchmark stopped by user"
  | Some TimeoutExpired =>
      snd (stop_benchmark str_exn env st) =
        Ok (Stopped "Benchmark forcefully terminated") /\
      running (fst (stop_benchmark str_exn env st)) = false /\
      message (fst (stop_benchmark str_exn env st)) =
        "Benchmark forcefully terminated"
  | Some e =>
      fst (stop_benchmark str_exn env st) = st /\
      snd (stop_benchmark str_exn env st) =
        Raise (if is_exception e
               then HTTPException 500 ("Failed to stop benchmark: " ++ str_exn e)
               else e)
  end.
Proof.
  intros Hr Hp. unfold stop_benchmark. rewrite Hr, Hp.
  destruct (wait_error env) as [e|]; [destruct e|];
    unfold or_500, try_except, raise, bindM, set_running, set_message, ret;
    cbn -[String.append]; auto.
Qed.

(** X24.  [run_benchmark] is asynchronous: it spawns nothing, does not touch the
    flag, the handle or the working directory, and at most queues one task. *)
Theorem start_only_enqueues (request : BenchmarkRequest) (st : state) :
  spawned (fst (run_benchmark str_exn request st)) = spawned st /\
  running (fst (run_benchmark str_exn request st)) = running st /\
  current_benchmark_process (fst (run_benchmark str_exn request st)) =
    current_benchmark_process st /\
  cwd (fst (run_benchmark str_exn request st)) = cwd st /\
  background_tasks (fst (run_benchmark str_exn request st)) =
    (background_tasks st ++
     match snd (run_benchmark str_exn request st) with
     | Ok _ => [config request]
     | Raise _ => []
     end)%list.
Proof.
  unfold run_benchmark. destruct (running st) eqn:Hr; cbn [fst snd].
  - rewrite app_nil_r. auto.
  - unfold or_500, try_except, bindM, add_task, ret. cbn [fst snd]. auto.
Qed.

(** X25.  However the requests and the runs were interleaved so far, the next
    start is accepted and the next stop is refused: the flag is only ever set
    inside a run, which no request can interrupt. *)
Theorem start_is_never_refused (evs : list event) (service_dir : path)
  (request : BenchmarkRequest) (env : stop_env) :
  snd (run_benchmark str_exn request
         (run_events str_exn evs (initial_state service_dir)))
    = Ok (Started (config request)) /\
  snd (stop_benchmark str_exn env
         (run_events str_exn evs (initial_state service_dir)))
    = Raise (HTTPException 400 "No benchmark running").
Proof.
  destruct (never_observed_running str_exn evs service_dir) as [Hr Hp].
  unfold run_benchmark, stop_benchmark. rewrite Hr. split; reflexivity.
Qed.

Lemma without_task_perm (tasks : list BenchmarkConfig) :
  forall i c, nth_error tasks i = Some c ->
              Permutation (c :: without_task i tasks) tasks.
Proof.
  unfold without_task.
  induction tasks as [|x tasks IH]; intros [|i] c H; cbn in H; try discriminate.
  - injection H as <-. apply Permutation_refl.
  - cbn [firstn skipn app].
    eapply perm_trans; [apply perm_swap|]. apply perm_skip, IH, H.
Qed.

(** Starting a task that is waiting: it leaves the waiting ones and one child
    is created, with the command line of its configuration. *)
Lemma run_task_goes_through (env : run_env) (st : state) (i : nat)
  (c : BenchmarkConfig) (rc : Z) (out err : string) :
  dependable env rc out err ->
  nth_error (background_tasks st) i = Some c ->
  background_tasks (step str_exn (RunTask env i) st)
    = without_task i (background_tasks st) /\
  command_lines (step str_exn (RunTask env i) st) =
    (command_lines st ++ [build_benchmark_command c])%list.
Proof.
  intros (Hacc & Hspawn & Hcomm) Htask.
  set (taken := {| running := running st; message := message st;
                   current_benchmark_process := current_benchmark_process st;
                   cwd := cwd st;
                   background_tasks := without_task i (background_tasks st);
                   spawned := spawned st |}).
  assert (Hstep : step str_exn (RunTask env i) st =
                  fst (run_benchmark_process str_exn c env taken)).
  { cbn [step]. unfold bindM, take_task. rewrite Htask. fold taken.
    destruct (run_benchmark_process str_exn c env taken) as [st' [o|e]];
      reflexivity. }
  rewrite Hstep.
  rewrite (@run_goes_through c env taken rc out err
             (Hacc _) Hspawn Hcomm (Hacc _)).
  unfold command_lines.
  cbn [fst after_run background_tasks spawned taken].
  split; [reflexivity|]. rewrite map_app. reflexivity.
Qed.

(** There is nothing to start at a position beyond the waiting tasks. *)
Lemma run_task_beyond (env : run_env) (st : state) (i : nat) :
  nth_error (background_tasks st) i = None ->
  step str_exn (RunTask env i) st = st.
Proof.
  intros H. cbn [step]. unfold bindM, take_task. rewrite H. reflexivity.
Qed.

(** X26.  In an environment where runs go through, in whatever order the
    framework starts the waiting tasks, once none is left waiting each of
    them has created exactly one child, with the command line of its own
    configuration. *)
Theorem every_waiting_task_runs_once (env : run_env) (rc : Z) (out err : string)
  (picks : list nat) (st : state) :
  dependable env rc out err ->
  background_tasks (run_events str_exn (map (RunTask env) picks) st) = [] ->
  Permutation
    (command_lines (run_events str_exn (map (RunTask env) picks) st))
    (command_lines st ++ map build_benchmark_command (background_tasks st)).
Proof.
  intros Henv. revert st. unfold run_events.
  induction picks as [|i picks IH]; intros st Hdone; cbn [map fold_left] in *.
  - rewrite Hdone. cbn [map]. rewrite app_nil_r. apply Permutation_refl.
  - eapply perm_trans; [apply (IH _ Hdone)|].
    destruct (nth_error (background_tasks st) i) as [c|] eqn:Htask.
    + destruct (@run_task_goes_through env st i c rc out err Henv Htask)
        as [Hq Hs].
      rewrite Hq, Hs, <- app_assoc. apply Permutation_app_head.
      change ([build_benchmark_command c] ++
              map build_benchmark_command (without_task i (background_tasks st)))%list
        with (map build_benchmark_command
                (c :: without_task i (background_tasks st))).
      apply Permutation_map, without_task_perm, Htask.
    + rewrite (@run_task_beyond env st i Htask). apply Permutation_refl.
Qed.

End WithText.

Lemma exit_code_decides_outcome_witness :
  snd (run_benchmark_process sample_str sample_config run_succeeds
         (initial_state service_dir)) =
    Ok {| success := true; text := "Benchmark completed successfully";
          stdout := "done"; stderr := "" |} /\
  message (fst (run_benchmark_process sample_str sample_config run_succeeds
                  (initial_state service_dir))) =
    "Benchmark completed successfully" /\
  idle (fst (run_benchmark_process sample_str sample_config run_succeeds
               (initial_state service_dir))) /\
  cwd (fst (run_benchmark_process sample_str sample_config run_succeeds
              (initial_state service_dir))) = service_dir.
Proof.
  apply (@exit_code_decides_outcome sample_str sample_config run_succeeds
           (initial_state service_dir) 0%Z "done" "");
    reflexivity.
Defined.

Lemma one_child_two_levels_up_witness :
  spawned (fst (run_benchmark_process sample_str sample_config run_succeeds
                  (initial_state service_dir))) =
    [{| pid := 0;
        args := build_benchmark_command sample_config;
        child_cwd := ["srv"] |}] /\
  background_tasks
    (fst (run_benchmark_process sample_str sample_config run_succeeds
            (initial_state service_dir))) = [].
Proof.
  apply (@one_child_two_levels_up sample_str sample_config run_succeeds
           (initial_state service_dir) 0%Z "done" "");
    reflexivity.
Defined.

Lemma failures_are_reported_witness :
  snd (run_benchmark_process sample_str sample_config spawn_fails
         (initial_state service_dir)) =
    Ok {| success := false; text := "Error running benchmark: ";
          stdout := ""; stderr := "" |} /\
  message (fst (run_benchmark_process sample_str sample_config spawn_fails
                  (initial_state service_dir))) = "Benchmark error: " /\
  idle (fst (run_benchmark_process sample_str sample_config spawn_fails
               (initial_state service_dir))) /\
  cwd (fst (run_benchmark_process sample_str sample_config spawn_fails
              (initial_state service_dir))) = service_dir.
Proof.
  apply (@failures_are_reported sample_str sample_config spawn_fails
           (initial_state service_dir) OSError);
    reflexivity.
Defined.

Lemma only_base_exceptions_escape_witness :
  is_exception KeyboardInterrupt = false /\
  run_failure interrupted (initial_state service_dir) = Some KeyboardInterrupt.
Proof.
  apply (@only_base_exceptions_escape sample_str sample_config interrupted
           (initial_state service_dir) KeyboardInterrupt);
    reflexivity.
Defined.

Lemma stop_outcomes_witness :
  current_benchmark_process
    (fst (stop_benchmark sample_str {| wait_error := Some TimeoutExpired |}
            busy_state)) =
    Some {| pid := 0; args := build_benchmark_command sample_config;
            child_cwd := ["srv"] |} /\
  snd (stop_benchmark sample_str {| wait_error := Some TimeoutExpired |} busy_state)
    = Ok (Stopped "Benchmark forcefully terminated") /\
  running (fst (stop_benchmark sample_str {| wait_error := Some TimeoutExpired |}
                  busy_state)) = false /\
  message (fst (stop_benchmark sample_str {| wait_error := Some TimeoutExpired |}
                  busy_state)) = "Benchmark forcefully terminated".
Proof.
  apply (@stop_outcomes sample_str {| wait_error := Some TimeoutExpired |}
           busy_state
           {| pid := 0; args := build_benchmark_command sample_config;
              child_cwd := ["srv"] |});
    reflexivity.
Defined.

Lemma every_waiting_task_runs_once_witness :
  Permutation
    (command_lines (run_events sample_str (map (RunTask run_succeeds) [1; 0]%nat)
                      two_queued))
    (command_lines two_queued ++
     map build_benchmark_command (background_tasks two_queued)).
Proof.
  apply (@every_waiting_task_runs_once sample_str run_succeeds 0%Z "done" ""
           [1; 0]%nat two_queued).
  - repeat split.
  - reflexivity.
Defined.

End SupervisorExtras.

(** ** Queries and file listing *)

Module QueryExtras.
Import Py Scanner ScannerSpec Aggregator AggregateSpec AggregateLaws Queries
  QuerySpec Files QueryLaws SortFacts SortedFacts ScannerFacts ScanFacts ScanExtras
  AggregatorFacts AggregateExtras QueryFacts Samples.
Local Open Scope string_scope.

Section WithText.
Variable str_exn : exn -> string.

(** The library sort, see [Aggregator.sorted_runs]. *)
Variable list_sort : list run -> result (list run).

(** X11.  In the answer of [/api/benchmarks] the three counts agree: the records
    returned, [count], and [total_benchmarks] of the metrics. *)
Theorem counts_agree (dir : list file) (benchmarks : list json) (n : Z)
  (metrics : aggregate) :
  get_benchmarks str_exn dir = Ok (benchmarks, n, metrics) ->
  load_benchmark_files dir = Ok benchmarks /\
  n = Z.of_nat (List.length benchmarks) /\
  total_benchmarks metrics = n.
Proof.
  unfold get_benchmarks, or_500.
  destruct (load_benchmark_files dir) as [bs|e]; cbn [bind].
  - destruct (calculate_aggregate_metrics bs) as [m|e] eqn:Hm; cbn [bind].
    + intros H. injection H as <- <- <-.
      split; [reflexivity|]. split; [reflexivity|].
      apply total_benchmarks_is_length, Hm.
    + destruct (is_exception e); discriminate.
  - destruct (is_exception e); discriminate.
Qed.

(** X12.  With no file named [benchmark_*.json] every query answers the empty
    case: no records, zero metrics, no runs, and a lookup answers 500. *)
Theorem empty_store_answers (dir : list file) (session_id : string) :
  forallb (fun f => negb (fnmatch "benchmark_*.json" (name f))) dir = true ->
  load_benchmark_files_logged dir = ([], Ok []) /\
  get_benchmarks str_exn dir = Ok ([], 0%Z, empty_aggregate) /\
  get_metrics str_exn dir = Ok empty_aggregate /\
  get_runs str_exn list_sort dir = Ok ([], 0%Z) /\
  get_benchmark str_exn dir session_id =
    Raise (HTTPException 500
             ("Failed to get benchmark: "
              ++ str_exn (HTTPException 404 "Benchmark not found"))).
Proof.
  intros H. pose proof (scan_of_no_match dir H) as Hscan.
  assert (Hload : load_benchmark_files dir = Ok []).
  { unfold load_benchmark_files. rewrite Hscan. reflexivity. }
  split; [exact Hscan|].
  unfold get_benchmarks, get_metrics, get_runs, get_benchmark.
  rewrite Hload. repeat split.
Qed.

(** X13.  A lookup that has a match answers with the first matching record in
    scan order, that is, the one from the newest file. *)
Theorem lookup_returns_newest_match (dir : list file) (session_id : string)
  (benchmarks : list json) :
  load_benchmark_files dir = Ok benchmarks ->
  existsb (matches session_id) benchmarks = true ->
  exists before b after,
    get_benchmark str_exn dir session_id = Ok b /\
    benchmarks = (before ++ b :: after)%list /\
    matches session_id b = true /\
    existsb (matches session_id) before = false.
Proof.
  intros Hload Hsome. unfold get_benchmark. rewrite Hload. cbn [bind].
  destruct (@next_match_hit session_id benchmarks (loaded_are_records dir Hload) Hsome)
    as (b & -> & Hfind & Htruthy).
  cbn [bind]. rewrite Htruthy. cbn [negb].
  clear Hload Hsome Htruthy.
  induction benchmarks as [|x rest IH]; [discriminate|].
  cbn [find] in Hfind. destruct (matches session_id x) eqn:Hx.
  - injection Hfind as <-. exists [], x, rest. auto.
  - destruct (IH Hfind) as (before & b' & after & Hb & -> & Hm & Hnone).
    injection Hb as <-.
    exists (x :: before), b, after. repeat split; [exact Hm|].
    cbn [existsb]. rewrite Hx, Hnone. reflexivity.
Qed.

(** X10.  [get_metrics] returns the metrics or raises with status 500, never
    another error, and 500 only when the aggregate computation fails: on a
    section or a metric of the wrong type, or on an int too large for a
    float. *)
Theorem metrics_fail_only_with_500 (dir : list file) :
  (exists agg, get_metrics str_exn dir = Ok agg) \/
  (exists e, (e = AttributeError \/ e = TypeError \/ e = OverflowError) /\
             get_metrics str_exn dir =
               Raise (HTTPException 500
                        ("Failed to calculate metrics: " ++ str_exn e))).
Proof.
  unfold get_metrics, or_500.
  destruct (load_all_or_nothing dir) as (out & -> & _). cbn [bind].
  destruct (calculate_aggregate_metrics out) as [agg|e] eqn:E.
  - left. exists agg. reflexivity.
  - right. exists e. pose proof (calculate_raises _ E) as He.
    split; [exact He|]. destruct He as [-> |[-> | ->]]; reflexivity.
Qed.

(** X9.  One stored record whose [zkp_metrics] or [training_metrics] is present
    but is no dict (null, say) makes the aggregate fail, at that record or
    before it, and with it both [/api/metrics] and [/api/benchmarks], which
    answer 500. *)
Theorem broken_record_is_500 (dir : list file) (benchmarks : list json) (b : json) :
  load_benchmark_files dir = Ok benchmarks ->
  In b benchmarks -> broken_section b ->
  exists e,
    (e = AttributeError \/ e = TypeError \/ e = OverflowError) /\
    calculate_aggregate_metrics benchmarks = Raise e /\
    get_metrics str_exn dir =
      Raise (HTTPException 500 ("Failed to calculate metrics: " ++ str_exn e)) /\
    get_benchmarks str_exn dir =
      Raise (HTTPException 500 ("Failed to load benchmarks: " ++ str_exn e)).
Proof.
  intros Hload Hin Hb.
  destruct (@aggregate_loop_broken benchmarks b Hin Hb zero_totals 0%Z)
    as (e & He & Herr).
  assert (Hcalc : calculate_aggregate_metrics benchmarks = Raise e).
  { unfold calculate_aggregate_metrics.
    destruct benchmarks as [|x rest]; [destruct Hin|]. rewrite He. reflexivity. }
  exists e. split; [exact Herr|]. split; [exact Hcalc|].
  unfold get_metrics, get_benchmarks, or_500. rewrite Hload. cbn [bind].
  rewrite Hcalc. cbn [bind]. destruct Herr as [-> |[-> | ->]]; split; reflexivity.
Qed.

Variable st_size : file -> Z.
Variable isoformat : Q -> string.

Lemma filter_map_swap {A B} (h : A -> B) (p : B -> bool) (l : list A) :
  filter p (map h l) = map h (filter (fun x => p (h x)) l).
Proof.
  induction l as [|x l IH]; [reflexivity|]. cbn [map filter].
  destruct (p (h x)); cbn [map]; rewrite IH; reflexivity.
Qed.


(** X28.  A file the report pattern matches is listed twice by [/api/files]. *)
Theorem report_files_are_listed_twice (dir : list file) (f : file)
  (files : list file_info) (n : Z) :
  NoDup (map name dir) ->
  In f dir ->
  fnmatch "benchmark_report_*.json" (name f) = true ->
  list_benchmark_files str_exn st_size isoformat dir = Ok (files, n) ->
  filter (fun i => String.eqb (info_path i) (path_of f)) files =
    [stat_info st_size isoformat f; stat_info st_size isoformat f].
Proof.
  intros Hnd Hin Hrep Hlist.
  unfold list_benchmark_files, or_500, patterns in Hlist. cbn [flat_map] in Hlist.
  rewrite app_nil_r in Hlist. injection Hlist as <- _.
  assert (P : Permutation
                [stat_info st_size isoformat f; stat_info st_size isoformat f]
                (filter (fun i => String.eqb (info_path i) (path_of f))
                   (sort_desc info_modified String.leb
                      (map (stat_info st_size isoformat)
                         (glob dir "benchmark_*.json" ++
                          glob dir "benchmark_report_*.json"))))).
  { apply Permutation_sym.
    eapply perm_trans; [apply filter_sort_desc_perm|].
    rewrite filter_map_swap.
    assert (E : forall g, String.eqb (info_path (stat_info st_size isoformat g)) (path_of f)
                          = String.eqb (name g) (name f)) by (intros g; reflexivity).
    rewrite (filter_ext _ _ E), filter_app.
    rewrite (matched_once dir f _ Hnd Hin (report_pattern_is_covered _ Hrep)).
    rewrite (matched_once dir f _ Hnd Hin Hrep).
    apply Permutation_refl. }
  apply Permutation_length_2_inv in P. destruct P as [P|P]; exact P.
Qed.

End WithText.

Lemma lookup_returns_newest_match_witness :
  exists before b after,
    get_benchmark sample_str sample_dir "s7" = Ok b /\
    (normalized
       {| name := "benchmark_multi_client_42.json"; mtime := 20;
          body := Parsed (JObj [("session_id", JStr "s42")]) |}
     ++ normalized
       {| name := "benchmark_single_7.json"; mtime := 10;
          body := Parsed (JObj [("session_id", JStr "s7")]) |})%list
      = (before ++ b :: after)%list /\
    matches "s7" b = true /\
    existsb (matches "s7") before = false.
Proof.
  apply (@lookup_returns_newest_match sample_str sample_dir "s7").
  - reflexivity.
  - reflexivity.
Defined.

Lemma counts_agree_witness :
  load_benchmark_files sample_dir =
    Ok (normalized
          {| name := "benchmark_multi_client_42.json"; mtime := 20;
             body := Parsed (JObj [("session_id", JStr "s42")]) |}
        ++ normalized
          {| name := "benchmark_single_7.json"; mtime := 10;
             body := Parsed (JObj [("session_id", JStr "s7")]) |})%list /\
  2%Z = Z.of_nat
          (List.length
             (normalized
                {| name := "benchmark_multi_client_42.json"; mtime := 20;
                   body := Parsed (JObj [("session_id", JStr "s42")]) |}
              ++ normalized
                {| name := "benchmark_single_7.json"; mtime := 10;
                   body := Parsed (JObj [("session_id", JStr "s7")]) |})%list) /\
  total_benchmarks (float_zeros 2) = 2%Z.
Proof.
  apply (@counts_agree sample_str sample_dir _ 2%Z (float_zeros 2)).
  reflexivity.
Defined.

Lemma empty_store_answers_witness :
  load_benchmark_files_logged
    [ {| name := "notes.txt"; mtime := 3; body := Malformed |};
      {| name := "benchmark.json"; mtime := 4; body := Parsed (JObj []) |};
      {| name := "Benchmark_1.json"; mtime := 5; body := Parsed (JObj []) |} ]
    = ([], Ok []) /\
  get_benchmarks sample_str
    [ {| name := "notes.txt"; mtime := 3; body := Malformed |};
      {| name := "benchmark.json"; mtime := 4; body := Parsed (JObj []) |};
      {| name := "Benchmark_1.json"; mtime := 5; body := Parsed (JObj []) |} ]
    = Ok ([], 0%Z, empty_aggregate) /\
  get_metrics sample_str
    [ {| name := "notes.txt"; mtime := 3; body := Malformed |};
      {| name := "benchmark.json"; mtime := 4; body := Parsed (JObj []) |};
      {| name := "Benchmark_1.json"; mtime := 5; body := Parsed (JObj []) |} ]
    = Ok empty_aggregate /\
  get_runs sample_str RunLaws.sample_sort
    [ {| name := "notes.txt"; mtime := 3; body := Malformed |};
      {| name := "benchmark.json"; mtime := 4; body := Parsed (JObj []) |};
      {| name := "Benchmark_1.json"; mtime := 5; body := Parsed (JObj []) |} ]
    = Ok ([], 0%Z) /\
  get_benchmark sample_str
    [ {| name := "notes.txt"; mtime := 3; body := Malformed |};
      {| name := "benchmark.json"; mtime := 4; body := Parsed (JObj []) |};
      {| name := "Benchmark_1.json"; mtime := 5; body := Parsed (JObj []) |} ]
    "s7"
    = Raise (HTTPException 500 "Failed to get benchmark: 404: Benchmark not found").
Proof.
  apply (@empty_store_answers sample_str RunLaws.sample_sort
           [ {| name := "notes.txt"; mtime := 3; body := Malformed |};
             {| name := "benchmark.json"; mtime := 4; body := Parsed (JObj []) |};
             {| name := "Benchmark_1.json"; mtime := 5; body := Parsed (JObj []) |} ]
           "s7").
  reflexivity.
Defined.

Lemma broken_record_is_500_witness :
  exists e,
    (e = AttributeError \/ e = TypeError \/ e = OverflowError) /\
    calculate_aggregate_metrics (normalized
       {| name := "benchmark_single_7.json"; mtime := 10;
          body := Parsed (JObj [("session_id", JStr "s7");
                                ("zkp_metrics", JNull)]) |}) = Raise e /\
    get_metrics sample_str broken_dir =
      Raise (HTTPException 500 ("Failed to calculate metrics: " ++ sample_str e)) /\
    get_benchmarks sample_str broken_dir =
      Raise (HTTPException 500 ("Failed to load benchmarks: " ++ sample_str e)).
Proof.
  apply (@broken_record_is_500 sample_str broken_dir
           (normalized
              {| name := "benchmark_single_7.json"; mtime := 10;
                 body := Parsed (JObj [("session_id", JStr "s7");
                                       ("zkp_metrics", JNull)]) |})
           (JObj [("session_id", JStr "s7"); ("zkp_metrics", JNull);
                  ("filename", JStr "benchmark_single_7.json");
                  ("file_mtime", JNum (Float (Finite 10))); ("scenario", JStr "single-client")])).
  - reflexivity.
  - left. reflexivity.
  - exists [("session_id", JStr "s7"); ("zkp_metrics", JNull);
            ("filename", JStr "benchmark_single_7.json");
            ("file_mtime", JNum (Float (Finite 10))); ("scenario", JStr "single-client")],
           "zkp_metrics", JNull.
    repeat split. left. reflexivity.
Defined.

Lemma report_files_are_listed_twice_witness :
  filter (fun i => String.eqb (info_path i) (path_of first_report))
    (sort_desc info_modified String.leb
       (map (stat_info (fun _ => 512%Z) sample_isoformat)
          (glob reports_dir "benchmark_*.json" ++
           glob reports_dir "benchmark_report_*.json")))
  = [stat_info (fun _ => 512%Z) sample_isoformat first_report;
     stat_info (fun _ => 512%Z) sample_isoformat first_report].
Proof.
  apply (@report_files_are_listed_twice sample_str (fun _ => 512%Z)
           sample_isoformat reports_dir first_report _ 5%Z).
  - exact names_distinct.
  - left. reflexivity.
  - reflexivity.
  - reflexivity.
Defined.

End QueryExtras.

